(** * Diagnostic analysis and health scoring of [main_program/app.py]

    A shallow embedding of [DiagnosticReportProcessor]: the four subsystem
    analyzers, the performance aggregator, the health scorer, the
    recommendation generator and [process_report], followed by the
    properties established about them.

    Conventions of the embedding:
    - Python [int] is [Z]; Python [float] is a binary64 primitive float.
    - a [dict] keyed by strings is a [gmap string _]; a key that may be
      absent from a fixed-shape dict is an [option] field.
    - the file system is an explicit tree; reading a file has one of three
      outcomes (text, [IOError], [UnicodeDecodeError]).
    - exceptions that leave a function are values of [result];
    - a value read from [report.json] is a [jvalue], any JSON value. *)

From Stdlib Require Import ZArith QArith Qround String List Sorted Lia Bool.
From Stdlib Require Import Floats.PrimFloat Floats.SpecFloat Floats.FloatOps.
From stdpp Require Import gmap strings.

Local Open Scope Z_scope.
Local Open Scope string_scope.

(** ** Exceptions *)

(** The exceptions that can leave the analysis code.  [IOError] raised by
    [open]/[read] is caught at every read site and therefore never appears
    here. *)
Inductive exn : Set :=
| UnicodeDecodeError
| NotADirectoryError
| OverflowError
| ValueError
| AttributeError.

Inductive result (A : Type) : Type :=
| Ok (a : A)
| Raise (e : exn).

Arguments Ok {A} a.
Arguments Raise {A} e.

Definition bind {A B : Type} (r : result A) (k : A -> result B) : result B :=
  match r with
  | Ok a => k a
  | Raise e => Raise e
  end.

Notation "'do' x <- r ; k" := (bind r (fun x => k))
  (at level 10, x name, r at level 100, k at level 200,
   format "'[v' 'do'  x  <-  r ; '/' k ']'").

Definition is_ok {A : Type} (r : result A) : bool :=
  match r with Ok _ => true | Raise _ => false end.

Definition result_map {A B : Type} (f : A -> B) (r : result A) : result B :=
  match r with Ok a => Ok (f a) | Raise e => Raise e end.

(** ** The artifact tree *)

(** What [open(path, 'r')] followed by [f.read()] does on a regular file. *)
Inductive read_outcome : Set :=
| Text (content : string)   (* the decoded content *)
| IOFailure                 (* raises IOError (OSError) *)
| DecodeFailure.            (* raises UnicodeDecodeError, a ValueError *)

(** A path that exists is a regular file or a directory; the entries of a
    directory are listed in the order [iterdir()] yields them. *)
#[warnings="-register-all"]
Inductive node : Type :=
| File (r : read_outcome)
| Dir (entries : list (string * node)).

Fixpoint assoc (name : string) (es : list (string * node)) : option node :=
  match es with
  | [] => None
  | (k, v) :: es' => if String.eqb k name then Some v else assoc name es'
  end.

(** [child d name] is [Some n] exactly when [(d / name).exists()]. Below a
    regular file nothing exists ([ENOTDIR] is swallowed by [Path.exists]). *)
Definition child (d : node) (name : string) : option node :=
  match d with
  | Dir es => assoc name es
  | File _ => None
  end.

(** [Path.is_dir()] *)
Definition is_dir (n : node) : bool :=
  match n with Dir _ => true | File _ => false end.

(** [Path.iterdir()] *)
Definition iterdir (n : node) : result (list (string * node)) :=
  match n with
  | Dir es => Ok es
  | File _ => Raise NotADirectoryError
  end.

(** The three ways the block
    [try: with open(p,'r') as f: content = f.read() ... except IOError: ...]
    can go for an existing path [p]. Opening a directory raises
    [IsADirectoryError], which is an [OSError] and hence caught. *)
Inductive read_result : Set :=
| ReadText (content : string)
| ReadIOError
| ReadDecodeError.

Definition read_text (n : node) : read_result :=
  match n with
  | File (Text s) => ReadText s
  | File IOFailure => ReadIOError
  | File DecodeFailure => ReadDecodeError
  | Dir _ => ReadIOError
  end.

(** ** Substring test: Python's [needle in content] on [str] *)

Fixpoint contains (needle hay : string) : bool :=
  String.prefix needle hay ||
  match hay with
  | EmptyString => false
  | String _ hay' => contains needle hay'
  end.

(** ** Subsystem results *)

Inductive detail : Type :=
| DStr (s : string)
| DDict (m : gmap string string).

(** [{'status': ..., 'score': ..., 'details': ...}]; the placeholder built
    by [_analyze_performance] has no ['details'] key. *)
Record subsystem_result : Type := mkResult {
  status : string;
  score : Z;
  details : option (gmap string detail)
}.

(** The running [analysis['score']] and [analysis['details']] of an analyzer. *)
Definition acc : Type := Z * gmap string detail.

(** [analysis['details'][key] = msg] *)
Definition set_detail (key : string) (msg : string)
    (d : gmap string detail) : gmap string detail :=
  <[key := DStr msg]> d.

(** [analysis['details'][name][key] = msg]; [name] was bound to a dict just
    before, the other cases are never reached. *)
Definition set_nested (name key : string) (msg : string)
    (d : gmap string detail) : gmap string detail :=
  match d !! name with
  | Some (DDict m) => <[name := DDict (<[key := msg]> m)]> d
  | _ => d
  end.

(** One artifact check, the block every analyzer repeats:
[[
    f = dir / fname
    if f.exists():
        try:
            with open(f, 'r') as fh:
                content = fh.read()
                if <marker> in content:
                    details[..] = okmsg;  score += pts
                else:
                    details[..] = 'failed'
        except IOError:
            details[..] = 'error'
]]
    [record msg] is the assignment into [details]. *)
Definition check_artifact (dir : node) (fname : string)
    (marker : string -> bool) (okmsg : string) (pts : Z)
    (record : string -> gmap string detail -> gmap string detail)
    (st : acc) : result acc :=
  match child dir fname with
  | None => Ok st
  | Some f =>
      match read_text f with
      | ReadText content =>
          if marker content
          then Ok (fst st + pts, record okmsg (snd st))
          else Ok (fst st, record "failed" (snd st))
      | ReadIOError => Ok (fst st, record "error" (snd st))
      | ReadDecodeError => Raise UnicodeDecodeError
      end
  end.

(** "Determine overall status": [good_at] and [fair_at] are the two
    thresholds of the [if / elif / else]. *)
Definition classify (good_at fair_at : Z) (s : Z) : string :=
  if Z.leb good_at s then "good"
  else if Z.leb fair_at s then "fair"
  else "poor".

Definition finish (good_at fair_at : Z) (st : acc) : subsystem_result :=
  {| status := classify good_at fair_at (fst st);
     score := fst st;
     details := Some (snd st) |}.

Definition acc0 : acc := (0, ∅).

(** ** The four analyzers *)

Definition _analyze_cpu_tests (cpu_dir : node) : result subsystem_result :=
  do st <- check_artifact cpu_dir "sysbench_cpu.txt"
          (contains "execution time") "completed" 25
          (set_detail "sysbench") acc0;
  do st <- check_artifact cpu_dir "stress_ng.txt"
          (contains "completed") "completed" 25
          (set_detail "stress_ng") st;
  Ok (finish 50 25 st).

Definition memtester_ok (content : string) : bool :=
  contains "PASS" content && negb (contains "FAIL" content).

Definition _analyze_memory_tests (mem_dir : node) : result subsystem_result :=
  do st <- check_artifact mem_dir "memtester.txt"
          memtester_ok "passed" 50
          (set_detail "memtester") acc0;
  do st <- check_artifact mem_dir "stress_ng_memory.txt"
          (contains "completed") "completed" 50
          (set_detail "stress_ng") st;
  Ok (finish 75 50 st).

(** A [for] loop whose body may raise. *)
Fixpoint for_each {A S : Type} (body : S -> A -> result S)
    (l : list A) (s : S) : result S :=
  match l with
  | [] => Ok s
  | x :: l' => do s' <- body s x; for_each body l' s'
  end.

Definition smart_passed : string :=
  "SMART overall-health self-assessment test result: PASSED".

(** The body of [for disk_subdir in disk_dir.iterdir()]. *)
Definition disk_body (st : acc) (entry : string * node) : result acc :=
  let '(disk_name, disk_subdir) := entry in
  if is_dir disk_subdir then
    let st := (fst st, <[disk_name := DDict ∅]> (snd st)) in
    do st <- check_artifact disk_subdir "smart.txt"
            (contains smart_passed) "passed" 20
            (set_nested disk_name "smart") st;
    check_artifact disk_subdir "fio_randread.txt"
            (contains "IOPS") "completed" 15
            (set_nested disk_name "fio_read") st
  else Ok st.

Definition _analyze_disk_tests (disk_dir : node) : result subsystem_result :=
  do entries <- iterdir disk_dir;
  do st <- for_each disk_body entries acc0;
  Ok (finish 50 25 st).

Definition iperf_ok (content : string) : bool :=
  contains "receiver" content && contains "sender" content.

(** [iface_dir.is_dir() and iface_dir.name != 'lo'] *)
Definition is_iface (entry : string * node) : bool :=
  is_dir (snd entry) && negb (String.eqb (fst entry) "lo").

(** The body of [for iface_dir in net_dir.iterdir()]; [ethtool.txt] is only
    tested for existence, never opened. *)
Definition iface_body (st : acc) (entry : string * node) : result acc :=
  if is_iface entry then
    match child (snd entry) "ethtool.txt" with
    | Some _ => Ok (fst st + 25, set_detail (fst entry) "configured" (snd st))
    | None => Ok st
    end
  else Ok st.

Definition _analyze_network_tests (net_dir : node) : result subsystem_result :=
  do st <- check_artifact net_dir "iperf3_localhost.txt"
          iperf_ok "completed" 50
          (set_detail "iperf3") acc0;
  do entries <- iterdir net_dir;
  do st <- for_each iface_body entries st;
  Ok (finish 75 50 st).

(** ** The performance aggregator *)

(** [{'status': 'unknown', 'score': 0}] *)
Definition unknown_result : subsystem_result :=
  {| status := "unknown"; score := 0; details := None |}.

(** [d = perf_dir / name; if d.exists(): analysis[name] = analyzer(d)] *)
Definition analyze_subdir (perf_dir : node) (name : string)
    (analyzer : node -> result subsystem_result)
    (analysis : gmap string subsystem_result)
    : result (gmap string subsystem_result) :=
  match child perf_dir name with
  | Some d => do r <- analyzer d; Ok (<[name := r]> analysis)
  | None => Ok analysis
  end.

Definition initial_performance : gmap string subsystem_result :=
  <["cpu" := unknown_result]>
    (<["memory" := unknown_result]>
      (<["disk" := unknown_result]>
        (<["network" := unknown_result]> ∅))).

Definition _analyze_performance (perf_dir : node)
    : result (gmap string subsystem_result) :=
  let analysis := initial_performance in
  do analysis <- analyze_subdir perf_dir "cpu" _analyze_cpu_tests analysis;
  do analysis <- analyze_subdir perf_dir "memory" _analyze_memory_tests analysis;
  do analysis <- analyze_subdir perf_dir "disk" _analyze_disk_tests analysis;
  do analysis <- analyze_subdir perf_dir "network" _analyze_network_tests analysis;
  Ok analysis.

(** ** Python numbers *)

(** An [int] as an exact, not necessarily normalised, binary float. *)
Definition Z2SF (z : Z) : spec_float :=
  match z with
  | Z0 => S754_zero false
  | Zpos p => S754_finite false p 0
  | Zneg p => S754_finite true p 0
  end.

(** [a / b] on two [int]s: the quotient rounded once to binary64.  Where
    Python raises [OverflowError] the value here is an infinity, which
    [py_int] below turns into the same exception.  The divisor is the
    constant 100 everywhere in this program. *)
Definition int_truediv (a b : Z) : float :=
  SF2Prim (SFdiv prec emax (Z2SF a) (Z2SF b)).

(** [float(z)] *)
Definition float_of_int (z : Z) : float :=
  SF2Prim (binary_normalize prec emax z 0 false).

(** [int(x)]: truncation toward zero. *)
Definition py_int (x : float) : result Z :=
  match Prim2SF x with
  | S754_zero _ => Ok 0
  | S754_finite s m e => Ok (cond_Zopp s (Z.shiftl (Zpos m) e))
  | S754_infinity _ => Raise OverflowError
  | S754_nan => Raise ValueError
  end.

(** [round(x)]: to the nearest integer, ties to even.  Not used by the
    program; it is what the specification asks of the health score. *)
Definition round_half_even (m : positive) (e : Z) : Z :=
  let q := Z.shiftl (Zpos m) e in
  if Z.leb 0 e then q
  else
    match Z.compare (2 * (Zpos m - Z.shiftl q (- e))) (Z.shiftl 1 (- e)) with
    | Lt => q
    | Gt => q + 1
    | Eq => if Z.even q then q else q + 1
    end.

Definition py_round (x : float) : result Z :=
  match Prim2SF x with
  | S754_zero _ => Ok 0
  | S754_finite s m e => Ok (cond_Zopp s (round_half_even m e))
  | S754_infinity _ => Raise OverflowError
  | S754_nan => Raise ValueError
  end.

(** ** The analysis record *)

(** A value as [json.load] builds it: [None], [bool], [int], [float]
    (with [NaN] and the infinities, which [json] accepts), [str], [list]
    and [dict]. *)
#[warnings="-register-all"]
Inductive jvalue : Type :=
| JNull
| JBool (b : bool)
| JInt (z : Z)
| JFloat (x : float)
| JStr (s : string)
| JList (l : list jvalue)
| JDict (m : gmap string jvalue).

Record system_block : Type := {
  cpu_count : jvalue;
  memory_gb : jvalue;
  architecture : jvalue;
  kernel : jvalue
}.

(** [processed['analysis']]: the keys ['system'] and ['performance']. *)
Record analysis : Type := {
  system : option system_block;
  performance : option (gmap string subsystem_result)
}.

(** ** The health scorer *)

Definition components : list string := ["cpu"; "memory"; "disk"; "network"].

(** The body of [for component in [...]]; the pair is
    [(total_score, max_score)]. *)
Definition health_step (perf : gmap string subsystem_result)
    (tm : float * float) (component : string) : float * float :=
  match perf !! component with
  | Some r =>
      ((fst tm + int_truediv (score r) 100 * 18.75)%float,
       (snd tm + 18.75)%float)
  | None => tm
  end.

(** [(total_score, max_score)] when the loop is left.  The two start as the
    [int] 0 in Python; adding them to a float converts them exactly. *)
Definition health_totals (a : analysis) : float * float :=
  let tm :=
    match system a with
    | Some _ => ((0 + 25)%float, (0 + 25)%float)
    | None => (0%float, 0%float)
    end in
  fold_left (health_step (default ∅ (performance a))) components tm.

Definition _calculate_health_score (a : analysis) : result Z :=
  let '(total_score, max_score) := health_totals a in
  if (max_score =? 0)%float then Ok 0
  else py_int (total_score / max_score * 100)%float.

(** ** The recommendation generator *)

Definition cpu_advice : string :=
  "CPU performance is poor. Consider checking for thermal throttling or background processes.".
Definition memory_advice : string :=
  "Memory tests failed. Check for faulty RAM modules or memory configuration.".
Definition disk_advice : string :=
  "Disk performance is poor. Check SMART status and consider replacing failing drives.".
Definition network_advice : string :=
  "Network performance is poor. Check cable connections and switch configuration.".
Definition healthy_advice : string :=
  "System appears to be healthy. Continue monitoring for any changes.".

(** [performance.get(name, {}).get('status') == 'poor'] *)
Definition is_poor (perf : gmap string subsystem_result) (name : string) : bool :=
  match perf !! name with
  | Some r => String.eqb (status r) "poor"
  | None => false
  end.

(** [if <name is poor>: recommendations.append(advice)] *)
Definition advise (perf : gmap string subsystem_result) (name advice : string)
    (recommendations : list string) : list string :=
  if is_poor perf name then recommendations ++ [advice] else recommendations.

Definition _generate_recommendations (a : analysis) : list string :=
  let perf := default ∅ (performance a) in
  let recommendations := [] in
  let recommendations := advise perf "cpu" cpu_advice recommendations in
  let recommendations := advise perf "memory" memory_advice recommendations in
  let recommendations := advise perf "disk" disk_advice recommendations in
  let recommendations := advise perf "network" network_advice recommendations in
  match recommendations with
  | [] => recommendations ++ [healthy_advice]
  | _ :: _ => recommendations
  end.

(** ** The report processor *)

(** The decoded [report.json] with the ['_path'] added by [get_report]:
    the keys the program reads, each absent or holding any JSON value. *)
Record report : Type := {
  report_hostname : option jvalue;
  report_timestamp : option jvalue;
  report_system_info : option jvalue;
  report_path : option string
}.

Record processed : Type := {
  hostname : jvalue;
  timestamp : jvalue;
  processed_at : string;
  analysis_of : analysis;
  health_score : Z;
  issues : list string;
  recommendations : list string
}.

(** [Path(report_data.get('_path', '')) / "performance"], when it exists;
    [fs] gives, for the path of a report directory, the tree found there. *)
Definition performance_dir_of (fs : gmap string node)
    (report_data : report) : option node :=
  match fs !! default "" (report_path report_data) with
  | Some root => child root "performance"
  | None => None
  end.

(** [system_info.get(...)] for [system_info = report_data.get('system_info', {})]:
    only a [dict] has [get]; on [None], a [list], a [str] or a number the
    attribute lookup raises [AttributeError]. *)
Definition system_info_dict (report_data : report)
    : result (gmap string jvalue) :=
  match report_system_info report_data with
  | None => Ok ∅
  | Some (JDict system_info) => Ok system_info
  | Some _ => Raise AttributeError
  end.

(** [now] is [datetime.utcnow().isoformat()]. *)
Definition process_report (now : string) (fs : gmap string node)
    (report_data : report) : result processed :=
  do system_info <- system_info_dict report_data;
  let system_analysis :=
    {| cpu_count := default (JInt 0) (system_info !! "cpu_count");
       memory_gb := default (JInt 0) (system_info !! "memory_gb");
       architecture := default (JStr "unknown") (system_info !! "architecture");
       kernel := default (JStr "unknown") (system_info !! "kernel") |} in
  let performance_dir := performance_dir_of fs report_data in
  do perf <-
    match performance_dir with
    | Some d => result_map Some (_analyze_performance d)
    | None => Ok None
    end;
  let a := {| system := Some system_analysis; performance := perf |} in
  do health <- _calculate_health_score a;
  Ok {| hostname := default (JStr "unknown") (report_hostname report_data);
        timestamp := default (JStr "") (report_timestamp report_data);
        processed_at := now;
        analysis_of := a;
        health_score := health;
        issues := [];
        recommendations := _generate_recommendations a |}.

(** ** Sample trees *)

Definition text_file (s : string) : node := File (Text s).

Definition good_disk : node :=
  Dir [("smart.txt", text_file smart_passed);
       ("fio_randread.txt", text_file "read: IOPS=1200")].

Definition sample_report : report :=
  {| report_hostname := Some (JStr "node1");
     report_timestamp := Some (JStr "2024-01-01T00:00:00");
     report_system_info := Some (JDict (<["cpu_count" := JInt 4]> ∅));
     report_path := Some "/var/lib/foreman-reports/node1" |}.

(** The system block [process_report] derives from [sample_report]. *)
Definition sample_system : system_block :=
  {| cpu_count := JInt 4; memory_gb := JInt 0;
     architecture := JStr "unknown"; kernel := JStr "unknown" |}.

Definition fs_of (root : node) : gmap string node :=
  <["/var/lib/foreman-reports/node1" := root]> ∅.

(** A report directory holding [performance/] with the subtree [perf]. *)
Definition root_with (perf : node) : node :=
  Dir [("report.json", text_file "{}"); ("performance", perf)].

(** [performance/] with a [cpu/] directory only, both CPU tests completed. *)
Definition cpu_only_perf : node :=
  Dir [("cpu", Dir [("sysbench_cpu.txt", text_file "total time: 10s, execution time: 3.2s");
                    ("stress_ng.txt", text_file "stress-ng: run completed")])].

(** [disk/] with [n] disks that all pass SMART and fio. *)
Definition disks (n : nat) : node :=
  Dir (map (fun i => (String.append "sd" (String (Ascii.ascii_of_nat (97 + i)) ""), good_disk))
           (seq 0 n)).

(** [network/] with a complete iperf3 run and three configured interfaces
    next to the loopback. *)
Definition three_ifaces : node :=
  Dir [("iperf3_localhost.txt", text_file "sender ... receiver");
       ("lo", Dir [("ethtool.txt", text_file "")]);
       ("eth0", Dir [("ethtool.txt", text_file "Speed: 1000Mb/s")]);
       ("eth1", Dir [("ethtool.txt", text_file "Speed: 1000Mb/s")]);
       ("eth2", Dir [("ethtool.txt", text_file "Speed: 1000Mb/s")])].

Definition cpu_only_agg : gmap string subsystem_result :=
  <["cpu" := {| status := "good"; score := 50;
                details := Some (<["stress_ng" := DStr "completed"]>
                                   (<["sysbench" := DStr "completed"]> ∅)) |}]>
    initial_performance.

(** Everything of an Analysis Record except [processed_at]. *)
Definition observable (p : processed)
    : jvalue * jvalue * analysis * Z * list string * list string :=
  (hostname p, timestamp p, analysis_of p, health_score p, issues p,
   recommendations p).

(** ** Notions used in the statements *)

(** [check_passes] says, in the words of the specification, when a check
    earns its points: the file is present, it can be read, and its content
    carries the marker. *)
Definition check_passes (dir : node) (fname : string)
    (marker : string -> bool) : bool :=
  match child dir fname with
  | Some f =>
      match read_text f with
      | ReadText content => marker content
      | _ => false
      end
  | None => false
  end.

(** Every analyzer ends with [finish]: its status is that of its score. *)
Definition graded (good_at fair_at : Z) (r : subsystem_result) : Prop :=
  status r = classify good_at fair_at (score r) /\ details r <> None.

(** The analyzer [_analyze_performance] runs for a key. *)
Definition analyzer_of (c : string) : node -> result subsystem_result :=
  if String.eqb c "cpu" then _analyze_cpu_tests
  else if String.eqb c "memory" then _analyze_memory_tests
  else if String.eqb c "disk" then _analyze_disk_tests
  else _analyze_network_tests.

(** The statement of C1: the key of an absent subsystem directory is not in
    the aggregate. *)
Definition omits_absent_subsystems (perf_dir : node) : Prop :=
  forall (agg : gmap string subsystem_result) (c : string),
    _analyze_performance perf_dir = Ok agg ->
    In c components ->
    child perf_dir c = None ->
    agg !! c = None.

(** Points a loop adds up, one summand per directory entry. *)
Definition sum_points {A : Type} (w : A -> Z) (l : list A) : Z :=
  fold_right (fun x a => w x + a) 0 l.

Definition points (b : bool) (pts : Z) : Z := if b then pts else 0.

(** What one entry of [disk/] earns: 20 for SMART, 15 for fio. *)
Definition disk_points (e : string * node) : Z :=
  if is_dir (snd e) then
    points (check_passes (snd e) "smart.txt" (contains smart_passed)) 20
    + points (check_passes (snd e) "fio_randread.txt" (contains "IOPS")) 15
  else 0.

(** What one entry of [network/] earns: 25 for a non-loopback interface
    directory holding [ethtool.txt]. *)
Definition iface_points (e : string * node) : Z :=
  if is_iface e then
    match child (snd e) "ethtool.txt" with Some _ => 25 | None => 0 end
  else 0.

Definition entries_of (d : node) : list (string * node) :=
  match d with Dir es => es | File _ => [] end.

(** Number of subdirectories of [d] (the disks of [disk/]). *)
Definition subdir_count (d : node) : Z :=
  Z.of_nat (length (List.filter (fun e => is_dir (snd e)) (entries_of d))).

(** Number of interface directories of [d] other than [lo]. *)
Definition iface_count (d : node) : Z :=
  Z.of_nat (length (List.filter is_iface (entries_of d))).

(** The health score as a function of the four scores, for an analysis
    that has the system block and all four performance keys. *)
Definition health_of_scores (c m d n : Z) : result Z :=
  let total_score :=
    (0 + 25 + int_truediv c 100 * 18.75 + int_truediv m 100 * 18.75
     + int_truediv d 100 * 18.75 + int_truediv n 100 * 18.75)%float in
  py_int (total_score / 100 * 100)%float.

Definition percent (r : result Z) : bool :=
  match r with
  | Ok h => Z.leb 0 h && Z.leb h 100
  | Raise _ => false
  end.

Definition upto (n : nat) : list Z := map Z.of_nat (seq 0 n).

(** Multiples of [k] from 0 to [k * (n - 1)]. *)
Definition multiples (k : Z) (n : nat) : list Z := map (Z.mul k) (upto n).

(** The values a score can take, per key of the aggregate. *)
Definition score_values (c : string) (s : Z) : Prop :=
  if String.eqb c "cpu" then In s [0; 25; 50]
  else if String.eqb c "memory" then In s [0; 50; 100]
  else if String.eqb c "disk" then exists q, s = 5 * q /\ 0 <= q
  else exists q, s = 25 * q /\ 0 <= q.

(** [performance/] with a [disk/] directory of twelve passing disks. *)
Definition twelve_disks_root : node := root_with (Dir [("disk", disks 12)]).

(** The exact value of a finite binary float, as a fraction. *)
Definition SF2Q (x : spec_float) : option Q :=
  match x with
  | S754_zero _ => Some (inject_Z 0)
  | S754_finite s m e =>
      Some match e with
           | Zneg k => Qmake (cond_Zopp s (Zpos m)) (2 ^ k)%positive
           | _ => inject_Z (cond_Zopp s (Zpos m) * 2 ^ e)
           end
  | S754_infinity _ | S754_nan => None
  end.

Definition float_value (x : float) : option Q := SF2Q (Prim2SF x).

(** Truncation of a fraction toward zero. *)
Definition Qtrunc (q : Q) : Z :=
  if Z.ltb (Qnum q) 0 then Qceiling q else Qfloor q.

(** The statement of C5 for an analysis with a counted subsystem. *)
Definition health_is_rounded (a : analysis) : Prop :=
  (snd (health_totals a) =? 0)%float = false ->
  _calculate_health_score a
  = py_round (fst (health_totals a) / snd (health_totals a) * 100)%float.

(** [performance/] whose [cpu/] holds a completed sysbench run and nothing
    else. *)
Definition sysbench_only_perf : node :=
  Dir [("cpu", Dir [("sysbench_cpu.txt", text_file "execution time: 3.2s")])].

Definition sysbench_only_analysis : analysis :=
  {| system := Some sample_system;
     performance :=
       Some (<["cpu" := {| status := "fair"; score := 25;
                           details := Some (<["sysbench" := DStr "completed"]> ∅) |}]>
               initial_performance) |}.

(** The entry [_analyze_performance] leaves under key [c]. *)
Definition subsystem_entry (c : string) (sub : option node) : result subsystem_result :=
  match sub with
  | Some d => analyzer_of c d
  | None => Ok unknown_result
  end.

Definition aggregate_of (rc rm rd rn : subsystem_result) : gmap string subsystem_result :=
  <["cpu" := rc]> (<["memory" := rm]> (<["disk" := rd]> (<["network" := rn]> ∅))).

(** The two totals as C2 words them: only the subsystems whose directory
    exists are counted. *)
Definition tested_totals (perf_dir : node)
    (agg : gmap string subsystem_result) : float * float :=
  fold_left
    (fun tm c =>
       match child perf_dir c with
       | Some _ => health_step agg tm c
       | None => tm
       end)
    components ((0 + 25)%float, (0 + 25)%float).

(** The statement of C2: the scorer's totals are those of the tested
    subsystems. *)
Definition scored_on_tested_only (perf_dir : node) : Prop :=
  forall (agg : gmap string subsystem_result) (sys : system_block),
    _analyze_performance perf_dir = Ok agg ->
    health_totals {| system := Some sys; performance := Some agg |}
    = tested_totals perf_dir agg.

(** [disk/] and [network/], where they exist, can be listed. *)
Definition listable (perf_dir : node) : bool :=
  match child perf_dir "disk" with Some d => is_dir d | None => true end
  && match child perf_dir "network" with Some d => is_dir d | None => true end.

(** [performance/cpu/] whose sysbench output cannot be opened and whose
    stress-ng run completed. *)
Definition unreadable_perf : node :=
  Dir [("cpu", Dir [("sysbench_cpu.txt", File IOFailure);
                    ("stress_ng.txt", text_file "stress-ng: run completed")])].


(** The artifact [fname] of [dir], where it exists, is not a file that
    fails to decode. *)
Definition artifact_decodes (dir : node) (fname : string) : bool :=
  match child dir fname with
  | Some f => match read_text f with ReadDecodeError => false | _ => true end
  | None => true
  end.

(** The two artifacts of a disk decode; an entry of [disk/] that is not a
    directory is not looked into. *)
Definition disk_decodes (e : string * node) : bool :=
  negb (is_dir (snd e))
  || (artifact_decodes (snd e) "smart.txt"
      && artifact_decodes (snd e) "fio_randread.txt").

(** The artifact files the analyzer of a key reads in [d] decode. *)
Definition artifacts_decode (c : string) (d : node) : bool :=
  if String.eqb c "cpu" then
    artifact_decodes d "sysbench_cpu.txt" && artifact_decodes d "stress_ng.txt"
  else if String.eqb c "memory" then
    artifact_decodes d "memtester.txt" && artifact_decodes d "stress_ng_memory.txt"
  else if String.eqb c "disk" then forallb disk_decodes (entries_of d)
  else artifact_decodes d "iperf3_localhost.txt".

(** No artifact file that the analyzers read under [perf_dir] fails to
    decode; files they never open do not count. *)
Definition opened_artifacts_decode (perf_dir : node) : bool :=
  forallb
    (fun c => match child perf_dir c with
              | Some d => artifacts_decode c d
              | None => true
              end)
    components.

(** [report_data.get('system_info', {})] is a [dict]. *)
Definition system_info_is_dict (report_data : report) : bool :=
  match report_system_info report_data with
  | None | Some (JDict _) => true
  | Some _ => false
  end.


(** The advisories as C7 words them: those of the poor subsystems, in the
    order CPU, memory, disk, network. *)
Definition advice_table : list (string * string) :=
  [("cpu", cpu_advice); ("memory", memory_advice);
   ("disk", disk_advice); ("network", network_advice)].

Definition advisories (perf : gmap string subsystem_result) : list string :=
  flat_map (fun ca => if is_poor perf (fst ca) then [snd ca] else []) advice_table.

Definition occurrences (x : string) (l : list string) : nat :=
  count_occ string_dec l x.

(** [needle] occurs in [hay]. *)
Definition substring (needle hay : string) : Prop :=
  exists l r, hay = String.append l (String.append needle r).

(** The two conditions as C8 words them. *)
Definition memtester_passes (mem_dir : node) : Prop :=
  exists f content,
    child mem_dir "memtester.txt" = Some f
    /\ read_text f = ReadText content
    /\ substring "PASS" content /\ ~ substring "FAIL" content.

Definition stress_memory_completes (mem_dir : node) : Prop :=
  exists f content,
    child mem_dir "stress_ng_memory.txt" = Some f
    /\ read_text f = ReadText content
    /\ substring "completed" content.

(** ** The report store and the routes *)

(** Exceptions that can leave the store functions and the route: those of
    the analysis, and the [TypeError] of subscripting or comparing values
    of the wrong type. *)
Inductive py_exn : Set :=
| Exn (e : exn)
| TypeError.

Inductive outcome (A : Type) : Type :=
| Returns (a : A)
| Raises (e : py_exn).

Arguments Returns {A} a.
Arguments Raises {A} e.

(** What [json.load] makes of the decoded text of a [report.json]. *)
Inductive decoded : Type :=
| JsonObject (r : report)  (* an object; [r] holds the keys the program reads *)
| JsonOther                (* valid JSON that is not an object *)
| JsonInvalid.             (* [json.JSONDecodeError] *)

(** [str(Path(p) / name)] for a path [p] and a single segment [name]. *)
Definition path_join (p name : string) : string :=
  String.append p (String.append "/" name).

(** A name that is one path segment and does not step out of its
    directory: the names for which [reports_dir / name] is the entry
    [name] of [reports_dir]. *)
Definition plain_name (name : string) : bool :=
  negb (String.eqb name "") && negb (String.eqb name ".")
  && negb (String.eqb name "..") && negb (contains "/" name).

(** [report_data['_path'] = p] *)
Definition set_path (r : report) (p : string) : report :=
  {| report_hostname := report_hostname r;
     report_timestamp := report_timestamp r;
     report_system_info := report_system_info r;
     report_path := Some p |}.

(** The [try] block [get_report] and [scan_reports] share, for an existing
    [report_file]:
[[
    try:
        with open(report_file, 'r') as f:
            report_data = json.load(f)
            report_data['_path'] = str(report_dir)
            ...
    except (json.JSONDecodeError, IOError) as e:
        ...                      # logged; here [Returns None]
]]
    A non-object cannot take the ['_path'] key ([TypeError]), and a file
    that does not decode raises [UnicodeDecodeError]; neither is caught. *)
Definition load_report (json_load : string -> decoded)
    (report_file : node) (path : string) : outcome (option report) :=
  match read_text report_file with
  | ReadText content =>
      match json_load content with
      | JsonObject r => Returns (Some (set_path r path))
      | JsonOther => Raises TypeError
      | JsonInvalid => Returns None
      end
  | ReadIOError => Returns None
  | ReadDecodeError => Raises (Exn UnicodeDecodeError)
  end.

(** [DiagnosticReportProcessor.get_report]; [reports_path] is
    [str(self.reports_dir)] and [reports_dir] the tree found there. *)
Definition get_report (json_load : string -> decoded)
    (reports_path : string) (reports_dir : node) (hostname : string)
    : outcome (option report) :=
  match child reports_dir hostname with
  | Some report_dir =>
      match child report_dir "report.json" with
      | Some report_file =>
          load_report json_load report_file (path_join reports_path hostname)
      | None => Returns None
      end
  | None => Returns None
  end.

(** The file system as [process_report] sees it from the store: the path
    [reports_path/name] leads to the entry [name] of [reports_dir]. *)
Definition store_fs (reports_path : string) (reports_dir : node)
    : gmap string node :=
  list_to_map (map (fun e => (path_join reports_path (fst e), snd e))
                   (entries_of reports_dir)).

(** The three kinds of response of the routes: 200 with a body, 404, and
    500 with the text of the exception. *)
Inductive response (A : Type) : Type :=
| Success (body : A)
| NotFound
| ServerError (e : py_exn).

Arguments Success {A} body.
Arguments NotFound {A}.
Arguments ServerError {A} e.

Definition status_code {A : Type} (r : response A) : Z :=
  match r with
  | Success _ => 200
  | NotFound => 404
  | ServerError _ => 500
  end.

(** The route [GET /api/v1/reports/<hostname>/analyze]. *)
Definition analyze_report (json_load : string -> decoded) (now : string)
    (reports_path : string) (reports_dir : node) (hostname : string)
    : response processed :=
  match get_report json_load reports_path reports_dir hostname with
  | Raises e => ServerError e
  | Returns None => NotFound
  | Returns (Some report) =>
      match process_report now (store_fs reports_path reports_dir) report with
      | Ok analysis => Success analysis
      | Raise e => ServerError (Exn e)
      end
  end.

(** [lambda x: x.get('timestamp', '')] *)
Definition sort_key {M : Type} (x : report * M) : jvalue :=
  default (JStr "") (report_timestamp (fst x)).

(** The value of a number.  Python compares [bool], [int] and [float] with
    one another by value, exactly. *)
Inductive number : Type :=
| NegInfinity
| Finite (q : Q)
| PosInfinity.

(** How a sort key takes part in [<]: a number compares with numbers, a
    string with strings, and [None] or a [dict] with nothing, not even with
    its like. *)
Inductive order_key : Type :=
| KNumber (x : number)
| KString (s : string)
| KUnordered.

(** The order key of a JSON value.  [NaN] and lists have none here: with
    them [<] is not an order, and what [sort] then returns, or whether it
    raises, depends on which comparisons it happens to make. *)
Definition key_of (v : jvalue) : option order_key :=
  match v with
  | JNull | JDict _ => Some KUnordered
  | JBool b => Some (KNumber (Finite (inject_Z (if b then 1 else 0))))
  | JInt z => Some (KNumber (Finite (inject_Z z)))
  | JFloat x =>
      match Prim2SF x with
      | S754_nan => None
      | S754_infinity s => Some (KNumber (if s then NegInfinity else PosInfinity))
      | sf => option_map (fun q => KNumber (Finite q)) (SF2Q sf)
      end
  | JStr s => Some (KString s)
  | JList _ => None
  end.

Definition number_lt (a b : number) : bool :=
  match a, b with
  | _, NegInfinity => false
  | NegInfinity, _ => true
  | PosInfinity, _ => false
  | Finite _, PosInfinity => true
  | Finite p, Finite q => match Qcompare p q with Lt => true | _ => false end
  end.

(** [a < b]; [None] is the [TypeError] of comparing values that have no
    order between them. *)
Definition py_lt (a b : order_key) : option bool :=
  match a, b with
  | KNumber x, KNumber y => Some (number_lt x y)
  | KString x, KString y => Some (String.ltb x y)
  | _, _ => None
  end.

(** [sort] computes the key of every element before it compares any;
    [None] when some key has no [order_key]. *)
Fixpoint keyed {M : Type} (l : list (report * M))
    : option (list (order_key * (report * M))) :=
  match l with
  | [] => Some []
  | x :: l' =>
      match key_of (sort_key x), keyed l' with
      | Some k, Some kl => Some ((k, x) :: kl)
      | _, _ => None
      end
  end.

(** [reports.sort(key=..., reverse=True)]: the stable sort into descending
    order, written as an insertion sort that compares with [<] only.  [x]
    goes before the first element that is not greater than it, so equal
    keys keep their order. *)
Fixpoint insert_desc {X : Type} (x : order_key * X) (l : list (order_key * X))
    : outcome (list (order_key * X)) :=
  match l with
  | [] => Returns [x]
  | y :: l' =>
      match py_lt (fst x) (fst y) with
      | None => Raises TypeError
      | Some true =>
          match insert_desc x l' with
          | Returns l'' => Returns (y :: l'')
          | Raises e => Raises e
          end
      | Some false => Returns (x :: y :: l')
      end
  end.

Fixpoint sort_desc {X : Type} (l : list (order_key * X))
    : outcome (list (order_key * X)) :=
  match l with
  | [] => Returns []
  | x :: l' =>
      match sort_desc l' with
      | Returns s => insert_desc x s
      | Raises e => Raises e
      end
  end.

(** The body of [for report_dir in self.reports_dir.glob("*")]; [mtime]
    gives [stat().st_mtime] of a path. *)
Definition scan_body {M : Type} (json_load : string -> decoded)
    (mtime : string -> M) (reports_path : string)
    (reports : list (report * M)) (e : string * node)
    : outcome (list (report * M)) :=
  if is_dir (snd e) && negb (String.prefix "." (fst e)) then
    match child (snd e) "report.json" with
    | Some report_file =>
        match load_report json_load report_file (path_join reports_path (fst e)) with
        | Returns (Some r) =>
            Returns (app reports
                       [(r, mtime (path_join (path_join reports_path (fst e))
                                             "report.json"))])
        | Returns None => Returns reports
        | Raises x => Raises x
        end
    | None => Returns reports
    end
  else Returns reports.

Fixpoint scan_loop {M : Type} (json_load : string -> decoded)
    (mtime : string -> M) (reports_path : string)
    (es : list (string * node)) (reports : list (report * M))
    : outcome (list (report * M)) :=
  match es with
  | [] => Returns reports
  | e :: es' =>
      match scan_body json_load mtime reports_path reports e with
      | Returns reports' => scan_loop json_load mtime reports_path es' reports'
      | Raises x => Raises x
      end
  end.

(** [DiagnosticReportProcessor.scan_reports]: each report comes with its
    ['_last_modified'].  The result is [None] where this model leaves the
    outcome of the sort open: the loop has returned and some timestamp is a
    [NaN] or a list. *)
Definition scan_reports {M : Type} (json_load : string -> decoded)
    (mtime : string -> M) (reports_path : string) (reports_dir : node)
    : option (outcome (list (report * M))) :=
  match scan_loop json_load mtime reports_path (entries_of reports_dir) [] with
  | Returns reports =>
      match keyed reports with
      | Some kl =>
          Some match sort_desc kl with
               | Returns s => Returns (map snd s)
               | Raises x => Raises x
               end
      | None => None
      end
  | Raises x => Some (Raises x)
  end.

(** The route [GET /api/v1/reports]; the body holds ['count'] and
    ['reports'].  [None] where [scan_reports] is. *)
Definition list_reports {M : Type} (json_load : string -> decoded)
    (mtime : string -> M) (reports_path : string) (reports_dir : node)
    : option (response (Z * list (report * M))) :=
  match scan_reports json_load mtime reports_path reports_dir with
  | Some (Returns reports) => Some (Success (Z.of_nat (length reports), reports))
  | Some (Raises e) => Some (ServerError e)
  | None => None
  end.

(** The route [GET /api/v1/reports/<hostname>] (the function [get_report]
    of the module, named apart from the method it calls). *)
Definition get_report_route (json_load : string -> decoded)
    (reports_path : string) (reports_dir : node) (hostname : string)
    : response report :=
  match get_report json_load reports_path reports_dir hostname with
  | Raises e => ServerError e
  | Returns None => NotFound
  | Returns (Some report) => Success report
  end.

(** ** Notions used in the further properties *)

(** The artifact [fname] of [dir] is present, readable, and [marker] occurs
    in its content. *)
Definition artifact_contains (dir : node) (fname marker : string) : Prop :=
  exists f content,
    child dir fname = Some f
    /\ read_text f = ReadText content
    /\ substring marker content.

(** What a check leaves under its key of [details]: nothing when the file
    is absent, "error" when it cannot be read, [okmsg] when the marker is
    found and "failed" when it is not. *)
Definition recorded (dir : node) (fname : string) (marker : string -> bool)
    (okmsg : string) (entry : option detail) : Prop :=
  match child dir fname with
  | None => entry = None
  | Some f =>
      match read_text f with
      | ReadText content =>
          entry = Some (DStr (if marker content then okmsg else "failed"))
      | ReadIOError => entry = Some (DStr "error")
      | ReadDecodeError => False
      end
  end.

(** "poor" < "fair" < "good" *)
Definition status_rank (s : string) : Z :=
  if String.eqb s "good" then 2 else if String.eqb s "fair" then 1 else 0.

(** The [good] and [fair] thresholds of the analyzer of a key. *)
Definition good_at (c : string) : Z :=
  if String.eqb c "cpu" then 50 else if String.eqb c "memory" then 75
  else if String.eqb c "disk" then 50 else 75.

Definition fair_at (c : string) : Z :=
  if String.eqb c "cpu" then 25 else if String.eqb c "memory" then 50
  else if String.eqb c "disk" then 25 else 50.

(** The advisory of a key. *)
Definition advice_of (c : string) : string :=
  if String.eqb c "cpu" then cpu_advice else if String.eqb c "memory" then memory_advice
  else if String.eqb c "disk" then disk_advice else network_advice.

(** An entry of [network/] that earns points: an interface directory other
    than [lo] in which [ethtool.txt] exists. *)
Definition configured (e : string * node) : bool :=
  is_iface e && match child (snd e) "ethtool.txt" with Some _ => true | None => false end.

(** The names of the subdirectories of [d]. *)
Definition subdir_names (d : node) : gset string :=
  list_to_set (map fst (List.filter (fun e => is_dir (snd e)) (entries_of d))).

(** The health score in exact arithmetic: 25 points for the system block
    and 18.75 per subsystem in proportion to its score, out of 100, rounded
    down. *)
Definition exact_health (c m d n : Z) : Z := (10000 + 75 * (c + m + d + n)) / 400.

Definition exact_on (r : result Z) (h : Z) : bool :=
  match r with Ok z => Z.eqb z h | Raise _ => false end.

(** The entry of one disk: a dict with no key besides "smart" and
    "fio_read". *)
Definition disk_entry (x : detail) : Prop :=
  exists inner, x = DDict inner
    /\ forall k, k <> "smart" -> k <> "fio_read" -> inner !! k = None.

(** The Analysis Record of [sample_report] over [cpu_only_perf]. *)
Definition cpu_only_processed : processed :=
  {| hostname := JStr "node1";
     timestamp := JStr "2024-01-01T00:00:00";
     processed_at := "2024-01-02T00:00:00";
     analysis_of := {| system := Some sample_system;
                       performance := Some cpu_only_agg |};
     health_score := 34;
     issues := [];
     recommendations := [healthy_advice] |}.

(** What one check finds: nothing (file absent), or the points earned and
    the label recorded; it raises when the file does not decode. *)
Definition check_outcome (dir : node) (fname : string)
    (marker : string -> bool) (okmsg : string) (pts : Z)
    : result (option (Z * string)) :=
  match child dir fname with
  | None => Ok None
  | Some f =>
      match read_text f with
      | ReadText content =>
          if marker content then Ok (Some (pts, okmsg)) else Ok (Some (0, "failed"))
      | ReadIOError => Ok (Some (0, "error"))
      | ReadDecodeError => Raise UnicodeDecodeError
      end
  end.

(** What one entry of a listed directory contributes: nothing, or points
    and a value for the key that is the entry's name. *)
Definition keyed_body (eval : string * node -> result (option (Z * detail)))
    (st : acc) (e : string * node) : result acc :=
  match eval e with
  | Raise x => Raise x
  | Ok None => Ok st
  | Ok (Some (p, v)) => Ok (fst st + p, <[fst e := v]> (snd st))
  end.

Definition add_label (key : string) (o : option (Z * string))
    (inner : gmap string string) : gmap string string :=
  match o with Some (_, l) => <[key := l]> inner | None => inner end.

Definition earned (o : option (Z * string)) : Z :=
  match o with Some (p, _) => p | None => 0 end.

Definition disk_eval (e : string * node) : result (option (Z * detail)) :=
  if is_dir (snd e) then
    do o1 <- check_outcome (snd e) "smart.txt" (contains smart_passed) "passed" 20;
    do o2 <- check_outcome (snd e) "fio_randread.txt" (contains "IOPS") "completed" 15;
    Ok (Some (earned o1 + earned o2,
              DDict (add_label "fio_read" o2 (add_label "smart" o1 ∅))))
  else Ok None.

Definition iface_eval (e : string * node) : result (option (Z * detail)) :=
  if is_iface e then
    match child (snd e) "ethtool.txt" with
    | Some _ => Ok (Some (25, DStr "configured"))
    | None => Ok None
    end
  else Ok None.

(** A decoder for the sample stores: "[]" is JSON that is not an object,
    a text with a brace is the object of [sample_report], anything else is
    not JSON. *)
Definition sample_json_load (content : string) : decoded :=
  if String.eqb content "[]" then JsonOther
  else if contains "{" content then JsonObject sample_report
  else JsonInvalid.

(** A store with the report of [node1], a hidden directory and a corrupt
    report. *)
Definition sample_store : node :=
  Dir [("node1", root_with cpu_only_perf);
       (".cache", Dir [("report.json", text_file "{}")]);
       ("node2", Dir [("report.json", text_file "not json")])].

(** [x] may stand before [y] in a list sorted into descending order: its
    key is not less than that of [y]. *)
Definition key_before {X : Type} (x y : order_key * X) : Prop :=
  py_lt (fst x) (fst y) = Some false.

(** [a < b] on the timestamps of two reports, where both have an order
    key. *)
Definition timestamp_lt {M : Type} (a b : report * M) : option (option bool) :=
  match key_of (sort_key a), key_of (sort_key b) with
  | Some ka, Some kb => Some (py_lt ka kb)
  | _, _ => None
  end.

(** [a] may stand before [b] in the listing: [a]'s timestamp is not less
    than [b]'s. *)
Definition not_less {M : Type} (a b : report * M) : Prop :=
  timestamp_lt a b = Some (Some false).

(** Neither key is less than the other: the keys [sort] takes for equal. *)
Definition tied (a b : order_key) : bool :=
  match py_lt a b, py_lt b a with
  | Some false, Some false => true
  | _, _ => false
  end.

(** The reports of a list whose sort key is tied with [k], in their order. *)
Definition with_key {M : Type} (k : order_key) (l : list (report * M))
    : list (report * M) :=
  List.filter
    (fun z => match key_of (sort_key z) with Some kz => tied kz k | None => false end)
    l.

(** The timestamp is a number ([bool], [int] or [float] other than [NaN]),
    or a string (a missing timestamp is the string ""). *)
Definition number_key {M : Type} (x : report * M) : bool :=
  match key_of (sort_key x) with Some (KNumber _) => true | _ => false end.

Definition string_key {M : Type} (x : report * M) : bool :=
  match key_of (sort_key x) with Some (KString _) => true | _ => false end.

(** The timestamps of two reports cannot be compared: [<] raises
    [TypeError]. *)
Definition incomparable {M : Type} (a b : report * M) : Prop :=
  timestamp_lt a b = Some None.

(** A decoder for the sample listing: a text starting with a brace is an
    object whose timestamp is the rest of the text. *)
Definition stamp_load (content : string) : decoded :=
  match content with
  | String c rest =>
      if Ascii.eqb c (Ascii.ascii_of_nat 123) then
        JsonObject {| report_hostname := None; report_timestamp := Some (JStr rest);
                      report_system_info := None; report_path := None |}
      else JsonInvalid
  | EmptyString => JsonInvalid
  end.

Definition stamped (ts path : string) : report :=
  {| report_hostname := None; report_timestamp := Some (JStr ts);
     report_system_info := None; report_path := Some path |}.

(** A store with an older and a newer report, a hidden directory and a
    stray file. *)
Definition two_reports_store : node :=
  Dir [("old", Dir [("report.json", text_file "{2024-01-01")]);
       (".git", Dir [("report.json", text_file "{2025-01-01")]);
       ("README", text_file "reports");
       ("new", Dir [("report.json", text_file "{2024-06-01")])].

(** What one entry of the store adds to the listing. *)
Definition listed {M : Type} (json_load : string -> decoded)
    (mtime : string -> M) (reports_path : string) (e : string * node)
    : list (report * M) :=
  if is_dir (snd e) && negb (String.prefix "." (fst e)) then
    match child (snd e) "report.json" with
    | Some report_file =>
        match load_report json_load report_file (path_join reports_path (fst e)) with
        | Returns (Some r) =>
            [(r, mtime (path_join (path_join reports_path (fst e)) "report.json"))]
        | _ => []
        end
    | None => []
    end
  else [].

(** A report whose system_info is [null]. *)
Definition null_system_report : report :=
  {| report_hostname := Some (JStr "node1");
     report_timestamp := Some (JStr "2024-01-01T00:00:00");
     report_system_info := Some JNull;
     report_path := Some "/var/lib/foreman-reports/node1" |}.

(** Names are distinct in every directory of the tree. *)
Fixpoint distinct_names (n : node) : bool :=
  match n with
  | File _ => true
  | Dir es =>
      bool_decide (NoDup (map fst es))
      && forallb (fun e => distinct_names (snd e)) es
  end.

(** The same tree: the same names and the same files at every level, the
    entries of a directory possibly listed in another order. *)
Inductive same_tree : node -> node -> Prop :=
| same_file r : same_tree (File r) (File r)
| same_dir es es1 es' :
    Forall2 (fun e e1 => fst e = fst e1 /\ same_tree (snd e) (snd e1)) es es1 ->
    Permutation es1 es' ->
    same_tree (Dir es) (Dir es').

(** The artifact tree of the report is the same in the two file systems. *)
Definition same_artifacts (fs1 fs2 : gmap string node) (report_data : report)
    : Prop :=
  match fs1 !! default "" (report_path report_data),
        fs2 !! default "" (report_path report_data) with
  | Some root1, Some root2 => distinct_names root1 = true /\ same_tree root1 root2
  | None, None => True
  | _, _ => False
  end.

(** Two nodes that are both absent, or present and the same tree. *)
Definition same_entry (a b : option node) : Prop :=
  match a, b with
  | Some x, Some y => distinct_names x = true /\ same_tree x y
  | None, None => True
  | _, _ => False
  end.

(** [performance/] with two disks, and the same tree listed the other way
    round at both levels. *)
Definition two_disks_perf : node :=
  Dir [("disk", Dir [("sda", good_disk);
                     ("sdb", Dir [("smart.txt", File IOFailure)])]);
       ("cpu", Dir [])].

Definition two_disks_perf_relisted : node :=
  Dir [("cpu", Dir []);
       ("disk", Dir [("sdb", Dir [("smart.txt", File IOFailure)]);
                     ("sda", Dir [("fio_randread.txt", text_file "read: IOPS=1200");
                                  ("smart.txt", text_file smart_passed)])])].

Definition is_number (k : order_key) : bool :=
  match k with KNumber _ => true | _ => false end.

Definition is_string (k : order_key) : bool :=
  match k with KString _ => true | _ => false end.

(** The timestamp has an order key: it is no [NaN] and no list. *)
Definition has_order_key {M : Type} (x : report * M) : bool :=
  match key_of (sort_key x) with Some _ => true | None => false end.

(** A decoder for stores whose reports carry a [null] timestamp. *)
Definition null_stamp_load (content : string) : decoded :=
  match stamp_load content with
  | JsonObject r =>
      JsonObject {| report_hostname := report_hostname r;
                    report_timestamp := Some JNull;
                    report_system_info := report_system_info r;
                    report_path := report_path r |}
  | other => other
  end.

Definition null_stamped (path : string) : report :=
  {| report_hostname := None; report_timestamp := Some JNull;
     report_system_info := None; report_path := Some path |}.

(** The single-report route serves the listed report [x] under the name
    [name] of a visible directory. *)
Definition served_as {M : Type} (json_load : string -> decoded)
    (mtime : string -> M) (reports_path : string) (reports_dir : node)
    (name : string) (x : report * M) : Prop :=
  plain_name name = true
  /\ String.prefix "." name = false
  /\ get_report_route json_load reports_path reports_dir name = Success (fst x)
  /\ snd x = mtime (path_join (path_join reports_path name) "report.json").

(** * Properties *)

(** ** Basic facts about the embedding *)

Lemma bind_ok {A B : Type} (r : result A) (k : A -> result B) (b : B) :
  bind r k = Ok b -> exists a, r = Ok a /\ k a = Ok b.
Proof. destruct r as [a|e]; simpl; [eauto | discriminate]. Qed.

Ltac inv_bind H :=
  let a := fresh "st" in
  let Ha := fresh "Hst" in
  apply bind_ok in H; destruct H as (a & Ha & H).

(** On small operands [a / b] is the float division of the two converted
    operands, which is how CPython computes it. *)
Lemma int_truediv_small :
  forallb (fun z => PrimFloat.Leibniz.eqb (int_truediv z 100) (float_of_int z / 100)%float)
          (upto 2001) = true.
Proof. vm_compute. reflexivity. Qed.

Lemma check_artifact_score dir fname marker okmsg pts record st st' :
  check_artifact dir fname marker okmsg pts record st = Ok st' ->
  fst st' = fst st + (if check_passes dir fname marker then pts else 0).
Proof.
  unfold check_artifact, check_passes.
  destruct (child dir fname) as [f|]; [|intros [= <-]; lia].
  destruct (read_text f) as [content| |]; [| |discriminate].
  - destruct (marker content); intros [= <-]; simpl; lia.
  - intros [= <-]; simpl; lia.
Qed.

Lemma classify_cases good_at fair_at s :
  classify good_at fair_at s = "good"
  \/ classify good_at fair_at s = "fair"
  \/ classify good_at fair_at s = "poor".
Proof.
  unfold classify.
  destruct (Z.leb good_at s); [auto|]. destruct (Z.leb fair_at s); auto.
Qed.

Lemma classify_not_unknown good_at fair_at s :
  classify good_at fair_at s <> "unknown".
Proof.
  destruct (classify_cases good_at fair_at s) as [-> | [-> | ->]]; discriminate.
Qed.

Lemma finish_graded good_at fair_at st : graded good_at fair_at (finish good_at fair_at st).
Proof. split; [reflexivity | discriminate]. Qed.

Lemma cpu_graded d r : _analyze_cpu_tests d = Ok r -> graded 50 25 r.
Proof.
  unfold _analyze_cpu_tests. intros H.
  inv_bind H. inv_bind H. injection H as <-. apply finish_graded.
Qed.

Lemma memory_graded d r : _analyze_memory_tests d = Ok r -> graded 75 50 r.
Proof.
  unfold _analyze_memory_tests. intros H.
  inv_bind H. inv_bind H. injection H as <-. apply finish_graded.
Qed.

Lemma disk_graded d r : _analyze_disk_tests d = Ok r -> graded 50 25 r.
Proof.
  unfold _analyze_disk_tests. intros H.
  inv_bind H. inv_bind H. injection H as <-. apply finish_graded.
Qed.

Lemma network_graded d r : _analyze_network_tests d = Ok r -> graded 75 50 r.
Proof.
  unfold _analyze_network_tests. intros H.
  inv_bind H. inv_bind H. inv_bind H. injection H as <-. apply finish_graded.
Qed.

Lemma analyze_subdir_ok perf_dir name analyzer m m' :
  analyze_subdir perf_dir name analyzer m = Ok m' ->
  match child perf_dir name with
  | Some d => exists r, analyzer d = Ok r /\ m' = <[name := r]> m
  | None => m' = m
  end.
Proof.
  unfold analyze_subdir. destruct (child perf_dir name) as [d|].
  - intros H. inv_bind H. injection H as <-. eauto.
  - intros [= <-]. reflexivity.
Qed.

(** What the aggregate holds under each of the four keys: the analyzer's
    result where the directory exists, the placeholder where it does not. *)
Lemma performance_entry perf_dir agg c :
  _analyze_performance perf_dir = Ok agg ->
  In c components ->
  match child perf_dir c with
  | Some d => exists r, analyzer_of c d = Ok r /\ agg !! c = Some r
  | None => agg !! c = Some unknown_result
  end.
Proof.
  unfold _analyze_performance. intros H Hc.
  inv_bind H. inv_bind H. inv_bind H. inv_bind H. injection H as <-.
  apply analyze_subdir_ok in Hst, Hst0, Hst1, Hst2.
  simpl in Hc.
  destruct Hc as [<- | [<- | [<- | [<- | []]]]]; unfold analyzer_of; simpl;
    destruct (child perf_dir "cpu"), (child perf_dir "memory"),
             (child perf_dir "disk"), (child perf_dir "network");
    repeat match goal with
           | H : exists _, _ |- _ => destruct H as (? & ? & ?)
           end;
    subst; unfold initial_performance; simplify_map_eq; eauto.
Qed.

Lemma analyzer_of_graded c d r :
  analyzer_of c d = Ok r -> exists g f, graded g f r.
Proof.
  unfold analyzer_of. intros H.
  destruct (String.eqb c "cpu"); [eauto using cpu_graded|].
  destruct (String.eqb c "memory"); [eauto using memory_graded|].
  destruct (String.eqb c "disk"); eauto using disk_graded, network_graded.
Qed.

Lemma cpu_only_analysis : _analyze_performance cpu_only_perf = Ok cpu_only_agg.
Proof. vm_compute. reflexivity. Qed.

(** ** The aggregate and absent subsystem directories *)

(** C1 fails on a [performance/] tree that has only [cpu/]: the keys
    "memory", "disk" and "network" are all in the aggregate. *)
Lemma C1_absent_subsystem_is_listed : ~ omits_absent_subsystems cpu_only_perf.
Proof.
  intros H.
  specialize (H cpu_only_agg "memory" cpu_only_analysis).
  assert (cpu_only_agg !! "memory" = None) as Hm.
  { apply H; [simpl; auto | reflexivity]. }
  vm_compute in Hm. discriminate Hm.
Qed.

(** C1, amended: when [performance/] exists, a subsystem whose directory is
    absent is still a key of the aggregate, bound to the placeholder
    [{'status': 'unknown', 'score': 0}]. *)
Theorem C1_absent_subsystem_gets_placeholder :
  forall (perf_dir : node) (agg : gmap string subsystem_result) (c : string),
    _analyze_performance perf_dir = Ok agg ->
    In c components ->
    child perf_dir c = None ->
    agg !! c = Some unknown_result.
Proof.
  intros perf_dir agg c Hagg Hc Habs.
  pose proof (performance_entry perf_dir agg c Hagg Hc) as H.
  rewrite Habs in H. exact H.
Qed.

Lemma C1_absent_subsystem_gets_placeholder_witness :
  cpu_only_agg !! "disk" = Some unknown_result.
Proof.
  apply (C1_absent_subsystem_gets_placeholder cpu_only_perf cpu_only_agg "disk").
  - vm_compute. reflexivity.
  - simpl. auto.
  - reflexivity.
Defined.

(** C10: in the aggregate every one of the four keys is bound; the status
    under a key is "unknown" exactly when the subsystem's directory is
    absent, and then the score is 0 and there is no details key; when the
    directory exists the status is "poor", "fair" or "good" and details are
    present.  On an empty directory every analyzer returns status "poor"
    with score 0. *)
Theorem C10_unknown_exactly_when_absent :
  forall (perf_dir : node) (agg : gmap string subsystem_result) (c : string),
    _analyze_performance perf_dir = Ok agg ->
    In c components ->
    (exists r, agg !! c = Some r
       /\ (status r = "unknown" <-> child perf_dir c = None)
       /\ (child perf_dir c = None -> score r = 0 /\ details r = None)
       /\ (child perf_dir c <> None ->
           (status r = "poor" \/ status r = "fair" \/ status r = "good")
           /\ details r <> None))
    /\ analyzer_of c (Dir []) =
         Ok {| status := "poor"; score := 0; details := Some ∅ |}.
Proof.
  intros perf_dir agg c Hagg Hc. split.
  - pose proof (performance_entry perf_dir agg c Hagg Hc) as H.
    destruct (child perf_dir c) as [d|].
    + destruct H as (r & Hr & Hlk). exists r. split; [exact Hlk|].
      destruct (analyzer_of_graded c d r Hr) as (g & f & Hs & Hd).
      split; [|split].
      * split; [|discriminate].
        intros Hu. rewrite Hs in Hu. now apply classify_not_unknown in Hu.
      * discriminate.
      * intros _. split; [|exact Hd].
        rewrite Hs. destruct (classify_cases g f (score r)) as [-> | [-> | ->]]; auto.
    + exists unknown_result. split; [exact H|]. split; [|split].
      * split; reflexivity.
      * intros _. split; reflexivity.
      * intros Hne. now contradiction Hne.
  - simpl in Hc. destruct Hc as [<- | [<- | [<- | [<- | []]]]]; reflexivity.
Qed.

Lemma C10_unknown_exactly_when_absent_witness :
  (exists r, cpu_only_agg !! "cpu" = Some r
     /\ (status r = "unknown" <-> child cpu_only_perf "cpu" = None)
     /\ (child cpu_only_perf "cpu" = None -> score r = 0 /\ details r = None)
     /\ (child cpu_only_perf "cpu" <> None ->
         (status r = "poor" \/ status r = "fair" \/ status r = "good")
         /\ details r <> None))
  /\ analyzer_of "cpu" (Dir []) =
       Ok {| status := "poor"; score := 0; details := Some ∅ |}.
Proof.
  apply (C10_unknown_exactly_when_absent cpu_only_perf cpu_only_agg "cpu").
  - vm_compute. reflexivity.
  - simpl. auto.
Defined.

(** ** Subsystem scores *)

Section Loops.
Context {A : Type} (body : acc -> A -> result acc) (w : A -> Z).
Hypothesis body_adds :
  forall st x st', body st x = Ok st' -> fst st' = fst st + w x.

Lemma for_each_adds l : forall st st',
  for_each body l st = Ok st' -> fst st' = fst st + sum_points w l.
Proof.
  induction l as [|x l IH]; simpl; intros st st' H.
  - injection H as <-. lia.
  - inv_bind H. apply body_adds in Hst. apply IH in H. lia.
Qed.

End Loops.

Lemma disk_body_adds st e st' :
  disk_body st e = Ok st' -> fst st' = fst st + disk_points e.
Proof.
  unfold disk_body, disk_points. destruct e as [name d]; simpl.
  destruct (is_dir d); [|intros [= <-]; lia].
  intros H. inv_bind H.
  apply check_artifact_score in Hst, H. simpl in Hst. unfold points. lia.
Qed.

Lemma iface_body_adds st e st' :
  iface_body st e = Ok st' -> fst st' = fst st + iface_points e.
Proof.
  unfold iface_body, iface_points.
  destruct (is_iface e); [|intros [= <-]; lia].
  destruct (child (snd e) "ethtool.txt"); intros [= <-]; simpl; lia.
Qed.

Lemma sum_points_bounded {A : Type} (w : A -> Z) (p : A -> bool) (k : Z) l :
  (forall x, 0 <= w x <= if p x then k else 0) ->
  0 <= sum_points w l <= k * Z.of_nat (length (List.filter p l)).
Proof.
  intros Hw. induction l as [|x l IH]; simpl; [lia|].
  specialize (Hw x). destruct (p x); simpl length; lia.
Qed.

(** The scores written as the specification words them. *)
Lemma cpu_score d r :
  _analyze_cpu_tests d = Ok r ->
  score r = points (check_passes d "sysbench_cpu.txt" (contains "execution time")) 25
          + points (check_passes d "stress_ng.txt" (contains "completed")) 25.
Proof.
  unfold _analyze_cpu_tests. intros H. inv_bind H. inv_bind H. injection H as <-.
  apply check_artifact_score in Hst, Hst0. simpl in *. unfold points. lia.
Qed.

Lemma memory_score d r :
  _analyze_memory_tests d = Ok r ->
  score r = points (check_passes d "memtester.txt" memtester_ok) 50
          + points (check_passes d "stress_ng_memory.txt" (contains "completed")) 50.
Proof.
  unfold _analyze_memory_tests. intros H. inv_bind H. inv_bind H. injection H as <-.
  apply check_artifact_score in Hst, Hst0. simpl in *. unfold points. lia.
Qed.

Lemma disk_score d r :
  _analyze_disk_tests d = Ok r -> score r = sum_points disk_points (entries_of d).
Proof.
  unfold _analyze_disk_tests. intros H. inv_bind H. inv_bind H. injection H as <-.
  destruct d as [f|es]; [discriminate|]. injection Hst as <-.
  apply (for_each_adds _ _ disk_body_adds) in Hst0. simpl in *. lia.
Qed.

Lemma network_score d r :
  _analyze_network_tests d = Ok r ->
  score r = points (check_passes d "iperf3_localhost.txt" iperf_ok) 50
          + sum_points iface_points (entries_of d).
Proof.
  unfold _analyze_network_tests. intros H.
  inv_bind H. inv_bind H. inv_bind H. injection H as <-.
  destruct d as [f|es]; [discriminate|]. injection Hst0 as <-.
  apply check_artifact_score in Hst.
  apply (for_each_adds _ _ iface_body_adds) in Hst1. simpl in *. unfold points. lia.
Qed.

Lemma disk_points_range e :
  0 <= disk_points e <= if is_dir (snd e) then 35 else 0.
Proof.
  unfold disk_points, points. destruct (is_dir (snd e)); [|lia].
  destruct (check_passes _ "smart.txt" _), (check_passes _ "fio_randread.txt" _); lia.
Qed.

Lemma iface_points_range e :
  0 <= iface_points e <= if is_iface e then 25 else 0.
Proof.
  unfold iface_points. destruct (is_iface e); [|lia].
  destruct (child (snd e) "ethtool.txt"); lia.
Qed.

(** No analyzer returns a negative score; the CPU score is at most 50 and
    the memory score at most 100; the disk score is at most 35 per disk
    subdirectory and the network score at most 50 plus 25 per non-loopback
    interface subdirectory. *)
Lemma scores_bounded_by_device_count :
  forall (d : node) (r : subsystem_result),
    (_analyze_cpu_tests d = Ok r -> 0 <= score r <= 50)
    /\ (_analyze_memory_tests d = Ok r -> 0 <= score r <= 100)
    /\ (_analyze_disk_tests d = Ok r -> 0 <= score r <= 35 * subdir_count d)
    /\ (_analyze_network_tests d = Ok r -> 0 <= score r <= 50 + 25 * iface_count d).
Proof.
  intros d r. split; [|split; [|split]]; intros H.
  - apply cpu_score in H; rewrite H; unfold points;
      repeat match goal with |- context [if ?b then _ else _] => destruct b end; lia.
  - apply memory_score in H; rewrite H; unfold points;
      repeat match goal with |- context [if ?b then _ else _] => destruct b end; lia.
  - apply disk_score in H; rewrite H; unfold subdir_count.
    pose proof (sum_points_bounded disk_points (fun e => is_dir (snd e)) 35
                  (entries_of d) disk_points_range). lia.
  - apply network_score in H; rewrite H; unfold iface_count, points.
    pose proof (sum_points_bounded iface_points is_iface 25
                  (entries_of d) iface_points_range).
    destruct (check_passes d "iperf3_localhost.txt" iperf_ok); lia.
Qed.

(** C3 at three disks that pass both checks, and at a complete iperf3 run
    with three configured interfaces: the disk analyzer returns the score
    3 * (20 + 15) = 105 and the network analyzer 50 + 3 * 25 = 125, both
    above the 100 that [_calculate_health_score] takes as [max_possible]. *)
Theorem C3_three_disks_score_105 :
  result_map (fun r => (status r, score r)) (_analyze_disk_tests (disks 3))
  = Ok ("good", 105)
  /\ result_map (fun r => (status r, score r)) (_analyze_network_tests three_ifaces)
     = Ok ("good", 125).
Proof. split; vm_compute; reflexivity. Qed.

(** ** The health score *)

Lemma upto_In (n : nat) (z : Z) : 0 <= z < Z.of_nat n -> In z (upto n).
Proof.
  intros Hz. unfold upto. apply in_map_iff. exists (Z.to_nat z).
  split; [lia | apply in_seq; lia].
Qed.

Lemma multiples_In (k : Z) (n : nat) (z q : Z) :
  z = k * q -> 0 <= q < Z.of_nat n -> In z (multiples k n).
Proof.
  intros -> Hq. unfold multiples. apply in_map. now apply upto_In.
Qed.

(** All capped score combinations the analyzers can produce, evaluated. *)
Lemma health_of_capped_scores_checked :
  forallb (fun c =>
    forallb (fun m =>
      forallb (fun d =>
        forallb (fun n => percent (health_of_scores c m d n)) (multiples 25 5))
        (multiples 5 21))
      [0; 50; 100])
    [0; 25; 50] = true.
Proof. vm_compute. reflexivity. Qed.

Lemma health_of_capped_scores c m d n :
  In c [0; 25; 50] -> In m [0; 50; 100] ->
  In d (multiples 5 21) -> In n (multiples 25 5) ->
  exists h, health_of_scores c m d n = Ok h /\ 0 <= h <= 100.
Proof.
  intros Hc Hm Hd Hn.
  pose proof health_of_capped_scores_checked as H.
  rewrite forallb_forall in H. specialize (H c Hc).
  rewrite forallb_forall in H. specialize (H m Hm).
  rewrite forallb_forall in H. specialize (H d Hd).
  rewrite forallb_forall in H. specialize (H n Hn).
  unfold percent in H. destruct (health_of_scores c m d n) as [h|e]; [|discriminate].
  exists h. split; [reflexivity | lia].
Qed.

Lemma sum_points_divisible {A : Type} (w : A -> Z) (k : Z) l :
  (forall x, exists q, w x = k * q) -> exists q, sum_points w l = k * q.
Proof.
  intros Hw. induction l as [|x l [q IH]]; simpl.
  - exists 0. lia.
  - destruct (Hw x) as [q' Hq']. exists (q' + q). lia.
Qed.

Lemma disk_points_divisible e : exists q, disk_points e = 5 * q.
Proof.
  unfold disk_points, points. destruct (is_dir (snd e)); [|exists 0; lia].
  destruct (check_passes _ "smart.txt" _), (check_passes _ "fio_randread.txt" _);
    [exists 7 | exists 4 | exists 3 | exists 0]; lia.
Qed.

Lemma iface_points_divisible e : exists q, iface_points e = 25 * q.
Proof.
  unfold iface_points. destruct (is_iface e); [|exists 0; lia].
  destruct (child (snd e) "ethtool.txt"); [exists 1 | exists 0]; lia.
Qed.

Lemma analyzer_score_values c d r :
  analyzer_of c d = Ok r -> score_values c (score r).
Proof.
  unfold analyzer_of, score_values.
  destruct (String.eqb c "cpu").
  { intros H. apply cpu_score in H. rewrite H. unfold points.
    repeat match goal with |- context [if ?b then _ else _] => destruct b end;
      simpl; auto. }
  destruct (String.eqb c "memory").
  { intros H. apply memory_score in H. rewrite H. unfold points.
    repeat match goal with |- context [if ?b then _ else _] => destruct b end;
      simpl; auto. }
  destruct (String.eqb c "disk").
  { intros H.
    apply disk_score in H.
    destruct (sum_points_divisible disk_points 5 (entries_of d) disk_points_divisible)
      as [q Hq].
    pose proof (sum_points_bounded disk_points (fun e => is_dir (snd e)) 35
                  (entries_of d) disk_points_range).
    exists q. lia. }
  intros H. apply network_score in H.
  destruct (sum_points_divisible iface_points 25 (entries_of d) iface_points_divisible)
    as [q Hq].
  pose proof (sum_points_bounded iface_points is_iface 25
                (entries_of d) iface_points_range).
  unfold points in H. destruct (check_passes d "iperf3_localhost.txt" iperf_ok).
  - exists (2 + q). lia.
  - exists q. lia.
Qed.

Lemma health_no_performance sys :
  _calculate_health_score {| system := Some sys; performance := None |} = Ok 100.
Proof. vm_compute. reflexivity. Qed.

Lemma health_totals_full sys agg rc rm rd rn :
  agg !! "cpu" = Some rc -> agg !! "memory" = Some rm ->
  agg !! "disk" = Some rd -> agg !! "network" = Some rn ->
  health_totals {| system := Some sys; performance := Some agg |}
  = ((0 + 25 + int_truediv (score rc) 100 * 18.75
      + int_truediv (score rm) 100 * 18.75
      + int_truediv (score rd) 100 * 18.75
      + int_truediv (score rn) 100 * 18.75)%float,
     100%float).
Proof.
  intros Hc Hm Hd Hn.
  unfold health_totals, components, health_step, fold_left.
  cbn [system performance default from_option]. unfold id.
  rewrite Hc, Hm, Hd, Hn. cbn [fst snd]. reflexivity.
Qed.

Lemma health_with_performance sys agg rc rm rd rn :
  agg !! "cpu" = Some rc -> agg !! "memory" = Some rm ->
  agg !! "disk" = Some rd -> agg !! "network" = Some rn ->
  _calculate_health_score {| system := Some sys; performance := Some agg |}
  = health_of_scores (score rc) (score rm) (score rd) (score rn).
Proof.
  intros Hc Hm Hd Hn. unfold _calculate_health_score.
  rewrite (health_totals_full sys agg rc rm rd rn Hc Hm Hd Hn).
  reflexivity.
Qed.

(** What a returned Analysis Record is made of. *)
Lemma process_report_ok now fs report_data p :
  process_report now fs report_data = Ok p ->
  exists sys perf,
    analysis_of p = {| system := Some sys; performance := perf |}
    /\ _calculate_health_score (analysis_of p) = Ok (health_score p)
    /\ recommendations p = _generate_recommendations (analysis_of p)
    /\ match performance_dir_of fs report_data with
       | Some d => exists agg, _analyze_performance d = Ok agg /\ perf = Some agg
       | None => perf = None
       end.
Proof.
  unfold process_report. intros H.
  destruct (system_info_dict report_data) as [system_info|e]; [|discriminate].
  cbn [bind] in H.
  destruct (performance_dir_of fs report_data) as [d|].
  - inv_bind H. destruct (_analyze_performance d) as [agg|e]; [|discriminate].
    injection Hst as <-. inv_bind H. injection H as <-. simpl.
    eexists _, _. repeat split; eauto.
  - inv_bind H. injection Hst as <-. inv_bind H. injection H as <-. simpl.
    eexists _, _. repeat split; eauto.
Qed.

Lemma entry_score_values d agg c :
  _analyze_performance d = Ok agg -> In c components ->
  exists r, agg !! c = Some r /\ score_values c (score r).
Proof.
  intros Hagg Hc. pose proof (performance_entry d agg c Hagg Hc) as H.
  destruct (child d c) as [sub|].
  - destruct H as (r & Hr & Hlk). exists r. eauto using analyzer_score_values.
  - exists unknown_result. split; [exact H|].
    simpl in Hc. destruct Hc as [<- | [<- | [<- | [<- | []]]]];
      unfold score_values; simpl; auto; exists 0; lia.
Qed.

Lemma health_of_capped_aggregate d agg sys :
  _analyze_performance d = Ok agg ->
  (forall c r, agg !! c = Some r -> score r <= 100) ->
  exists h, _calculate_health_score {| system := Some sys; performance := Some agg |} = Ok h
            /\ 0 <= h <= 100.
Proof.
  intros Hagg Hcap.
  destruct (entry_score_values d agg "cpu" Hagg) as (rc & Hc & Vc); [simpl; auto|].
  destruct (entry_score_values d agg "memory" Hagg) as (rm & Hm & Vm); [simpl; auto|].
  destruct (entry_score_values d agg "disk" Hagg) as (rd & Hd & qd & Vd & Hqd);
    [simpl; auto|].
  destruct (entry_score_values d agg "network" Hagg) as (rn & Hn & qn & Vn & Hqn);
    [simpl; auto|].
  rewrite (health_with_performance sys agg rc rm rd rn Hc Hm Hd Hn).
  pose proof (Hcap "disk" rd Hd) as Cd.
  pose proof (Hcap "network" rn Hn) as Cn.
  apply health_of_capped_scores.
  - exact Vc.
  - exact Vm.
  - apply (multiples_In 5 21 _ qd Vd). lia.
  - apply (multiples_In 25 5 _ qn Vn). lia.
Qed.

(** C4 at twelve passing disks: the disk score is 420, the disk alone
    earns 78.75 of the "75 points total" of the four subsystems, and the
    health score is int((25 + 78.75) / 100 * 100) = 103. *)
Theorem C4_twelve_disks_health_103 :
  result_map (fun r => (status r, score r))
    (_analyze_disk_tests (disks 12)) = Ok ("good", 420)
  /\ result_map health_score
       (process_report "" (fs_of twelve_disks_root) sample_report) = Ok 103.
Proof. split; vm_compute; reflexivity. Qed.

(** The health score lies in [0, 100] whenever no subsystem score of the
    analysis exceeds 100. *)
Lemma health_in_range_when_scores_capped :
  forall (now : string) (fs : gmap string node) (report_data : report)
         (p : processed),
    process_report now fs report_data = Ok p ->
    (forall perf c r, performance (analysis_of p) = Some perf ->
                      perf !! c = Some r -> score r <= 100) ->
    0 <= health_score p <= 100.
Proof.
  intros now fs report_data p Hp Hcap.
  destruct (process_report_ok _ _ _ _ Hp) as (sys & perf & Ha & Hh & _ & Hperf).
  rewrite Ha in Hh, Hcap. simpl in Hcap.
  destruct (performance_dir_of fs report_data) as [d|].
  - destruct Hperf as (agg & Hagg & ->).
    destruct (health_of_capped_aggregate d agg sys Hagg) as (h & Hh' & Hrange).
    + intros c r. now apply Hcap.
    + rewrite Hh' in Hh. injection Hh as <-. exact Hrange.
  - subst perf. rewrite health_no_performance in Hh. injection Hh as <-. lia.
Qed.

Lemma Qtrunc_inject_Z z : Qtrunc (inject_Z z) = z.
Proof.
  unfold Qtrunc, Qceiling, Qfloor. simpl.
  destruct (Z.ltb z 0); rewrite Z.div_1_r; lia.
Qed.

Lemma Qtrunc_fraction (s : bool) (m d : positive) :
  Qtrunc (Qmake (cond_Zopp s (Zpos m)) d) = cond_Zopp s (Zpos m / Zpos d).
Proof.
  unfold Qtrunc, Qceiling, Qfloor. destruct s; simpl.
  - reflexivity.
  - reflexivity.
Qed.

(** [int(x)] is the truncation of the exact value of [x], and raises when
    [x] has none. *)
Lemma py_int_truncates x :
  match float_value x with
  | Some q => py_int x = Ok (Qtrunc q)
  | None => is_ok (py_int x) = false
  end.
Proof.
  unfold float_value, py_int.
  destruct (Prim2SF x) as [s|s| |s m e]; simpl; try reflexivity.
  destruct e as [|k|k].
  - rewrite Qtrunc_inject_Z. f_equal. rewrite Z.shiftl_0_r. destruct s; simpl; lia.
  - rewrite Qtrunc_inject_Z. f_equal. rewrite Z.shiftl_mul_pow2 by lia.
    destruct s; simpl cond_Zopp; lia.
  - rewrite Qtrunc_fraction. do 2 f_equal.
    change (Z.shiftl (Z.pos m) (Z.neg k)) with (Z.shiftr (Z.pos m) (Z.pos k)).
    rewrite Z.shiftr_div_pow2 by lia. now rewrite Pos2Z.inj_pow.
Qed.

(** ** Rounding of the health score *)

Lemma sysbench_only_processed :
  result_map analysis_of
    (process_report "" (fs_of (root_with sysbench_only_perf)) sample_report)
  = Ok sysbench_only_analysis.
Proof. vm_compute. reflexivity. Qed.

(** C5 fails on that analysis: 29.6875 percent of the points are earned,
    the program returns 29 and rounding gives 30. *)
Lemma C5_health_29_not_rounded_30 : ~ health_is_rounded sysbench_only_analysis.
Proof.
  intros H.
  assert (_calculate_health_score sysbench_only_analysis = Ok 29) as Hcode
    by (vm_compute; reflexivity).
  assert (py_round (fst (health_totals sysbench_only_analysis)
                    / snd (health_totals sysbench_only_analysis) * 100)%float = Ok 30)
    as Hround by (vm_compute; reflexivity).
  assert ((snd (health_totals sysbench_only_analysis) =? 0)%float = false)
    as Hcounted by (vm_compute; reflexivity).
  specialize (H Hcounted). rewrite Hcode, Hround in H. discriminate H.
Qed.

(** C5, amended: with (earned, possible) the two totals of the scorer, the
    health score is 0 when possible is 0 (no system block and no
    performance key) and otherwise int(earned / possible * 100): the exact
    value of that float truncated toward zero, not rounded. *)
Theorem C5_health_score_truncates :
  forall (a : analysis),
    (if (snd (health_totals a) =? 0)%float
     then _calculate_health_score a = Ok 0
     else match float_value (fst (health_totals a) / snd (health_totals a) * 100)%float with
          | Some q => _calculate_health_score a = Ok (Qtrunc q)
          | None => is_ok (_calculate_health_score a) = false
          end)
    /\ _calculate_health_score {| system := None; performance := None |} = Ok 0.
Proof.
  intros a. split; [|vm_compute; reflexivity].
  unfold _calculate_health_score.
  destruct (health_totals a) as [earned possible]. cbn [fst snd].
  destruct (possible =? 0)%float; [reflexivity|].
  apply py_int_truncates.
Qed.

(** ** Absent subsystems in the health score *)

Lemma analyze_performance_by_entries perf_dir :
  _analyze_performance perf_dir =
    (do rc <- subsystem_entry "cpu" (child perf_dir "cpu");
     do rm <- subsystem_entry "memory" (child perf_dir "memory");
     do rd <- subsystem_entry "disk" (child perf_dir "disk");
     do rn <- subsystem_entry "network" (child perf_dir "network");
     Ok (aggregate_of rc rm rd rn)).
Proof.
  unfold _analyze_performance, analyze_subdir, subsystem_entry, analyzer_of.
  cbn [String.eqb Ascii.eqb Bool.eqb].
  destruct (child perf_dir "cpu") as [dc|];
    [destruct (_analyze_cpu_tests dc) as [rc|]; [|reflexivity]|];
  cbn [bind];
  (destruct (child perf_dir "memory") as [dm|];
    [destruct (_analyze_memory_tests dm) as [rm|]; [|reflexivity]|]);
  cbn [bind];
  (destruct (child perf_dir "disk") as [dd|];
    [destruct (_analyze_disk_tests dd) as [rd|]; [|reflexivity]|]);
  cbn [bind];
  (destruct (child perf_dir "network") as [dn|];
    [destruct (_analyze_network_tests dn) as [rn|]; [|reflexivity]|]);
  cbn [bind]; f_equal; apply map_eq; intros i;
  unfold aggregate_of, initial_performance;
  rewrite !lookup_insert; repeat case_decide; congruence.
Qed.

Lemma health_of_aggregate sys rc rm rd rn :
  _calculate_health_score
    {| system := Some sys; performance := Some (aggregate_of rc rm rd rn) |}
  = health_of_scores (score rc) (score rm) (score rd) (score rn).
Proof. apply health_with_performance; reflexivity. Qed.

Lemma zero_contribution : (int_truediv 0 100 * 18.75)%float = 0%float.
Proof. vm_compute. reflexivity. Qed.

(** With only [cpu/] present and both CPU tests completed the program
    scores 34 of 100; counted on the tested subsystem alone it would be 78. *)
Lemma cpu_only_health_34 :
  result_map health_score
    (process_report "" (fs_of (root_with cpu_only_perf)) sample_report) = Ok 34
  /\ py_int (fst (tested_totals cpu_only_perf cpu_only_agg)
             / snd (tested_totals cpu_only_perf cpu_only_agg) * 100)%float = Ok 78.
Proof. split; vm_compute; reflexivity. Qed.

(** C2 fails on that tree: the denominator is 100, not 25 + 18.75. *)
Lemma C2_untested_subsystems_are_counted : ~ scored_on_tested_only cpu_only_perf.
Proof.
  intros H.
  specialize (H cpu_only_agg sample_system cpu_only_analysis).
  apply (f_equal (fun tm => (snd tm <? 50)%float)) in H.
  vm_compute in H. discriminate H.
Qed.

(** C2, amended: when [performance/] exists, a subsystem whose directory is
    absent is scored like a tested subsystem with score 0: it adds 0 to the
    numerator and 18.75 to the denominator, so the denominator is 100
    whichever subsystem directories exist; adding an empty directory for it
    leaves the health score unchanged. *)
Theorem C2_absent_subsystem_scored_as_zero :
  forall (perf_dir : node) (agg : gmap string subsystem_result)
         (sys : system_block) (c : string),
    _analyze_performance perf_dir = Ok agg ->
    In c components ->
    child perf_dir c = None ->
    (forall tm, health_step agg tm c = ((fst tm + 0)%float, (snd tm + 18.75)%float))
    /\ snd (health_totals {| system := Some sys; performance := Some agg |}) = 100%float
    /\ (forall perf_dir',
          child perf_dir' c = Some (Dir []) ->
          (forall c', c' <> c -> child perf_dir' c' = child perf_dir c') ->
          exists agg',
            _analyze_performance perf_dir' = Ok agg'
            /\ _calculate_health_score {| system := Some sys; performance := Some agg' |}
               = _calculate_health_score {| system := Some sys; performance := Some agg |}).
Proof.
  intros perf_dir agg sys c Hagg Hc Habs. split; [|split].
  - intros tm. unfold health_step.
    pose proof (performance_entry perf_dir agg c Hagg Hc) as H.
    rewrite Habs in H. rewrite H. cbn [score unknown_result].
    now rewrite zero_contribution.
  - destruct (entry_score_values perf_dir agg "cpu" Hagg) as (rc & Hrc & _); [simpl; auto|].
    destruct (entry_score_values perf_dir agg "memory" Hagg) as (rm & Hrm & _); [simpl; auto|].
    destruct (entry_score_values perf_dir agg "disk" Hagg) as (rd & Hrd & _); [simpl; auto|].
    destruct (entry_score_values perf_dir agg "network" Hagg) as (rn & Hrn & _); [simpl; auto|].
    now rewrite (health_totals_full sys agg rc rm rd rn Hrc Hrm Hrd Hrn).
  - intros perf_dir' Hnew Hsame.
    rewrite analyze_performance_by_entries in Hagg |- *.
    simpl in Hc.
    destruct Hc as [<- | [<- | [<- | [<- | []]]]];
      rewrite Hnew, Habs in *;
      repeat match goal with
             | |- context [child perf_dir' ?k] =>
                 rewrite (Hsame k) by discriminate
             end;
      cbn [subsystem_entry bind] in Hagg |- *;
      repeat match type of Hagg with
             | bind ?r _ = Ok _ =>
                 destruct r as [?|?]; cbn [bind] in Hagg |- *; [|discriminate Hagg]
             end;
      injection Hagg as <-;
      eexists; (split; [reflexivity|]);
      rewrite !health_of_aggregate; reflexivity.
Qed.

Lemma C2_absent_subsystem_scored_as_zero_witness :
  (forall tm, health_step cpu_only_agg tm "memory"
              = ((fst tm + 0)%float, (snd tm + 18.75)%float))
  /\ snd (health_totals {| system := Some sample_system;
                           performance := Some cpu_only_agg |}) = 100%float
  /\ (forall perf_dir',
        child perf_dir' "memory" = Some (Dir []) ->
        (forall c', c' <> "memory" -> child perf_dir' c' = child cpu_only_perf c') ->
        exists agg',
          _analyze_performance perf_dir' = Ok agg'
          /\ _calculate_health_score {| system := Some sample_system;
                                        performance := Some agg' |}
             = _calculate_health_score {| system := Some sample_system;
                                          performance := Some cpu_only_agg |}).
Proof.
  apply (C2_absent_subsystem_scored_as_zero cpu_only_perf cpu_only_agg
           sample_system "memory").
  - vm_compute. reflexivity.
  - simpl. auto.
  - reflexivity.
Defined.

(** ** Read failures *)

Lemma check_artifact_is_ok dir fname marker okmsg pts record st :
  is_ok (check_artifact dir fname marker okmsg pts record st)
  = artifact_decodes dir fname.
Proof.
  unfold check_artifact, artifact_decodes.
  destruct (child dir fname) as [f|]; [|reflexivity].
  destruct (read_text f) as [content| |]; try reflexivity.
  now destruct (marker content).
Qed.

Lemma bind_is_ok {A B : Type} (r : result A) (k : A -> result B) (b : bool) :
  (forall a, is_ok (k a) = b) -> is_ok (bind r k) = is_ok r && b.
Proof. intros Hk. destruct r as [a|e]; cbn [bind is_ok andb]; [apply Hk | reflexivity]. Qed.

Lemma cpu_is_ok d : is_ok (_analyze_cpu_tests d) = artifacts_decode "cpu" d.
Proof.
  unfold _analyze_cpu_tests, artifacts_decode. cbn [String.eqb Ascii.eqb Bool.eqb].
  rewrite (bind_is_ok _ _ (artifact_decodes d "stress_ng.txt")).
  - now rewrite check_artifact_is_ok.
  - intros st. rewrite (bind_is_ok _ _ true) by reflexivity.
    now rewrite check_artifact_is_ok, andb_true_r.
Qed.

Lemma memory_is_ok d : is_ok (_analyze_memory_tests d) = artifacts_decode "memory" d.
Proof.
  unfold _analyze_memory_tests, artifacts_decode. cbn [String.eqb Ascii.eqb Bool.eqb].
  rewrite (bind_is_ok _ _ (artifact_decodes d "stress_ng_memory.txt")).
  - now rewrite check_artifact_is_ok.
  - intros st. rewrite (bind_is_ok _ _ true) by reflexivity.
    now rewrite check_artifact_is_ok, andb_true_r.
Qed.

Lemma disk_body_is_ok st e : is_ok (disk_body st e) = disk_decodes e.
Proof.
  destruct e as [name d]. unfold disk_body, disk_decodes. cbn [fst snd].
  destruct (is_dir d); [|reflexivity]. cbn [negb orb].
  rewrite (bind_is_ok _ _ (artifact_decodes d "fio_randread.txt")).
  - now rewrite check_artifact_is_ok.
  - intros st'. apply check_artifact_is_ok.
Qed.

Lemma for_each_is_ok {A S : Type} (body : S -> A -> result S) (good : A -> bool) l :
  (forall s x, is_ok (body s x) = good x) ->
  forall s, is_ok (for_each body l s) = forallb good l.
Proof.
  intros Hbody. induction l as [|x l IH]; intros s; cbn [for_each forallb];
    [reflexivity|].
  rewrite <- (Hbody s x). destruct (body s x) as [s'|e]; cbn [bind is_ok andb];
    [apply IH | reflexivity].
Qed.

Lemma disk_is_ok d :
  is_ok (_analyze_disk_tests d) = is_dir d && artifacts_decode "disk" d.
Proof.
  unfold _analyze_disk_tests, artifacts_decode. cbn [String.eqb Ascii.eqb Bool.eqb].
  destruct d as [f|es]; [reflexivity|]. cbn [iterdir bind is_dir entries_of andb].
  rewrite (bind_is_ok _ _ true) by reflexivity. rewrite andb_true_r.
  apply for_each_is_ok. intros s x. apply disk_body_is_ok.
Qed.

Lemma iface_body_is_ok st e : is_ok (iface_body st e) = true.
Proof.
  unfold iface_body. destruct (is_iface e); [|reflexivity].
  now destruct (child (snd e) "ethtool.txt").
Qed.

Lemma network_is_ok d :
  is_ok (_analyze_network_tests d) = artifacts_decode "network" d && is_dir d.
Proof.
  unfold _analyze_network_tests, artifacts_decode. cbn [String.eqb Ascii.eqb Bool.eqb].
  rewrite (bind_is_ok _ _ (is_dir d)).
  - now rewrite check_artifact_is_ok.
  - intros st. destruct d as [f|es]; [reflexivity|]. cbn [iterdir bind is_dir].
    rewrite (bind_is_ok _ _ true) by reflexivity. rewrite andb_true_r.
    rewrite (for_each_is_ok iface_body (fun _ => true)).
    + induction es as [|x es IH]; [reflexivity | exact IH].
    + intros s x. apply iface_body_is_ok.
Qed.

Lemma subsystem_entry_is_ok c sub :
  In c components ->
  is_ok (subsystem_entry c sub)
  = match sub with
    | Some d =>
        artifacts_decode c d
        && (if String.eqb c "disk" || String.eqb c "network" then is_dir d else true)
    | None => true
    end.
Proof.
  intros Hc. destruct sub as [d|]; [|reflexivity]. cbn [subsystem_entry].
  simpl in Hc. destruct Hc as [<- | [<- | [<- | [<- | []]]]];
    unfold analyzer_of; cbn [String.eqb Ascii.eqb Bool.eqb orb].
  - now rewrite cpu_is_ok, andb_true_r.
  - now rewrite memory_is_ok, andb_true_r.
  - rewrite disk_is_ok. apply andb_comm.
  - apply network_is_ok.
Qed.

(** The aggregator returns exactly when the files it reads decode and
    [disk/] and [network/] can be listed. *)
Lemma analyze_performance_is_ok perf_dir :
  is_ok (_analyze_performance perf_dir) = true
  <-> opened_artifacts_decode perf_dir = true /\ listable perf_dir = true.
Proof.
  rewrite analyze_performance_by_entries.
  rewrite (bind_is_ok _ _
             (is_ok (subsystem_entry "memory" (child perf_dir "memory"))
              && (is_ok (subsystem_entry "disk" (child perf_dir "disk"))
                  && is_ok (subsystem_entry "network" (child perf_dir "network"))))).
  2:{ intros rc.
      rewrite (bind_is_ok _ _
                 (is_ok (subsystem_entry "disk" (child perf_dir "disk"))
                  && is_ok (subsystem_entry "network" (child perf_dir "network")))).
      { reflexivity. }
      intros rm.
      rewrite (bind_is_ok _ _
                 (is_ok (subsystem_entry "network" (child perf_dir "network")))).
      { reflexivity. }
      intros rd. rewrite (bind_is_ok _ _ true) by reflexivity. apply andb_true_r. }
  rewrite !subsystem_entry_is_ok by (simpl; auto 6).
  unfold opened_artifacts_decode, listable, components. cbn [forallb].
  cbn [String.eqb Ascii.eqb Bool.eqb orb].
  destruct (child perf_dir "cpu") as [dc|], (child perf_dir "memory") as [dm|],
    (child perf_dir "disk") as [dd|], (child perf_dir "network") as [dn|];
    repeat match goal with
           | |- context [artifacts_decode ?c ?d] => destruct (artifacts_decode c d)
           | |- context [is_dir ?d] => destruct (is_dir d)
           end;
    cbn [andb]; split; (intros [? ?] || intros ?); try discriminate; auto.
Qed.

Lemma health_system_irrelevant sys sys' perf :
  _calculate_health_score {| system := Some sys; performance := perf |}
  = _calculate_health_score {| system := Some sys'; performance := perf |}.
Proof. reflexivity. Qed.

Lemma system_info_dict_is_ok report_data :
  is_ok (system_info_dict report_data) = system_info_is_dict report_data.
Proof.
  unfold system_info_dict, system_info_is_dict.
  now destruct (report_system_info report_data) as [[]|].
Qed.

Lemma system_info_dict_raises report_data :
  system_info_is_dict report_data = false ->
  system_info_dict report_data = Raise AttributeError.
Proof.
  unfold system_info_dict, system_info_is_dict.
  now destruct (report_system_info report_data) as [[]|].
Qed.

(** When [process_report] returns, in terms of its three steps. *)
Lemma process_report_is_ok now fs report_data sys :
  is_ok (process_report now fs report_data)
  = system_info_is_dict report_data
    && match performance_dir_of fs report_data with
       | Some perf_dir =>
           match _analyze_performance perf_dir with
           | Ok agg =>
               is_ok (_calculate_health_score
                        {| system := Some sys; performance := Some agg |})
           | Raise _ => false
           end
       | None => true
       end.
Proof.
  unfold process_report. rewrite <- system_info_dict_is_ok.
  destruct (system_info_dict report_data) as [system_info|e]; [|reflexivity].
  cbn [bind is_ok andb].
  destruct (performance_dir_of fs report_data) as [perf_dir|]; cbn [bind].
  - destruct (_analyze_performance perf_dir) as [agg|e]; cbn [result_map bind];
      [|reflexivity].
    match goal with
    | |- context [_calculate_health_score {| system := Some ?s; performance := _ |}] =>
        rewrite (health_system_irrelevant s sys)
    end.
    now destruct (_calculate_health_score _).
  - match goal with
    | |- context [_calculate_health_score {| system := Some ?s; performance := _ |}] =>
        rewrite (health_no_performance s)
    end.
    reflexivity.
Qed.

(** An [IOError] costs the check its points and is recorded as "error". *)
Lemma unreadable_sysbench_is_error :
  result_map (fun agg => agg !! "cpu") (_analyze_performance unreadable_perf)
  = Ok (Some {| status := "fair"; score := 25;
                details := Some (<["sysbench" := DStr "error"]>
                                   (<["stress_ng" := DStr "completed"]> ∅)) |}).
Proof. vm_compute. reflexivity. Qed.




(** ** Recommendations *)

Lemma is_poor_spec perf c :
  is_poor perf c = true <-> exists r, perf !! c = Some r /\ status r = "poor".
Proof.
  unfold is_poor. destruct (perf !! c) as [r|].
  - rewrite String.eqb_eq. split; [eauto | now intros (r' & [= <-] & H)].
  - split; [discriminate | now intros (r' & [=] & _)].
Qed.

Lemma recommendations_as_advisories a :
  _generate_recommendations a =
    match advisories (default ∅ (performance a)) with
    | [] => [healthy_advice]
    | l => l
    end.
Proof.
  unfold _generate_recommendations, advisories, advice_table, advise.
  cbn [flat_map fst snd].
  destruct (is_poor _ "cpu"), (is_poor _ "memory"), (is_poor _ "disk"),
           (is_poor _ "network"); reflexivity.
Qed.

(** C7: the recommendations are the advisories of the poor subsystems in
    the order CPU, memory, disk, network, each exactly once, or else the
    generic message alone; the generic message is present exactly when no
    advisory was generated.  A subsystem is poor when the aggregate binds
    its key to a result whose status is "poor". *)
Theorem C7_recommendations_in_fixed_order :
  forall (a : analysis),
    let perf := default ∅ (performance a) in
    let recs := _generate_recommendations a in
    recs = match advisories perf with [] => [healthy_advice] | l => l end
    /\ occurrences cpu_advice recs = (if is_poor perf "cpu" then 1 else 0)%nat
    /\ occurrences memory_advice recs = (if is_poor perf "memory" then 1 else 0)%nat
    /\ occurrences disk_advice recs = (if is_poor perf "disk" then 1 else 0)%nat
    /\ occurrences network_advice recs = (if is_poor perf "network" then 1 else 0)%nat
    /\ occurrences healthy_advice recs
       = (match advisories perf with [] => 1 | _ => 0 end)%nat
    /\ length recs = Nat.max 1 (length (advisories perf))
    /\ (forall c, is_poor perf c = true
                  <-> exists r, perf !! c = Some r /\ status r = "poor").
Proof.
  intros a perf recs. subst recs.
  assert (forall c, is_poor perf c = true
                    <-> exists r, perf !! c = Some r /\ status r = "poor") as Hpoor
    by (intros c; apply is_poor_spec).
  revert Hpoor. generalize (forall c, is_poor perf c = true
                    <-> exists r, perf !! c = Some r /\ status r = "poor").
  intros P HP.
  rewrite recommendations_as_advisories. fold perf.
  unfold advisories, advice_table. cbn [flat_map fst snd].
  destruct (is_poor perf "cpu"), (is_poor perf "memory"), (is_poor perf "disk"),
           (is_poor perf "network");
    (repeat (split; [vm_compute; reflexivity|])); exact HP.
Qed.

(** ** Memory scoring *)

Lemma append_cons a n r :
  String.append (String a n) r = String a (String.append n r).
Proof. reflexivity. Qed.

Lemma append_nil r : String.append EmptyString r = r.
Proof. reflexivity. Qed.

Lemma prefix_spec n h :
  String.prefix n h = true <-> exists r, h = String.append n r.
Proof.
  revert h. induction n as [|a n IH]; intros h.
  - split; [intros _; now exists h | intros _; now destruct h].
  - destruct h as [|b h]; simpl.
    + split; [discriminate | intros [r Hr]; discriminate Hr].
    + destruct (Ascii.ascii_dec a b) as [<-|Hne].
      * rewrite IH. split; intros [r Hr]; exists r;
          rewrite append_cons in *; congruence.
      * split; [discriminate | intros [r Hr]; rewrite append_cons in Hr; congruence].
Qed.

Lemma contains_spec n h : contains n h = true <-> substring n h.
Proof.
  unfold substring. split.
  - induction h as [|c h IH]; cbn [contains]; rewrite orb_true_iff.
    + intros [Hp | Hf]; [|discriminate].
      apply prefix_spec in Hp as [r Hr]. now exists EmptyString, r.
    + intros [Hp | Ht].
      * apply prefix_spec in Hp as [r Hr]. now exists EmptyString, r.
      * destruct (IH Ht) as (l & r & ->). exists (String c l), r.
        now rewrite append_cons.
  - intros (l & r & ->). induction l as [|c l IH].
    + rewrite append_nil.
      assert (String.prefix n (String.append n r) = true) as Hp
        by (apply prefix_spec; eauto).
      destruct (String.append n r); cbn [contains]; rewrite Hp; reflexivity.
    + rewrite append_cons. cbn [contains]. rewrite IH. apply orb_true_r.
Qed.

Lemma memtester_passes_spec mem_dir :
  check_passes mem_dir "memtester.txt" memtester_ok = true <-> memtester_passes mem_dir.
Proof.
  unfold check_passes, memtester_passes, memtester_ok.
  destruct (child mem_dir "memtester.txt") as [f|].
  - destruct (read_text f) as [content| |] eqn:Hr.
    + rewrite andb_true_iff, negb_true_iff, contains_spec.
      rewrite <- (not_true_iff_false (contains "FAIL" content)), contains_spec.
      split.
      * intros [Hp Hf]. exists f, content. auto.
      * intros (f' & c' & [= <-] & Hr' & Hp & Hf).
        rewrite Hr in Hr'. injection Hr' as <-. auto.
    + split; [discriminate | intros (f' & c' & [= <-] & Hr' & _); congruence].
    + split; [discriminate | intros (f' & c' & [= <-] & Hr' & _); congruence].
  - split; [discriminate | intros (f' & c' & [=] & _)].
Qed.

Lemma stress_memory_completes_spec mem_dir :
  check_passes mem_dir "stress_ng_memory.txt" (contains "completed") = true
  <-> stress_memory_completes mem_dir.
Proof.
  unfold check_passes, stress_memory_completes.
  destruct (child mem_dir "stress_ng_memory.txt") as [f|].
  - destruct (read_text f) as [content| |] eqn:Hr.
    + rewrite contains_spec. split.
      * intros Hc. exists f, content. auto.
      * intros (f' & c' & [= <-] & Hr' & Hc).
        rewrite Hr in Hr'. injection Hr' as <-. exact Hc.
    + split; [discriminate | intros (f' & c' & [= <-] & Hr' & _); congruence].
    + split; [discriminate | intros (f' & c' & [= <-] & Hr' & _); congruence].
  - split; [discriminate | intros (f' & c' & [=] & _)].
Qed.



(** * Further properties *)

(** ** What each analyzer's score and status say about the artifacts *)

Lemma check_passes_spec dir fname marker :
  check_passes dir fname marker = true
  <-> exists f content,
        child dir fname = Some f /\ read_text f = ReadText content
        /\ marker content = true.
Proof.
  unfold check_passes. destruct (child dir fname) as [f|].
  - destruct (read_text f) as [content| |] eqn:Hr.
    + split.
      * intros Hm. exists f, content. auto.
      * intros (f' & c' & [= <-] & Hr' & Hm).
        rewrite Hr in Hr'. injection Hr' as <-. exact Hm.
    + split; [discriminate | intros (f' & c' & [= <-] & Hr' & _); congruence].
    + split; [discriminate | intros (f' & c' & [= <-] & Hr' & _); congruence].
  - split; [discriminate | intros (f' & c' & [=] & _)].
Qed.

Lemma check_passes_contains dir fname marker :
  check_passes dir fname (contains marker) = true
  <-> artifact_contains dir fname marker.
Proof.
  rewrite check_passes_spec. unfold artifact_contains.
  split; intros (f & content & Hf & Hr & Hm); exists f, content;
    (split; [exact Hf | split; [exact Hr | now apply contains_spec]]).
Qed.

Lemma cpu_status d r :
  _analyze_cpu_tests d = Ok r -> status r = classify 50 25 (score r).
Proof. intros H. now destruct (cpu_graded d r H). Qed.

Lemma memory_status d r :
  _analyze_memory_tests d = Ok r -> status r = classify 75 50 (score r).
Proof. intros H. now destruct (memory_graded d r H). Qed.

Lemma disk_status d r :
  _analyze_disk_tests d = Ok r -> status r = classify 50 25 (score r).
Proof. intros H. now destruct (disk_graded d r H). Qed.

Lemma network_status d r :
  _analyze_network_tests d = Ok r -> status r = classify 75 50 (score r).
Proof. intros H. now destruct (network_graded d r H). Qed.

(** X1: the CPU score is 25 for a readable [sysbench_cpu.txt] containing
    "execution time" plus 25 for a readable [stress_ng.txt] containing
    "completed"; the status is "good" when both hold, "fair" when exactly
    one holds and "poor" when none does. *)
Theorem X1_cpu_status_by_checks :
  forall (cpu_dir : node) (r : subsystem_result),
    _analyze_cpu_tests cpu_dir = Ok r ->
    exists a b : bool,
      (a = true <-> artifact_contains cpu_dir "sysbench_cpu.txt" "execution time")
      /\ (b = true <-> artifact_contains cpu_dir "stress_ng.txt" "completed")
      /\ score r = points a 25 + points b 25
      /\ status r = (if a && b then "good" else if a || b then "fair" else "poor").
Proof.
  intros cpu_dir r Hr.
  exists (check_passes cpu_dir "sysbench_cpu.txt" (contains "execution time")),
         (check_passes cpu_dir "stress_ng.txt" (contains "completed")).
  split; [apply check_passes_contains|].
  split; [apply check_passes_contains|].
  pose proof (cpu_status _ _ Hr) as Hs. apply cpu_score in Hr.
  split; [exact Hr|]. rewrite Hs, Hr.
  destruct (check_passes cpu_dir "sysbench_cpu.txt" _),
           (check_passes cpu_dir "stress_ng.txt" _); reflexivity.
Qed.

Lemma X1_cpu_status_by_checks_witness :
  exists a b : bool,
    (a = true <-> artifact_contains (Dir [("sysbench_cpu.txt", text_file "execution time: 3.2s")])
                    "sysbench_cpu.txt" "execution time")
    /\ (b = true <-> artifact_contains (Dir [("sysbench_cpu.txt", text_file "execution time: 3.2s")])
                       "stress_ng.txt" "completed")
    /\ 25 = points a 25 + points b 25
    /\ "fair" = (if a && b then "good" else if a || b then "fair" else "poor").
Proof.
  apply (X1_cpu_status_by_checks
           (Dir [("sysbench_cpu.txt", text_file "execution time: 3.2s")])
           {| status := "fair"; score := 25;
              details := Some (<["sysbench" := DStr "completed"]> ∅) |}).
  vm_compute. reflexivity.
Defined.

(** X2: the memory status is "good" when memtester passes and stress-ng
    completes, "fair" when exactly one of the two holds and "poor" when
    none does; one passing check alone never gives "good". *)
Theorem X2_memory_status_by_checks :
  forall (mem_dir : node) (r : subsystem_result),
    _analyze_memory_tests mem_dir = Ok r ->
    exists a b : bool,
      (a = true <-> memtester_passes mem_dir)
      /\ (b = true <-> stress_memory_completes mem_dir)
      /\ score r = points a 50 + points b 50
      /\ status r = (if a && b then "good" else if a || b then "fair" else "poor").
Proof.
  intros mem_dir r Hr.
  exists (check_passes mem_dir "memtester.txt" memtester_ok),
         (check_passes mem_dir "stress_ng_memory.txt" (contains "completed")).
  split; [apply memtester_passes_spec|].
  split; [apply stress_memory_completes_spec|].
  pose proof (memory_status _ _ Hr) as Hs. apply memory_score in Hr.
  split; [exact Hr|]. rewrite Hs, Hr.
  destruct (check_passes mem_dir "memtester.txt" _),
           (check_passes mem_dir "stress_ng_memory.txt" _); reflexivity.
Qed.

Lemma X2_memory_status_by_checks_witness :
  exists a b : bool,
    (a = true <-> memtester_passes (Dir [("memtester.txt", File (Text "PASS"))]))
    /\ (b = true <-> stress_memory_completes (Dir [("memtester.txt", File (Text "PASS"))]))
    /\ 50 = points a 50 + points b 50
    /\ "fair" = (if a && b then "good" else if a || b then "fair" else "poor").
Proof.
  apply (X2_memory_status_by_checks
           (Dir [("memtester.txt", File (Text "PASS"))])
           {| status := "fair"; score := 50;
              details := Some (<["memtester" := DStr "passed"]> ∅) |}).
  vm_compute. reflexivity.
Defined.

Lemma classify_below_fair g f s : s < f -> f <= g -> classify g f s = "poor".
Proof.
  intros Hs Hfg. unfold classify.
  destruct (Z.leb_spec g s); [lia|]. destruct (Z.leb_spec f s); [lia|]. reflexivity.
Qed.

Lemma classify_good_iff g f s : classify g f s = "good" <-> g <= s.
Proof.
  unfold classify. destruct (Z.leb_spec g s).
  - split; [intros _; assumption | reflexivity].
  - split; [|lia]. destruct (Z.leb f s); discriminate.
Qed.

Lemma classify_poor_iff g f s : f <= g -> classify g f s = "poor" <-> s < f.
Proof.
  intros Hfg. unfold classify.
  destruct (Z.leb_spec g s); [split; [discriminate | lia]|].
  destruct (Z.leb_spec f s); [split; [discriminate | lia]|].
  split; [intros _; assumption | reflexivity].
Qed.

(** X3: the disk score adds, over the subdirectories of [disk/] only, 20
    for a SMART report that passed and 15 for a fio output with "IOPS";
    "good" needs a score of 50, so with at most one disk subdirectory the
    status is never "good", and with none it is "poor" with score 0. *)
Theorem X3_disk_score_per_disk :
  forall (disk_dir : node) (r : subsystem_result),
    _analyze_disk_tests disk_dir = Ok r ->
    score r = sum_points disk_points (entries_of disk_dir)
    /\ (status r = "good" <-> 50 <= score r)
    /\ (subdir_count disk_dir <= 1 -> status r <> "good")
    /\ (subdir_count disk_dir = 0 -> score r = 0 /\ status r = "poor").
Proof.
  intros disk_dir r Hr.
  pose proof (disk_status _ _ Hr) as Hs. apply disk_score in Hr.
  pose proof (sum_points_bounded disk_points (fun e => is_dir (snd e)) 35
                (entries_of disk_dir) disk_points_range) as Hb.
  fold (subdir_count disk_dir) in Hb. rewrite <- Hr in Hb.
  split; [exact Hr|]. rewrite Hs.
  split; [apply classify_good_iff|]. split.
  - intros Hone Hgood. apply classify_good_iff in Hgood. lia.
  - intros Hnone. split; [lia|]. apply classify_below_fair; lia.
Qed.

Lemma X3_disk_score_per_disk_witness :
  35 = sum_points disk_points (entries_of (disks 1))
  /\ ("fair" = "good" <-> 50 <= 35)
  /\ (subdir_count (disks 1) <= 1 -> "fair" <> "good")
  /\ (subdir_count (disks 1) = 0 -> 35 = 0 /\ "fair" = "poor").
Proof.
  apply (X3_disk_score_per_disk (disks 1)
           {| status := "fair"; score := 35;
              details := Some (<["sda" := DDict (<["smart" := "passed"]>
                                                   (<["fio_read" := "completed"]> ∅))]> ∅) |}).
  vm_compute. reflexivity.
Defined.

Lemma iface_points_count l :
  sum_points iface_points l = 25 * Z.of_nat (length (List.filter configured l)).
Proof.
  induction l as [|e l IH]; simpl; [reflexivity|].
  rewrite IH. unfold iface_points, configured.
  destruct (is_iface e); simpl; [|lia].
  destruct (child (snd e) "ethtool.txt"); simpl length; lia.
Qed.

(** X4: the network score is 50 for a readable [iperf3_localhost.txt]
    containing both "receiver" and "sender", plus 25 for every
    subdirectory other than [lo] in which [ethtool.txt] exists, whatever
    that file holds; the status is "good" from 75 and "poor" below 50. *)
Theorem X4_network_score_by_interfaces :
  forall (net_dir : node) (r : subsystem_result),
    _analyze_network_tests net_dir = Ok r ->
    exists a : bool,
      (a = true <->
       exists f content,
         child net_dir "iperf3_localhost.txt" = Some f
         /\ read_text f = ReadText content
         /\ substring "receiver" content /\ substring "sender" content)
      /\ score r = points a 50
                   + 25 * Z.of_nat (length (List.filter configured (entries_of net_dir)))
      /\ (status r = "good" <-> 75 <= score r)
      /\ (status r = "poor" <-> score r < 50).
Proof.
  intros net_dir r Hr.
  exists (check_passes net_dir "iperf3_localhost.txt" iperf_ok).
  split.
  { rewrite check_passes_spec. unfold iperf_ok.
    split; intros (f & content & Hf & Hread & Hm); exists f, content;
      (split; [exact Hf | split; [exact Hread|]]).
    - apply andb_prop in Hm as [H1 H2]. split; now apply contains_spec.
    - destruct Hm as [H1 H2]. apply andb_true_intro. split; now apply contains_spec. }
  pose proof (network_status _ _ Hr) as Hs. apply network_score in Hr.
  rewrite iface_points_count in Hr.
  split; [exact Hr|]. rewrite Hs.
  split; [apply classify_good_iff | apply classify_poor_iff; lia].
Qed.

Lemma X4_network_score_by_interfaces_witness :
  exists a : bool,
    (a = true <->
     exists f content,
       child three_ifaces "iperf3_localhost.txt" = Some f
       /\ read_text f = ReadText content
       /\ substring "receiver" content /\ substring "sender" content)
    /\ 125 = points a 50
             + 25 * Z.of_nat (length (List.filter configured (entries_of three_ifaces)))
    /\ ("good" = "good" <-> 75 <= 125)
    /\ ("good" = "poor" <-> 125 < 50).
Proof.
  apply (X4_network_score_by_interfaces three_ifaces
           {| status := "good"; score := 125;
              details := Some (<["iperf3" := DStr "completed"]>
                                 (<["eth0" := DStr "configured"]>
                                    (<["eth1" := DStr "configured"]>
                                       (<["eth2" := DStr "configured"]> ∅)))) |}).
  vm_compute. reflexivity.
Defined.

(** ** What the details record *)

Lemma check_artifact_details dir fname marker okmsg pts key st st' :
  check_artifact dir fname marker okmsg pts (set_detail key) st = Ok st' ->
  (snd st !! key = None -> recorded dir fname marker okmsg (snd st' !! key))
  /\ (forall k, k <> key -> snd st' !! k = snd st !! k).
Proof.
  unfold check_artifact, recorded, set_detail.
  destruct (child dir fname) as [f|].
  - destruct (read_text f) as [content| |]; [| |discriminate].
    + destruct (marker content); intros [= <-]; simpl;
        (split; [intros _; apply lookup_insert_eq
                | intros k Hk; now apply lookup_insert_ne]).
    + intros [= <-]; simpl.
      split; [intros _; apply lookup_insert_eq
             | intros k Hk; now apply lookup_insert_ne].
  - intros [= <-]. split; [intros H; exact H | reflexivity].
Qed.

(** X5: the details of the CPU and memory analyzers hold one entry per
    check and nothing else: no entry when the file is absent, "error" when
    it exists but cannot be read, the success label when the marker is
    found and "failed" when it is not. *)
Theorem X5_cpu_memory_details :
  forall (d : node) (r : subsystem_result),
    (_analyze_cpu_tests d = Ok r ->
     exists m, details r = Some m
       /\ recorded d "sysbench_cpu.txt" (contains "execution time") "completed"
            (m !! "sysbench")
       /\ recorded d "stress_ng.txt" (contains "completed") "completed"
            (m !! "stress_ng")
       /\ (forall k, k <> "sysbench" -> k <> "stress_ng" -> m !! k = None))
    /\ (_analyze_memory_tests d = Ok r ->
        exists m, details r = Some m
          /\ recorded d "memtester.txt" memtester_ok "passed" (m !! "memtester")
          /\ recorded d "stress_ng_memory.txt" (contains "completed") "completed"
               (m !! "stress_ng")
          /\ (forall k, k <> "memtester" -> k <> "stress_ng" -> m !! k = None)).
Proof.
  intros d r. split; intros H.
  - unfold _analyze_cpu_tests in H. inv_bind H. inv_bind H. injection H as <-.
    apply check_artifact_details in Hst as [H1 O1], Hst0 as [H2 O2].
    exists (snd st0). split; [reflexivity|]. split; [|split].
    + rewrite O2 by discriminate. now apply H1.
    + apply H2. now rewrite O1 by discriminate.
    + intros k Hk1 Hk2. rewrite O2, O1 by assumption. reflexivity.
  - unfold _analyze_memory_tests in H. inv_bind H. inv_bind H. injection H as <-.
    apply check_artifact_details in Hst as [H1 O1], Hst0 as [H2 O2].
    exists (snd st0). split; [reflexivity|]. split; [|split].
    + rewrite O2 by discriminate. now apply H1.
    + apply H2. now rewrite O1 by discriminate.
    + intros k Hk1 Hk2. rewrite O2, O1 by assumption. reflexivity.
Qed.

Lemma X5_cpu_memory_details_witness :
  exists m : gmap string detail,
    Some (<["sysbench" := DStr "error"]> (<["stress_ng" := DStr "completed"]> ∅))
    = Some m
    /\ recorded (Dir [("sysbench_cpu.txt", File IOFailure);
                      ("stress_ng.txt", text_file "stress-ng: run completed")])
         "sysbench_cpu.txt" (contains "execution time") "completed" (m !! "sysbench")
    /\ recorded (Dir [("sysbench_cpu.txt", File IOFailure);
                      ("stress_ng.txt", text_file "stress-ng: run completed")])
         "stress_ng.txt" (contains "completed") "completed" (m !! "stress_ng")
    /\ (forall k, k <> "sysbench" -> k <> "stress_ng" -> m !! k = None).
Proof.
  apply (X5_cpu_memory_details
           (Dir [("sysbench_cpu.txt", File IOFailure);
                 ("stress_ng.txt", text_file "stress-ng: run completed")])
           {| status := "fair"; score := 25;
              details := Some (<["sysbench" := DStr "error"]>
                                 (<["stress_ng" := DStr "completed"]> ∅)) |}).
  vm_compute. reflexivity.
Defined.

Lemma check_artifact_record dir fname marker okmsg pts record st st' :
  check_artifact dir fname marker okmsg pts record st = Ok st' ->
  snd st' = snd st \/ exists msg, snd st' = record msg (snd st).
Proof.
  unfold check_artifact. destruct (child dir fname) as [f|].
  - destruct (read_text f) as [content| |]; [| |discriminate].
    + destruct (marker content); intros [= <-]; simpl; eauto.
    + intros [= <-]; simpl; eauto.
  - intros [= <-]. auto.
Qed.

Lemma set_nested_dom name key msg (d : gmap string detail) :
  dom (set_nested name key msg d) = dom d.
Proof.
  unfold set_nested. destruct (d !! name) as [[s|m]|] eqn:E; try reflexivity.
  rewrite dom_insert_L. apply elem_of_dom_2 in E. set_solver.
Qed.

Lemma set_nested_entries name key msg (d : gmap string detail) :
  key = "smart" \/ key = "fio_read" ->
  map_Forall (fun _ x => disk_entry x) d ->
  map_Forall (fun _ x => disk_entry x) (set_nested name key msg d).
Proof.
  intros Hkey Hd. unfold set_nested.
  destruct (d !! name) as [[s|m]|] eqn:E; try exact Hd.
  apply map_Forall_insert_2; [|exact Hd].
  destruct (Hd name _ E) as (inner & [= <-] & Hinner).
  exists (<[key := msg]> m). split; [reflexivity|].
  intros k H1 H2. rewrite lookup_insert_ne; [now apply Hinner|].
  destruct Hkey; congruence.
Qed.

Lemma disk_body_details st e st' :
  disk_body st e = Ok st' ->
  map_Forall (fun _ x => disk_entry x) (snd st) ->
  dom (snd st') = (if is_dir (snd e) then {[fst e]} ∪ dom (snd st) else dom (snd st))
  /\ map_Forall (fun _ x => disk_entry x) (snd st').
Proof.
  destruct e as [name d]. unfold disk_body. cbn [fst snd].
  destruct (is_dir d); [|intros [= <-]; auto].
  intros H Hinv. inv_bind H.
  assert (map_Forall (fun _ x => disk_entry x) (<[name := DDict ∅]> (snd st))) as Hinv0.
  { apply map_Forall_insert_2; [|exact Hinv].
    exists ∅. split; [reflexivity|]. intros k _ _. apply lookup_empty. }
  apply check_artifact_record in Hst, H. cbn [snd] in Hst.
  assert (dom (snd st0) = {[name]} ∪ dom (snd st)
          /\ map_Forall (fun _ x => disk_entry x) (snd st0)) as [D0 I0].
  { destruct Hst as [-> | [msg ->]].
    - split; [apply dom_insert_L | exact Hinv0].
    - split; [rewrite set_nested_dom; apply dom_insert_L
             | apply set_nested_entries; auto]. }
  destruct H as [-> | [msg ->]].
  - auto.
  - split; [now rewrite set_nested_dom | apply set_nested_entries; auto].
Qed.

Lemma disk_loop_details es : forall st st',
  for_each disk_body es st = Ok st' ->
  map_Forall (fun _ x => disk_entry x) (snd st) ->
  dom (snd st')
  = dom (snd st) ∪ list_to_set (map fst (List.filter (fun e => is_dir (snd e)) es))
  /\ map_Forall (fun _ x => disk_entry x) (snd st').
Proof.
  induction es as [|e es IH]; intros st st' H Hinv.
  - injection H as <-. split; [set_solver | exact Hinv].
  - cbn [for_each] in H. inv_bind H.
    destruct (disk_body_details _ _ _ Hst Hinv) as [D1 I1].
    destruct (IH _ _ H I1) as [D2 I2]. split; [|exact I2].
    rewrite D2, D1. cbn [List.filter].
    destruct (is_dir (snd e)); cbn [map list_to_set]; set_solver.
Qed.

(** X6: the details of the disk analyzer have exactly the names of the
    subdirectories of [disk/] as keys: a disk directory is listed even when
    it holds no artifact, a regular file never is; every entry is a dict
    with no key besides "smart" and "fio_read". *)
Theorem X6_disk_details_list_the_disks :
  forall (disk_dir : node) (r : subsystem_result),
    _analyze_disk_tests disk_dir = Ok r ->
    exists m, details r = Some m
      /\ dom m = subdir_names disk_dir
      /\ (forall name x, m !! name = Some x -> disk_entry x).
Proof.
  intros disk_dir r H. unfold _analyze_disk_tests in H.
  inv_bind H. inv_bind H. injection H as <-.
  destruct disk_dir as [f|es]; [discriminate|]. injection Hst as <-.
  destruct (disk_loop_details es acc0 st0 Hst0) as [D I].
  { intros k x Hk. cbn in Hk. now rewrite lookup_empty in Hk. }
  exists (snd st0). split; [reflexivity|]. split.
  - rewrite D. unfold subdir_names. cbn [acc0 snd entries_of]. set_solver.
  - exact I.
Qed.

Lemma X6_disk_details_list_the_disks_witness :
  exists m : gmap string detail,
    Some (<["sda" := DDict ∅]> ∅) = Some m
    /\ dom m = subdir_names (Dir [("sda", Dir []); ("notes.txt", text_file "x")])
    /\ (forall name x, m !! name = Some x -> disk_entry x).
Proof.
  apply (X6_disk_details_list_the_disks
           (Dir [("sda", Dir []); ("notes.txt", text_file "x")])
           {| status := "poor"; score := 0;
              details := Some (<["sda" := DDict ∅]> ∅) |}).
  vm_compute. reflexivity.
Defined.

(** ** Status as a function of the score *)

Lemma analyzer_of_thresholds c d r :
  In c components -> analyzer_of c d = Ok r ->
  status r = classify (good_at c) (fair_at c) (score r) /\ fair_at c <= good_at c.
Proof.
  intros Hc H. simpl in Hc.
  destruct Hc as [<- | [<- | [<- | [<- | []]]]]; unfold analyzer_of in H; simpl in H;
    (split; [|vm_compute; discriminate]).
  - now apply cpu_status in H.
  - now apply memory_status in H.
  - now apply disk_status in H.
  - now apply network_status in H.
Qed.

Lemma classify_monotone g f s s' :
  f <= g -> s <= s' ->
  status_rank (classify g f s) <= status_rank (classify g f s').
Proof.
  intros Hfg Hs. unfold classify.
  destruct (Z.leb_spec g s), (Z.leb_spec g s'), (Z.leb_spec f s), (Z.leb_spec f s');
    try lia; vm_compute; discriminate.
Qed.

(** X7: for each of the four analyzers the status is a function of the
    score alone, and it never gets worse when the score grows (with "poor"
    below "fair" below "good"), whatever directories the two results come
    from. *)
Theorem X7_status_monotone_in_score :
  forall (c : string) (d d' : node) (r r' : subsystem_result),
    In c components ->
    analyzer_of c d = Ok r ->
    analyzer_of c d' = Ok r' ->
    (score r = score r' -> status r = status r')
    /\ (score r <= score r' -> status_rank (status r) <= status_rank (status r')).
Proof.
  intros c d d' r r' Hc Hr Hr'.
  destruct (analyzer_of_thresholds c d r Hc Hr) as [-> Hfg].
  destruct (analyzer_of_thresholds c d' r' Hc Hr') as [-> _].
  split.
  - intros ->. reflexivity.
  - now apply classify_monotone.
Qed.

Lemma X7_status_monotone_in_score_witness :
  (35 = 105 -> "fair" = "good")
  /\ (35 <= 105 -> status_rank "fair" <= status_rank "good").
Proof.
  apply (X7_status_monotone_in_score "disk" (disks 1) (disks 3)
           {| status := "fair"; score := 35;
              details := Some (<["sda" := DDict (<["smart" := "passed"]>
                                                   (<["fio_read" := "completed"]> ∅))]> ∅) |}
           {| status := "good"; score := 105;
              details := Some (<["sda" := DDict (<["smart" := "passed"]> (<["fio_read" := "completed"]> ∅))]>
                              (<["sdb" := DDict (<["smart" := "passed"]> (<["fio_read" := "completed"]> ∅))]>
                              (<["sdc" := DDict (<["smart" := "passed"]> (<["fio_read" := "completed"]> ∅))]> ∅))) |}).
  - simpl. auto.
  - vm_compute. reflexivity.
  - vm_compute. reflexivity.
Defined.

(** ** The health score in exact arithmetic *)

(** On every combination of capped scores the analyzers can produce, the
    float computation agrees with the exact one. *)
Lemma health_exact_checked :
  forallb (fun c =>
    forallb (fun m =>
      forallb (fun d =>
        forallb (fun n => exact_on (health_of_scores c m d n) (exact_health c m d n))
                (multiples 25 5))
        (multiples 5 21))
      [0; 50; 100])
    [0; 25; 50] = true.
Proof. vm_compute. reflexivity. Qed.

Lemma health_exact c m d n :
  In c [0; 25; 50] -> In m [0; 50; 100] ->
  In d (multiples 5 21) -> In n (multiples 25 5) ->
  health_of_scores c m d n = Ok (exact_health c m d n).
Proof.
  intros Hc Hm Hd Hn.
  pose proof health_exact_checked as H.
  rewrite forallb_forall in H. specialize (H c Hc).
  rewrite forallb_forall in H. specialize (H m Hm).
  rewrite forallb_forall in H. specialize (H d Hd).
  rewrite forallb_forall in H. specialize (H n Hn).
  unfold exact_on in H. destruct (health_of_scores c m d n) as [h|e]; [|discriminate].
  apply Z.eqb_eq in H. now subst.
Qed.

(** X8: when [performance/] exists and the disk and network scores are at
    most 100, the float arithmetic of the scorer loses nothing: the health
    score is the exact value 25 + 18.75 * (sum of the four scores) / 100
    rounded down.  It then lies between 25 and 90: the CPU score stops at
    50, so 100 is out of reach once [performance/] exists. *)
Theorem X8_health_exact_when_capped :
  forall (now : string) (fs : gmap string node) (report_data : report)
         (p : processed) (perf_dir : node),
    process_report now fs report_data = Ok p ->
    performance_dir_of fs report_data = Some perf_dir ->
    exists agg rc rm rd rn,
      performance (analysis_of p) = Some agg
      /\ agg !! "cpu" = Some rc /\ agg !! "memory" = Some rm
      /\ agg !! "disk" = Some rd /\ agg !! "network" = Some rn
      /\ (score rd <= 100 -> score rn <= 100 ->
          health_score p
          = (10000 + 75 * (score rc + score rm + score rd + score rn)) / 400
          /\ 25 <= health_score p <= 90).
Proof.
  intros now fs report_data p perf_dir Hp Hdir.
  destruct (process_report_ok _ _ _ _ Hp) as (sys & perf & Ha & Hh & _ & Hperf).
  rewrite Hdir in Hperf. destruct Hperf as (agg & Hagg & ->).
  destruct (entry_score_values perf_dir agg "cpu" Hagg) as (rc & Hc & Vc); [simpl; auto|].
  destruct (entry_score_values perf_dir agg "memory" Hagg) as (rm & Hm & Vm); [simpl; auto|].
  destruct (entry_score_values perf_dir agg "disk" Hagg) as (rd & Hd & qd & Vd & Hqd);
    [simpl; auto|].
  destruct (entry_score_values perf_dir agg "network" Hagg) as (rn & Hn & qn & Vn & Hqn);
    [simpl; auto|].
  exists agg, rc, rm, rd, rn. rewrite Ha. cbn [performance].
  repeat (split; [assumption || reflexivity|]).
  intros Cd Cn.
  rewrite Ha, (health_with_performance sys agg rc rm rd rn Hc Hm Hd Hn) in Hh.
  rewrite health_exact in Hh.
  - injection Hh as <-. unfold exact_health. split; [reflexivity|].
    unfold score_values in Vc, Vm. simpl in Vc, Vm.
    assert (0 <= score rc <= 50) by (destruct Vc as [<- | [<- | [<- | []]]]; lia).
    assert (0 <= score rm <= 100) by (destruct Vm as [<- | [<- | [<- | []]]]; lia).
    split.
    + apply Z.div_le_lower_bound; lia.
    + apply Z.lt_succ_r. apply Z.div_lt_upper_bound; lia.
  - exact Vc.
  - exact Vm.
  - apply (multiples_In 5 21 _ qd Vd). lia.
  - apply (multiples_In 25 5 _ qn Vn). lia.
Qed.

Lemma cpu_only_report_processed :
  process_report "2024-01-02T00:00:00" (fs_of (root_with cpu_only_perf)) sample_report
  = Ok cpu_only_processed.
Proof. vm_compute. reflexivity. Qed.

Lemma X8_health_exact_when_capped_witness :
  exists agg rc rm rd rn,
    Some cpu_only_agg = Some agg
    /\ agg !! "cpu" = Some rc /\ agg !! "memory" = Some rm
    /\ agg !! "disk" = Some rd /\ agg !! "network" = Some rn
    /\ (score rd <= 100 -> score rn <= 100 ->
        34 = (10000 + 75 * (score rc + score rm + score rd + score rn)) / 400
        /\ 25 <= 34 <= 90).
Proof.
  apply (X8_health_exact_when_capped "2024-01-02T00:00:00"
           (fs_of (root_with cpu_only_perf)) sample_report
           cpu_only_processed cpu_only_perf).
  - vm_compute. reflexivity.
  - vm_compute. reflexivity.
Defined.

(** X9: a report without a [performance/] directory, whose system_info
    is a dict or absent, is processed without error: the analysis has no
    performance key, the health score is 100 and the only recommendation is
    the generic one.  When system_info holds anything but a dict,
    [process_report] raises [AttributeError]. *)
Theorem X9_no_performance_directory :
  forall (now : string) (fs : gmap string node) (report_data : report),
    performance_dir_of fs report_data = None ->
    (system_info_is_dict report_data = true ->
     exists p,
       process_report now fs report_data = Ok p
       /\ performance (analysis_of p) = None
       /\ health_score p = 100
       /\ recommendations p = [healthy_advice])
    /\ (system_info_is_dict report_data = false ->
        process_report now fs report_data = Raise AttributeError).
Proof.
  intros now fs report_data Hdir. unfold process_report. split.
  - intros Hsys. rewrite <- system_info_dict_is_ok in Hsys.
    destruct (system_info_dict report_data) as [system_info|e]; [|discriminate].
    cbn [bind]. rewrite Hdir. cbn [bind]. rewrite health_no_performance.
    cbn [bind]. eexists. split; [reflexivity|]. repeat split.
  - intros Hsys. now rewrite (system_info_dict_raises _ Hsys).
Qed.

Lemma X9_no_performance_directory_witness :
  (system_info_is_dict null_system_report = true ->
   exists p,
     process_report "2024-01-02T00:00:00"
       (fs_of (Dir [("report.json", text_file "{}")])) null_system_report = Ok p
     /\ performance (analysis_of p) = None
     /\ health_score p = 100
     /\ recommendations p = [healthy_advice])
  /\ (system_info_is_dict null_system_report = false ->
      process_report "2024-01-02T00:00:00"
        (fs_of (Dir [("report.json", text_file "{}")])) null_system_report
      = Raise AttributeError).
Proof.
  apply (X9_no_performance_directory "2024-01-02T00:00:00"
           (fs_of (Dir [("report.json", text_file "{}")])) null_system_report).
  vm_compute. reflexivity.
Defined.

(** ** Recommendations of a processed report *)

Lemma advice_in_recommendations a c :
  In c components ->
  In (advice_of c) (_generate_recommendations a)
  <-> is_poor (default ∅ (performance a)) c = true.
Proof.
  intros Hc. rewrite recommendations_as_advisories.
  unfold advisories, advice_table. cbn [flat_map fst snd].
  simpl in Hc.
  destruct Hc as [<- | [<- | [<- | [<- | []]]]];
    destruct (is_poor _ "cpu"), (is_poor _ "memory"), (is_poor _ "disk"),
             (is_poor _ "network");
    vm_compute; split; intros H; try reflexivity; try discriminate H;
    try (repeat destruct H as [H|H]; try discriminate H; contradiction);
    tauto.
Qed.

(** X10: in the recommendations of a processed report the advisory of a
    subsystem appears exactly when its directory exists and its score is
    below the "fair" threshold of its analyzer (25 for CPU and disk, 50 for
    memory and network).  An absent directory therefore never triggers the
    advisory, while an empty one always does. *)
Theorem X10_advisory_iff_tested_and_poor :
  forall (now : string) (fs : gmap string node) (report_data : report)
         (p : processed) (perf_dir : node) (c : string),
    process_report now fs report_data = Ok p ->
    performance_dir_of fs report_data = Some perf_dir ->
    In c components ->
    (In (advice_of c) (recommendations p)
     <-> exists sub r, child perf_dir c = Some sub
                       /\ analyzer_of c sub = Ok r /\ score r < fair_at c)
    /\ (child perf_dir c = None -> ~ In (advice_of c) (recommendations p))
    /\ (child perf_dir c = Some (Dir []) -> In (advice_of c) (recommendations p)).
Proof.
  intros now fs report_data p perf_dir c Hp Hdir Hc.
  destruct (process_report_ok _ _ _ _ Hp) as (sys & perf & Ha & _ & Hrec & Hperf).
  rewrite Hdir in Hperf. destruct Hperf as (agg & Hagg & ->).
  assert (In (advice_of c) (recommendations p)
          <-> exists sub r, child perf_dir c = Some sub
                            /\ analyzer_of c sub = Ok r /\ score r < fair_at c) as Hiff.
  { rewrite Hrec, Ha, (advice_in_recommendations _ c Hc), is_poor_spec.
    cbn [performance default from_option]. unfold id.
    pose proof (performance_entry perf_dir agg c Hagg Hc) as He.
    destruct (child perf_dir c) as [sub|].
    - destruct He as (r & Hr & Hlk).
      destruct (analyzer_of_thresholds c sub r Hc Hr) as [Hs Hfg].
      split.
      + intros (r' & Hlk' & Hpoor). rewrite Hlk in Hlk'. injection Hlk' as <-.
        exists sub, r. split; [reflexivity|]. split; [exact Hr|].
        rewrite Hs in Hpoor. now apply classify_poor_iff in Hpoor.
      + intros (sub' & r' & [= <-] & Hr' & Hlow).
        rewrite Hr in Hr'. injection Hr' as <-.
        exists r. split; [exact Hlk|]. rewrite Hs. now apply classify_poor_iff.
    - split.
      + intros (r' & Hlk' & Hpoor). rewrite He in Hlk'. injection Hlk' as <-.
        discriminate Hpoor.
      + intros (sub' & r' & [=] & _). }
  split; [exact Hiff|]. split.
  - intros Habs Hin. apply Hiff in Hin as (sub & r & Hsub & _). congruence.
  - intros Hempty. apply Hiff.
    exists (Dir []), {| status := "poor"; score := 0; details := Some ∅ |}.
    split; [exact Hempty|].
    simpl in Hc. destruct Hc as [<- | [<- | [<- | [<- | []]]]];
      (split; [reflexivity | vm_compute; reflexivity]).
Qed.

Lemma X10_advisory_iff_tested_and_poor_witness :
  (In (advice_of "memory") [healthy_advice]
   <-> exists sub r, child cpu_only_perf "memory" = Some sub
                     /\ analyzer_of "memory" sub = Ok r /\ score r < fair_at "memory")
  /\ (child cpu_only_perf "memory" = None -> ~ In (advice_of "memory") [healthy_advice])
  /\ (child cpu_only_perf "memory" = Some (Dir [])
      -> In (advice_of "memory") [healthy_advice]).
Proof.
  apply (X10_advisory_iff_tested_and_poor "2024-01-02T00:00:00"
           (fs_of (root_with cpu_only_perf)) sample_report
           cpu_only_processed cpu_only_perf "memory").
  - vm_compute. reflexivity.
  - vm_compute. reflexivity.
  - simpl. auto.
Defined.

(** ** Independence of the listing order *)

Lemma check_artifact_outcome dir fname marker okmsg pts record st :
  check_artifact dir fname marker okmsg pts record st
  = match check_outcome dir fname marker okmsg pts with
    | Raise x => Raise x
    | Ok None => Ok st
    | Ok (Some (p, l)) => Ok (fst st + p, record l (snd st))
    end.
Proof.
  unfold check_artifact, check_outcome. destruct st as [s m].
  destruct (child dir fname) as [f|]; [|reflexivity].
  destruct (read_text f) as [content| |]; try reflexivity.
  - destruct (marker content); cbn [fst snd]; [reflexivity|].
    now rewrite Z.add_0_r.
  - cbn [fst snd]. now rewrite Z.add_0_r.
Qed.

Lemma set_nested_present name key msg inner (m : gmap string detail) :
  set_nested name key msg (<[name := DDict inner]> m)
  = <[name := DDict (<[key := msg]> inner)]> m.
Proof.
  unfold set_nested. rewrite lookup_insert_eq. apply insert_insert_eq.
Qed.

Lemma disk_body_keyed st e : disk_body st e = keyed_body disk_eval st e.
Proof.
  destruct e as [name d], st as [s m].
  unfold disk_body, keyed_body, disk_eval. cbn [fst snd].
  destruct (is_dir d); [|reflexivity].
  rewrite !check_artifact_outcome. cbn [fst snd].
  destruct (check_outcome d "smart.txt" _ _ _) as [[[p1 l1]|]|x]; cbn [bind];
    [| |reflexivity].
  - rewrite check_artifact_outcome. cbn [fst snd].
    destruct (check_outcome d "fio_randread.txt" _ _ _) as [[[p2 l2]|]|x]; cbn [bind];
      [| |reflexivity].
    + rewrite !set_nested_present. cbn [earned add_label]. f_equal. f_equal. lia.
    + rewrite set_nested_present. cbn [earned add_label]. f_equal. f_equal. lia.
  - rewrite check_artifact_outcome. cbn [fst snd].
    destruct (check_outcome d "fio_randread.txt" _ _ _) as [[[p2 l2]|]|x]; cbn [bind];
      [| |reflexivity].
    + rewrite set_nested_present. cbn [earned add_label]. reflexivity.
    + cbn [earned add_label]. f_equal. f_equal. lia.
Qed.

Lemma iface_body_keyed st e : iface_body st e = keyed_body iface_eval st e.
Proof.
  unfold iface_body, keyed_body, iface_eval, set_detail.
  destruct (is_iface e); [|reflexivity].
  destruct (child (snd e) "ethtool.txt"); reflexivity.
Qed.

Lemma for_each_ext {A S : Type} (body body' : S -> A -> result S) l :
  (forall s x, body s x = body' s x) ->
  forall s, for_each body l s = for_each body' l s.
Proof.
  intros Hext. induction l as [|x l IH]; intros s; simpl; [reflexivity|].
  rewrite Hext. destruct (body' s x); simpl; [apply IH | reflexivity].
Qed.

Section KeyedLoop.
Variable eval : string * node -> result (option (Z * detail)).
Hypothesis eval_raises :
  forall e x, eval e = Raise x -> x = UnicodeDecodeError.

Lemma keyed_body_swap st e1 e2 :
  fst e1 <> fst e2 ->
  (do s <- keyed_body eval st e1; keyed_body eval s e2)
  = (do s <- keyed_body eval st e2; keyed_body eval s e1).
Proof.
  intros Hne. unfold keyed_body.
  destruct (eval e1) as [[[p1 v1]|]|x1] eqn:E1;
    destruct (eval e2) as [[[p2 v2]|]|x2] eqn:E2;
    cbn [bind fst snd]; rewrite ?E1, ?E2; cbn [bind fst snd]; try reflexivity.
  - f_equal. f_equal; [lia | now apply insert_insert_ne].
  - now rewrite (eval_raises _ _ E1), (eval_raises _ _ E2).
Qed.

Lemma keyed_loop_permutation l l' :
  Permutation l l' ->
  NoDup (map fst l) ->
  forall st, for_each (keyed_body eval) l st = for_each (keyed_body eval) l' st.
Proof.
  induction 1 as [|x l l' HP IH|x y l|l l' l'' HP1 IH1 HP2 IH2]; intros Hnd st.
  - reflexivity.
  - cbn [for_each]. cbn [map] in Hnd. apply NoDup_cons in Hnd as [_ Hnd].
    destruct (keyed_body eval st x); cbn [bind]; [now apply IH | reflexivity].
  - cbn [for_each]. cbn [map] in Hnd.
    apply NoDup_cons in Hnd as [Hy _].
    assert (fst y <> fst x) as Hne by (intros E; apply Hy; rewrite E; left).
    pose proof (keyed_body_swap st y x Hne) as Hswap.
    destruct (keyed_body eval st y) as [s1|e1]; destruct (keyed_body eval st x) as [s2|e2];
      cbn [bind] in Hswap |- *.
    + destruct (keyed_body eval s1 x), (keyed_body eval s2 y); cbn [bind];
        congruence.
    + destruct (keyed_body eval s1 x); cbn [bind]; congruence.
    + destruct (keyed_body eval s2 y); cbn [bind]; congruence.
    + congruence.
  - rewrite IH1 by assumption. apply IH2.
    assert (map fst l ≡ₚ map fst l') as HP by now apply Permutation_map.
    now rewrite <- HP.
Qed.

End KeyedLoop.

Lemma assoc_permutation name es es' :
  Permutation es es' -> NoDup (map fst es) -> assoc name es = assoc name es'.
Proof.
  induction 1 as [|[k v] l l' HP IH|[k1 v1] [k2 v2] l|l l' l'' HP1 IH1 HP2 IH2];
    intros Hnd.
  - reflexivity.
  - cbn [assoc]. cbn [map] in Hnd. apply NoDup_cons in Hnd as [_ Hnd].
    destruct (String.eqb k name); [reflexivity | now apply IH].
  - cbn [assoc]. cbn [map fst] in Hnd. apply NoDup_cons in Hnd as [Hk _].
    destruct (String.eqb_spec k1 name) as [E1|], (String.eqb_spec k2 name) as [E2|];
      try reflexivity.
    exfalso. apply Hk. rewrite E1, <- E2. left.
  - rewrite IH1 by assumption. apply IH2.
    assert (map fst l ≡ₚ map fst l') as HP by now apply Permutation_map.
    now rewrite <- HP.
Qed.

Lemma check_outcome_raises dir fname marker okmsg pts x :
  check_outcome dir fname marker okmsg pts = Raise x -> x = UnicodeDecodeError.
Proof.
  unfold check_outcome. destruct (child dir fname) as [f|]; [|discriminate].
  destruct (read_text f) as [content| |]; try discriminate.
  - destruct (marker content); discriminate.
  - now intros [= <-].
Qed.

Lemma disk_eval_raises e x : disk_eval e = Raise x -> x = UnicodeDecodeError.
Proof.
  unfold disk_eval. destruct (is_dir (snd e)); [|discriminate].
  destruct (check_outcome (snd e) "smart.txt" _ _ _) as [o1|x1] eqn:E1; cbn [bind].
  - destruct (check_outcome (snd e) "fio_randread.txt" _ _ _) as [o2|x2] eqn:E2;
      cbn [bind]; [discriminate|].
    intros [= <-]. eapply check_outcome_raises, E2.
  - intros [= <-]. eapply check_outcome_raises, E1.
Qed.

Lemma iface_eval_raises e x : iface_eval e = Raise x -> x = UnicodeDecodeError.
Proof.
  unfold iface_eval. destruct (is_iface e); [|discriminate].
  destruct (child (snd e) "ethtool.txt"); discriminate.
Qed.

(** X11: the result of every analyzer, and of the aggregator, is the same
    whatever the order in which the entries of its directory are listed
    (the names in a directory being distinct): scores, statuses, details
    and raised exceptions do not depend on the order [iterdir] yields. *)
Theorem X11_listing_order_irrelevant :
  forall (es es' : list (string * node)),
    NoDup (map fst es) ->
    Permutation es es' ->
    _analyze_cpu_tests (Dir es) = _analyze_cpu_tests (Dir es')
    /\ _analyze_memory_tests (Dir es) = _analyze_memory_tests (Dir es')
    /\ _analyze_disk_tests (Dir es) = _analyze_disk_tests (Dir es')
    /\ _analyze_network_tests (Dir es) = _analyze_network_tests (Dir es')
    /\ _analyze_performance (Dir es) = _analyze_performance (Dir es').
Proof.
  intros es es' Hnd HP.
  assert (forall name, child (Dir es) name = child (Dir es') name) as Hchild
    by (intros name; now apply assoc_permutation).
  split; [|split; [|split; [|split]]].
  - unfold _analyze_cpu_tests, check_artifact. now rewrite !Hchild.
  - unfold _analyze_memory_tests, check_artifact. now rewrite !Hchild.
  - unfold _analyze_disk_tests. cbn [iterdir bind].
    rewrite !(for_each_ext disk_body (keyed_body disk_eval)) by apply disk_body_keyed.
    now rewrite (keyed_loop_permutation disk_eval disk_eval_raises es es' HP Hnd).
  - unfold _analyze_network_tests, check_artifact. rewrite !Hchild.
    destruct (child (Dir es') "iperf3_localhost.txt") as [f|].
    + destruct (read_text f) as [content| |]; [destruct (iperf_ok content)| |];
        cbn [bind iterdir]; try reflexivity;
        rewrite !(for_each_ext iface_body (keyed_body iface_eval))
          by apply iface_body_keyed;
        now rewrite (keyed_loop_permutation iface_eval iface_eval_raises es es' HP Hnd).
    + cbn [bind iterdir].
      rewrite !(for_each_ext iface_body (keyed_body iface_eval))
        by apply iface_body_keyed.
      now rewrite (keyed_loop_permutation iface_eval iface_eval_raises es es' HP Hnd).
  - unfold _analyze_performance, analyze_subdir. now rewrite !Hchild.
Qed.

Lemma X11_listing_order_irrelevant_witness :
  _analyze_cpu_tests (Dir [("sda", good_disk); ("sdb", Dir [])])
  = _analyze_cpu_tests (Dir [("sdb", Dir []); ("sda", good_disk)])
  /\ _analyze_memory_tests (Dir [("sda", good_disk); ("sdb", Dir [])])
     = _analyze_memory_tests (Dir [("sdb", Dir []); ("sda", good_disk)])
  /\ _analyze_disk_tests (Dir [("sda", good_disk); ("sdb", Dir [])])
     = _analyze_disk_tests (Dir [("sdb", Dir []); ("sda", good_disk)])
  /\ _analyze_network_tests (Dir [("sda", good_disk); ("sdb", Dir [])])
     = _analyze_network_tests (Dir [("sdb", Dir []); ("sda", good_disk)])
  /\ _analyze_performance (Dir [("sda", good_disk); ("sdb", Dir [])])
     = _analyze_performance (Dir [("sdb", Dir []); ("sda", good_disk)]).
Proof.
  apply (X11_listing_order_irrelevant
           [("sda", good_disk); ("sdb", Dir [])] [("sdb", Dir []); ("sda", good_disk)]).
  - apply (bool_decide_unpack _). vm_compute. reflexivity.
  - apply perm_swap.
Defined.

(** ** Determinism *)

Lemma same_tree_is_dir a b : same_tree a b -> is_dir a = is_dir b.
Proof. now intros []. Qed.

Lemma same_tree_read a b : same_tree a b -> read_text a = read_text b.
Proof. now intros []. Qed.

Lemma distinct_names_assoc name es x :
  forallb (fun e => distinct_names (snd e)) es = true ->
  assoc name es = Some x -> distinct_names x = true.
Proof.
  induction es as [|[k v] es IH]; cbn [assoc forallb snd]; [discriminate 2|].
  intros [Hv Hes]%andb_prop. destruct (String.eqb k name).
  - now intros [= <-].
  - now apply IH.
Qed.

Lemma same_entries_names (es es1 : list (string * node)) :
  Forall2 (fun e e1 => fst e = fst e1 /\ same_tree (snd e) (snd e1)) es es1 ->
  map fst es = map fst es1.
Proof.
  induction 1 as [|e e1 es es1 [Hn _] _ IH]; cbn [map]; [reflexivity|].
  now rewrite Hn, IH.
Qed.

Lemma same_entries_assoc name (es es1 : list (string * node)) :
  Forall2 (fun e e1 => fst e = fst e1 /\ same_tree (snd e) (snd e1)) es es1 ->
  match assoc name es, assoc name es1 with
  | Some x, Some y => same_tree x y
  | None, None => True
  | _, _ => False
  end.
Proof.
  induction 1 as [|[k v] [k1 v1] es es1 [Hn Hs] _ IH]; cbn [assoc]; [exact I|].
  cbn [fst snd] in Hn, Hs. subst k1.
  destruct (String.eqb k name); [exact Hs | exact IH].
Qed.

Lemma same_tree_child a b name :
  same_tree a b -> distinct_names a = true ->
  same_entry (child a name) (child b name).
Proof.
  intros [r|es es1 es' Hf HP] Hd; cbn [child]; [exact I|].
  cbn [distinct_names] in Hd. apply andb_prop in Hd as [Hnd Hsub].
  apply bool_decide_eq_true in Hnd.
  rewrite <- (assoc_permutation name es1 es' HP)
    by (now rewrite <- (same_entries_names es es1 Hf)).
  pose proof (same_entries_assoc name es es1 Hf) as H.
  unfold same_entry.
  destruct (assoc name es) as [x|] eqn:Hx, (assoc name es1) as [y|]; try exact H.
  split; [exact (distinct_names_assoc name es x Hsub Hx) | exact H].
Qed.

Lemma check_outcome_same d d' fname marker okmsg pts :
  same_tree d d' -> distinct_names d = true ->
  check_outcome d fname marker okmsg pts = check_outcome d' fname marker okmsg pts.
Proof.
  intros Hs Hd. unfold check_outcome.
  pose proof (same_tree_child d d' fname Hs Hd) as H. unfold same_entry in H.
  destruct (child d fname) as [f|], (child d' fname) as [f'|]; try contradiction;
    [|reflexivity].
  destruct H as [_ H]. now rewrite (same_tree_read f f' H).
Qed.

Lemma check_artifact_same d d' fname marker okmsg pts record st :
  same_tree d d' -> distinct_names d = true ->
  check_artifact d fname marker okmsg pts record st
  = check_artifact d' fname marker okmsg pts record st.
Proof.
  intros Hs Hd. rewrite !check_artifact_outcome.
  now rewrite (check_outcome_same d d' fname marker okmsg pts Hs Hd).
Qed.

Lemma disk_eval_same e e1 :
  fst e = fst e1 -> same_tree (snd e) (snd e1) -> distinct_names (snd e) = true ->
  disk_eval e = disk_eval e1.
Proof.
  intros _ Hs Hd. unfold disk_eval.
  rewrite <- (same_tree_is_dir _ _ Hs).
  now rewrite !(check_outcome_same (snd e) (snd e1)) by assumption.
Qed.

Lemma iface_eval_same e e1 :
  fst e = fst e1 -> same_tree (snd e) (snd e1) -> distinct_names (snd e) = true ->
  iface_eval e = iface_eval e1.
Proof.
  intros Hn Hs Hd. unfold iface_eval, is_iface.
  rewrite <- Hn, <- (same_tree_is_dir _ _ Hs).
  pose proof (same_tree_child _ _ "ethtool.txt" Hs Hd) as H. unfold same_entry in H.
  now destruct (child (snd e) "ethtool.txt"), (child (snd e1) "ethtool.txt").
Qed.

Section KeyedLoopSame.
Variable eval : string * node -> result (option (Z * detail)).
Hypothesis eval_raises :
  forall e x, eval e = Raise x -> x = UnicodeDecodeError.
Hypothesis eval_same :
  forall e e1, fst e = fst e1 -> same_tree (snd e) (snd e1) ->
               distinct_names (snd e) = true -> eval e = eval e1.

Lemma keyed_loop_same_entries (es es1 : list (string * node)) :
  Forall2 (fun e e1 => fst e = fst e1 /\ same_tree (snd e) (snd e1)) es es1 ->
  forallb (fun e => distinct_names (snd e)) es = true ->
  forall st, for_each (keyed_body eval) es st = for_each (keyed_body eval) es1 st.
Proof.
  induction 1 as [|e e1 es es1 [Hn Hs] _ IH]; intros Hd st; [reflexivity|].
  cbn [forallb] in Hd. apply andb_prop in Hd as [He Hd].
  cbn [for_each]. unfold keyed_body at 1 3.
  rewrite <- (eval_same e e1 Hn Hs He), <- Hn.
  destruct (eval e) as [[[p v]|]|x]; cbn [bind]; [now apply IH | now apply IH | reflexivity].
Qed.

Lemma keyed_loop_same d d' :
  same_tree d d' -> distinct_names d = true ->
  forall st,
    for_each (keyed_body eval) (entries_of d) st
    = for_each (keyed_body eval) (entries_of d') st.
Proof.
  intros [r|es es1 es' Hf HP] Hd st; cbn [entries_of]; [reflexivity|].
  cbn [distinct_names] in Hd. apply andb_prop in Hd as [Hnd Hsub].
  apply bool_decide_eq_true in Hnd.
  rewrite (keyed_loop_same_entries es es1 Hf Hsub).
  apply (keyed_loop_permutation eval eval_raises es1 es' HP).
  now rewrite <- (same_entries_names es es1 Hf).
Qed.

End KeyedLoopSame.

Lemma iterdir_entries d :
  iterdir d = if is_dir d then Ok (entries_of d) else Raise NotADirectoryError.
Proof. now destruct d. Qed.

Lemma analyzer_same c d d' :
  same_tree d d' -> distinct_names d = true ->
  analyzer_of c d = analyzer_of c d'.
Proof.
  intros Hs Hd. unfold analyzer_of.
  destruct (String.eqb c "cpu"); [|destruct (String.eqb c "memory");
    [|destruct (String.eqb c "disk")]].
  - unfold _analyze_cpu_tests.
    rewrite (check_artifact_same d d' "sysbench_cpu.txt") by assumption.
    destruct (check_artifact d' "sysbench_cpu.txt" _ _ _ _ _); cbn [bind];
      [|reflexivity].
    now rewrite (check_artifact_same d d' "stress_ng.txt") by assumption.
  - unfold _analyze_memory_tests.
    rewrite (check_artifact_same d d' "memtester.txt") by assumption.
    destruct (check_artifact d' "memtester.txt" _ _ _ _ _); cbn [bind];
      [|reflexivity].
    now rewrite (check_artifact_same d d' "stress_ng_memory.txt") by assumption.
  - unfold _analyze_disk_tests. rewrite !iterdir_entries.
    rewrite <- (same_tree_is_dir d d' Hs). destruct (is_dir d); [|reflexivity].
    cbn [bind].
    rewrite !(for_each_ext disk_body (keyed_body disk_eval)) by apply disk_body_keyed.
    now rewrite (keyed_loop_same disk_eval disk_eval_raises disk_eval_same d d' Hs Hd).
  - unfold _analyze_network_tests.
    rewrite (check_artifact_same d d' "iperf3_localhost.txt") by assumption.
    destruct (check_artifact d' "iperf3_localhost.txt" _ _ _ _ _) as [st|];
      cbn [bind]; [|reflexivity].
    rewrite !iterdir_entries.
    rewrite <- (same_tree_is_dir d d' Hs). destruct (is_dir d); [|reflexivity].
    cbn [bind].
    rewrite !(for_each_ext iface_body (keyed_body iface_eval)) by apply iface_body_keyed.
    now rewrite (keyed_loop_same iface_eval iface_eval_raises iface_eval_same d d' Hs Hd).
Qed.

Lemma subsystem_entry_same c a b :
  same_entry a b -> subsystem_entry c a = subsystem_entry c b.
Proof.
  unfold same_entry, subsystem_entry.
  destruct a as [x|], b as [y|]; try contradiction; [|reflexivity].
  intros [Hd Hs]. now apply analyzer_same.
Qed.

Lemma analyze_performance_same d d' :
  same_tree d d' -> distinct_names d = true ->
  _analyze_performance d = _analyze_performance d'.
Proof.
  intros Hs Hd. rewrite !analyze_performance_by_entries.
  now rewrite !(fun c => subsystem_entry_same c _ _ (same_tree_child d d' c Hs Hd)).
Qed.

(** C9: two runs of [process_report] on the same report, at two instants
    and over the same artifact tree (the same names and files, in whatever
    order each run finds the entries of a directory listed), agree on
    whether they return or raise, and when they return, on hostname,
    timestamp, analysis, health_score, issues and recommendations;
    [processed_at] is the instant of the run and the only field that can
    differ. *)
Theorem C9_process_report_deterministic :
  forall (now1 now2 : string) (fs1 fs2 : gmap string node) (report_data : report),
    same_artifacts fs1 fs2 report_data ->
    result_map observable (process_report now1 fs1 report_data)
    = result_map observable (process_report now2 fs2 report_data)
    /\ result_map processed_at (process_report now1 fs1 report_data)
       = result_map (fun _ => now1) (process_report now2 fs2 report_data).
Proof.
  intros now1 now2 fs1 fs2 report_data Hsame.
  assert (match performance_dir_of fs1 report_data with
          | Some d => result_map Some (_analyze_performance d)
          | None => Ok None
          end
          = match performance_dir_of fs2 report_data with
            | Some d => result_map Some (_analyze_performance d)
            | None => Ok None
            end) as Hperf.
  { unfold performance_dir_of. unfold same_artifacts in Hsame.
    destruct (fs1 !! default "" (report_path report_data)) as [root1|],
             (fs2 !! default "" (report_path report_data)) as [root2|];
      try contradiction; [|reflexivity].
    destruct Hsame as [Hd Hs].
    pose proof (same_tree_child root1 root2 "performance" Hs Hd) as H.
    unfold same_entry in H.
    destruct (child root1 "performance") as [p1|],
             (child root2 "performance") as [p2|]; try contradiction; [|reflexivity].
    destruct H as [Hd1 Hs1]. now rewrite (analyze_performance_same p1 p2 Hs1 Hd1). }
  unfold process_report.
  destruct (system_info_dict report_data) as [system_info|e]; cbn [bind];
    [|split; reflexivity].
  rewrite Hperf.
  destruct (match performance_dir_of fs2 report_data with
            | Some d => result_map Some (_analyze_performance d)
            | None => Ok None
            end) as [perf|e]; cbn [bind]; [|split; reflexivity].
  destruct (_calculate_health_score _); cbn [bind result_map]; split; reflexivity.
Qed.

Lemma same_tree_refl t : same_tree t t.
Proof.
  revert t. fix IH 1. intros [r|es]; [constructor|].
  apply (same_dir es es es); [|reflexivity].
  induction es as [|[k v] es IHes]; constructor; [|exact IHes].
  split; [reflexivity | apply IH].
Qed.

Lemma two_disks_same_tree :
  same_tree (root_with two_disks_perf) (root_with two_disks_perf_relisted).
Proof.
  unfold root_with, two_disks_perf, two_disks_perf_relisted, good_disk.
  eapply same_dir; [|reflexivity].
  constructor; [split; [reflexivity | apply same_tree_refl]|].
  constructor; [|constructor].
  split; [reflexivity|].
  eapply same_dir; [|apply perm_swap].
  constructor;
    [|constructor; [split; [reflexivity | apply same_tree_refl] | constructor]].
  split; [reflexivity|].
  eapply same_dir; [|apply perm_swap].
  constructor;
    [|constructor; [split; [reflexivity | apply same_tree_refl] | constructor]].
  split; [reflexivity|].
  eapply same_dir; [|apply perm_swap].
  constructor; [split; [reflexivity | apply same_tree_refl]|].
  constructor; [split; [reflexivity | apply same_tree_refl] | constructor].
Qed.

Lemma C9_process_report_deterministic_witness :
  result_map observable
    (process_report "2024-01-02T00:00:00" (fs_of (root_with two_disks_perf))
       sample_report)
  = result_map observable
      (process_report "2024-01-03T00:00:00"
         (fs_of (root_with two_disks_perf_relisted)) sample_report)
  /\ result_map processed_at
       (process_report "2024-01-02T00:00:00" (fs_of (root_with two_disks_perf))
          sample_report)
     = result_map (fun _ => "2024-01-02T00:00:00")
         (process_report "2024-01-03T00:00:00"
            (fs_of (root_with two_disks_perf_relisted)) sample_report).
Proof.
  apply (C9_process_report_deterministic "2024-01-02T00:00:00" "2024-01-03T00:00:00"
           (fs_of (root_with two_disks_perf))
           (fs_of (root_with two_disks_perf_relisted)) sample_report).
  unfold same_artifacts.
  change (fs_of (root_with two_disks_perf)
            !! default "" (report_path sample_report))
    with (Some (root_with two_disks_perf)).
  change (fs_of (root_with two_disks_perf_relisted)
            !! default "" (report_path sample_report))
    with (Some (root_with two_disks_perf_relisted)).
  split; [vm_compute; reflexivity | exact two_disks_same_tree].
Defined.

(** * Properties of the report store and the routes *)

(** ** The analyze route reads the requested host's own directory *)

Lemma append_inj_l p a b : String.append p a = String.append p b -> a = b.
Proof.
  induction p as [|c p IH]; [now rewrite !append_nil|].
  rewrite !append_cons. intros [= H]. now apply IH.
Qed.

Lemma path_join_inj p a b : path_join p a = path_join p b -> a = b.
Proof.
  unfold path_join. intros H. apply append_inj_l in H.
  now apply append_inj_l in H.
Qed.

Lemma store_fs_lookup reports_path reports_dir name :
  store_fs reports_path reports_dir !! path_join reports_path name
  = child reports_dir name.
Proof.
  unfold store_fs. destruct reports_dir as [r|es]; cbn [entries_of child].
  - cbn [map]. apply lookup_empty.
  - induction es as [|[k v] es IH]; cbn [map list_to_map foldr assoc fst snd].
    + apply lookup_empty.
    + cbn [uncurry]. destruct (String.eqb_spec k name) as [->|Hne].
      * apply lookup_insert_eq.
      * rewrite lookup_insert_ne; [exact IH|].
        intros E. apply Hne. now apply path_join_inj in E.
Qed.

Lemma performance_dir_of_store reports_path reports_dir name r :
  performance_dir_of (store_fs reports_path reports_dir)
    (set_path r (path_join reports_path name))
  = match child reports_dir name with
    | Some report_dir => child report_dir "performance"
    | None => None
    end.
Proof.
  unfold performance_dir_of, set_path. cbn [report_path default from_option].
  unfold id. now rewrite store_fs_lookup.
Qed.

Lemma get_report_some json_load reports_path reports_dir name r :
  get_report json_load reports_path reports_dir name = Returns (Some r) ->
  exists report_dir report_file content r0,
    child reports_dir name = Some report_dir
    /\ child report_dir "report.json" = Some report_file
    /\ read_text report_file = ReadText content
    /\ json_load content = JsonObject r0
    /\ r = set_path r0 (path_join reports_path name).
Proof.
  unfold get_report, load_report.
  destruct (child reports_dir name) as [report_dir|] eqn:Hd; [|discriminate].
  destruct (child report_dir "report.json") as [report_file|] eqn:Hf; [|discriminate].
  destruct (read_text report_file) as [content| |] eqn:Hr; try discriminate.
  destruct (json_load content) as [r0| |] eqn:Hj; try discriminate.
  intros [= <-]. exists report_dir, report_file, content, r0.
  repeat split; assumption || reflexivity.
Qed.

(** X12: when the analyze route answers 200 for a host name, the analysis
    is that of the artifacts under that host's own directory of the store:
    its performance block is the aggregate of [<reports_dir>/<hostname>/
    performance] (absent when that directory is), whatever ['_path'] the
    stored [report.json] carries. *)
Theorem X12_analysis_reads_own_directory :
  forall (json_load : string -> decoded) (now reports_path : string)
         (reports_dir : node) (host : string) (p : processed),
    plain_name host = true ->
    analyze_report json_load now reports_path reports_dir host = Success p ->
    exists report_dir report_file content r0,
      child reports_dir host = Some report_dir
      /\ child report_dir "report.json" = Some report_file
      /\ read_text report_file = ReadText content
      /\ json_load content = JsonObject r0
      /\ hostname p = default (JStr "unknown") (report_hostname r0)
      /\ match child report_dir "performance" with
         | Some perf_dir =>
             exists agg, _analyze_performance perf_dir = Ok agg
                         /\ performance (analysis_of p) = Some agg
         | None => performance (analysis_of p) = None /\ health_score p = 100
         end.
Proof.
  intros json_load now reports_path reports_dir host p _ H.
  unfold analyze_report in H.
  destruct (get_report json_load reports_path reports_dir host) as [[r|]|e] eqn:Hg;
    try discriminate.
  destruct (get_report_some _ _ _ _ _ Hg)
    as (report_dir & report_file & content & r0 & Hd & Hf & Hread & Hj & ->).
  destruct (process_report now _ _) as [p'|e] eqn:Hp; [|discriminate].
  injection H as ->.
  exists report_dir, report_file, content, r0.
  repeat (split; [assumption|]).
  destruct (process_report_ok _ _ _ _ Hp) as (sys & perf & Ha & Hh & _ & Hperf).
  rewrite performance_dir_of_store, Hd in Hperf.
  split.
  - unfold process_report in Hp.
    destruct (system_info_dict _) as [system_info|]; cbn [bind] in Hp; [|discriminate].
    destruct (match performance_dir_of _ _ with Some d => _ | None => _ end);
      cbn [bind] in Hp; [|discriminate].
    destruct (_calculate_health_score _); cbn [bind] in Hp; [|discriminate].
    injection Hp as <-. reflexivity.
  - destruct (child report_dir "performance") as [perf_dir|].
    + destruct Hperf as (agg & Hagg & ->). exists agg. rewrite Ha. auto.
    + subst perf. rewrite Ha in Hh |- *. split; [reflexivity|].
      rewrite health_no_performance in Hh. now injection Hh.
Qed.

Lemma X12_analysis_reads_own_directory_witness :
  exists report_dir report_file content r0,
    child sample_store "node1" = Some report_dir
    /\ child report_dir "report.json" = Some report_file
    /\ read_text report_file = ReadText content
    /\ sample_json_load content = JsonObject r0
    /\ hostname cpu_only_processed = default (JStr "unknown") (report_hostname r0)
    /\ match child report_dir "performance" with
       | Some perf_dir =>
           exists agg, _analyze_performance perf_dir = Ok agg
                       /\ performance (analysis_of cpu_only_processed) = Some agg
       | None => performance (analysis_of cpu_only_processed) = None
                 /\ health_score cpu_only_processed = 100
       end.
Proof.
  apply (X12_analysis_reads_own_directory sample_json_load "2024-01-02T00:00:00"
           "/srv/reports" sample_store "node1" cpu_only_processed).
  - vm_compute. reflexivity.
  - vm_compute. reflexivity.
Defined.

(** ** When the analyze route succeeds *)

(** X13: for a host whose [report.json] loads as an object, the analyze
    route never answers 404, and it answers 200 exactly when system_info is
    a dict or absent and, where the host has a [performance/] directory, no
    artifact file the analyzers read fails to decode, [disk/] and
    [network/] are directories where present and the arithmetic of the
    health score returns.  A system_info of another type is answered with
    the 500 of [AttributeError], and what the aggregator raises with the
    500 of that exception. *)
Theorem X13_analyze_route_success :
  forall (json_load : string -> decoded) (now reports_path : string)
         (reports_dir : node) (host : string)
         (report_dir report_file : node) (content : string) (r0 : report),
    plain_name host = true ->
    child reports_dir host = Some report_dir ->
    child report_dir "report.json" = Some report_file ->
    read_text report_file = ReadText content ->
    json_load content = JsonObject r0 ->
    (status_code (analyze_report json_load now reports_path reports_dir host) = 200
     <-> system_info_is_dict r0 = true
         /\ match child report_dir "performance" with
            | Some perf_dir =>
                opened_artifacts_decode perf_dir = true
                /\ listable perf_dir = true
                /\ forall agg sys,
                     _analyze_performance perf_dir = Ok agg ->
                     is_ok (_calculate_health_score
                              {| system := Some sys; performance := Some agg |})
                     = true
            | None => True
            end)
    /\ (system_info_is_dict r0 = false ->
        analyze_report json_load now reports_path reports_dir host
        = ServerError (Exn AttributeError))
    /\ (forall perf_dir e,
          system_info_is_dict r0 = true ->
          child report_dir "performance" = Some perf_dir ->
          _analyze_performance perf_dir = Raise e ->
          analyze_report json_load now reports_path reports_dir host
          = ServerError (Exn e))
    /\ status_code (analyze_report json_load now reports_path reports_dir host)
       <> 404.
Proof.
  intros json_load now reports_path reports_dir host report_dir report_file
         content r0 _ Hd Hf Hread Hj.
  assert (get_report json_load reports_path reports_dir host
          = Returns (Some (set_path r0 (path_join reports_path host)))) as Hg.
  { unfold get_report, load_report. now rewrite Hd, Hf, Hread, Hj. }
  unfold analyze_report. rewrite Hg.
  pose proof (performance_dir_of_store reports_path reports_dir host r0) as Hdir.
  rewrite Hd in Hdir.
  pose proof (process_report_is_ok now (store_fs reports_path reports_dir)
                (set_path r0 (path_join reports_path host)) sample_system) as Hok.
  rewrite Hdir in Hok.
  change (system_info_is_dict (set_path r0 (path_join reports_path host)))
    with (system_info_is_dict r0) in Hok.
  split; [|split; [|split]].
  - assert (forall r : result processed,
               status_code (match r with
                            | Ok a => Success a
                            | Raise e => ServerError (Exn e)
                            end) = 200 <-> is_ok r = true) as Hst
      by (intros [a|e]; cbn; split; congruence).
    rewrite Hst, Hok. clear Hst Hok.
    destruct (child report_dir "performance") as [perf_dir|].
    + pose proof (analyze_performance_is_ok perf_dir) as Hagg.
      destruct (_analyze_performance perf_dir) as [agg|e]; cbn [is_ok] in Hagg.
      * split.
        -- intros [Hs Hh]%andb_prop. split; [exact Hs|].
           destruct Hagg as [Hagg _]. destruct (Hagg eq_refl) as [Hdec Hlist].
           repeat split; [exact Hdec | exact Hlist|].
           intros agg' sys [= <-].
           now rewrite (health_system_irrelevant sys sample_system).
        -- intros (Hs & _ & _ & Hh). rewrite Hs. cbn [andb].
           exact (Hh agg sample_system eq_refl).
      * split.
        -- intros [_ Hfalse]%andb_prop. discriminate Hfalse.
        -- intros (_ & Hdec & Hlist & _). destruct Hagg as [_ Hagg].
           discriminate (Hagg (conj Hdec Hlist)).
    + rewrite andb_true_r. split; [intros Hs; split; [exact Hs | exact I] | now intros [Hs _]].
  - intros Hsys. unfold process_report.
    assert (system_info_is_dict (set_path r0 (path_join reports_path host)) = false)
      as Hsys' by exact Hsys.
    now rewrite (system_info_dict_raises _ Hsys').
  - intros perf_dir e Hsys Hperf He. rewrite Hperf in Hdir.
    unfold process_report.
    assert (is_ok (system_info_dict (set_path r0 (path_join reports_path host)))
            = true) as Hsd by (rewrite system_info_dict_is_ok; exact Hsys).
    destruct (system_info_dict _) as [system_info|x]; [|discriminate Hsd].
    cbn [bind]. rewrite Hdir, He. reflexivity.
  - destruct (process_report now _ _); cbn; discriminate.
Qed.

Lemma X13_analyze_route_success_witness :
  (status_code (analyze_report sample_json_load "2024-01-02T00:00:00"
                  "/srv/reports" sample_store "node1") = 200
   <-> system_info_is_dict sample_report = true
       /\ match child (root_with cpu_only_perf) "performance" with
          | Some perf_dir =>
              opened_artifacts_decode perf_dir = true
              /\ listable perf_dir = true
              /\ forall agg sys,
                   _analyze_performance perf_dir = Ok agg ->
                   is_ok (_calculate_health_score
                            {| system := Some sys; performance := Some agg |})
                   = true
          | None => True
          end)
  /\ (system_info_is_dict sample_report = false ->
      analyze_report sample_json_load "2024-01-02T00:00:00"
        "/srv/reports" sample_store "node1"
      = ServerError (Exn AttributeError))
  /\ (forall perf_dir e,
        system_info_is_dict sample_report = true ->
        child (root_with cpu_only_perf) "performance" = Some perf_dir ->
        _analyze_performance perf_dir = Raise e ->
        analyze_report sample_json_load "2024-01-02T00:00:00"
          "/srv/reports" sample_store "node1"
        = ServerError (Exn e))
  /\ status_code (analyze_report sample_json_load "2024-01-02T00:00:00"
                    "/srv/reports" sample_store "node1")
     <> 404.
Proof.
  apply (X13_analyze_route_success sample_json_load "2024-01-02T00:00:00"
           "/srv/reports" sample_store "node1"
           (root_with cpu_only_perf) (text_file "{}") "{}" sample_report).
  - vm_compute. reflexivity.
  - vm_compute. reflexivity.
  - vm_compute. reflexivity.
  - vm_compute. reflexivity.
  - vm_compute. reflexivity.
Defined.

(** ** Missing and corrupt reports *)



(** ** The listing of the store *)

Lemma string_ltb_irrefl s : String.ltb s s = false.
Proof.
  unfold String.ltb.
  pose proof (String.compare_antisym s s) as H.
  destruct (String.compare s s); simpl in H; try discriminate; reflexivity.
Qed.

Lemma string_ltb_asym s t : String.ltb s t = true -> String.ltb t s = false.
Proof.
  unfold String.ltb. rewrite (String.compare_antisym s t).
  destruct (String.compare t s); simpl; congruence.
Qed.

Lemma string_ltb_tied s t : String.ltb s t = false -> String.ltb t s = false -> s = t.
Proof.
  unfold String.ltb. intros H1 H2. apply String.compare_eq_iff.
  rewrite (String.compare_antisym t s) in H2.
  destruct (String.compare s t); simpl in *; congruence.
Qed.

Lemma Qcompare_tied p q : (p ?= q)%Q <> Lt -> (q ?= p)%Q <> Lt -> (p == q)%Q.
Proof.
  intros H1 H2. destruct (Qcompare_spec p q) as [E|L|G].
  - exact E.
  - now contradiction H1.
  - apply Qlt_alt in G. now contradiction H2.
Qed.

Lemma number_lt_asym a b : number_lt a b = true -> number_lt b a = false.
Proof.
  destruct a as [|p|], b as [|q|]; simpl; try congruence.
  rewrite <- (Qcompare_antisym p q). destruct (p ?= q)%Q; simpl; congruence.
Qed.

Lemma number_lt_tied a b c :
  number_lt a c = false -> number_lt c a = false ->
  number_lt b c = false -> number_lt c b = false ->
  number_lt a b = false.
Proof.
  destruct a as [|p|], b as [|q|], c as [|r|]; simpl; try congruence.
  intros H1 H2 H3 H4.
  assert (p == r)%Q as E1
    by (apply Qcompare_tied; [destruct (p ?= r)%Q | destruct (r ?= p)%Q]; congruence).
  assert (q == r)%Q as E2
    by (apply Qcompare_tied; [destruct (q ?= r)%Q | destruct (r ?= q)%Q]; congruence).
  assert (p == q)%Q as E by (rewrite E1, E2; reflexivity).
  apply Qeq_alt in E. now rewrite E.
Qed.

Lemma py_lt_asym a b : py_lt a b = Some true -> py_lt b a = Some false.
Proof.
  destruct a as [x|x|], b as [y|y|]; simpl; try discriminate; intros [= H]; f_equal.
  - now apply number_lt_asym.
  - now apply string_ltb_asym.
Qed.

(** Two keys tied with a third are not less than one another. *)
Lemma tied_not_lt a b k : tied a k = true -> tied b k = true -> py_lt a b = Some false.
Proof.
  unfold tied.
  destruct a as [x|x|], b as [y|y|], k as [z|z|]; simpl; try discriminate.
  - destruct (number_lt x z) eqn:H1, (number_lt z x) eqn:H2; try discriminate.
    destruct (number_lt y z) eqn:H3, (number_lt z y) eqn:H4; try discriminate.
    intros _ _. f_equal. now apply (number_lt_tied x y z).
  - destruct (String.ltb x z) eqn:H1, (String.ltb z x) eqn:H2; try discriminate.
    destruct (String.ltb y z) eqn:H3, (String.ltb z y) eqn:H4; try discriminate.
    intros _ _. f_equal.
    rewrite (string_ltb_tied x z H1 H2), (string_ltb_tied y z H3 H4).
    apply string_ltb_irrefl.
Qed.

Section Sorting.
Context {X : Type}.
Implicit Types (x y : order_key * X) (l : list (order_key * X)).

Lemma insert_desc_head x l l' y :
  insert_desc x l = Returns l' ->
  key_before y x -> HdRel key_before y l -> HdRel key_before y l'.
Proof.
  intros H Hyx Hyl. destruct l as [|z l]; cbn [insert_desc] in H.
  - injection H as <-. now constructor.
  - destruct (py_lt (fst x) (fst z)) as [[|]|]; [| |discriminate].
    + destruct (insert_desc x l); [|discriminate]. injection H as <-.
      constructor. now inversion Hyl.
    + injection H as <-. now constructor.
Qed.

Lemma insert_desc_sorted x l : forall l',
  insert_desc x l = Returns l' -> Sorted key_before l -> Sorted key_before l'.
Proof.
  induction l as [|z l IH]; intros l' H Hs; cbn [insert_desc] in H.
  - injection H as <-. repeat constructor.
  - destruct (py_lt (fst x) (fst z)) as [[|]|] eqn:Hc; [| |discriminate].
    + destruct (insert_desc x l) as [l''|] eqn:Hi; [|discriminate].
      injection H as <-. inversion Hs as [|? ? Hs' Hhd]; subst.
      constructor; [now apply IH|].
      eapply insert_desc_head; [exact Hi | now apply py_lt_asym | exact Hhd].
    + injection H as <-. constructor; [exact Hs|]. now constructor.
Qed.

Lemma insert_desc_permutation x l : forall l',
  insert_desc x l = Returns l' -> Permutation (x :: l) l'.
Proof.
  induction l as [|z l IH]; intros l' H; cbn [insert_desc] in H.
  - now injection H as <-.
  - destruct (py_lt (fst x) (fst z)) as [[|]|]; [| |discriminate].
    + destruct (insert_desc x l) as [l''|]; [|discriminate].
      injection H as <-. rewrite perm_swap. constructor. now apply IH.
    + now injection H as <-.
Qed.

Lemma insert_desc_stable k x l : forall l',
  insert_desc x l = Returns l' ->
  List.filter (fun z => tied (fst z) k) l'
  = List.filter (fun z => tied (fst z) k) (x :: l).
Proof.
  induction l as [|z l IH]; intros l' H; cbn [insert_desc] in H.
  - now injection H as <-.
  - destruct (py_lt (fst x) (fst z)) as [[|]|] eqn:Hc; [| |discriminate].
    + destruct (insert_desc x l) as [l''|]; [|discriminate].
      injection H as <-. cbn [List.filter] in *.
      rewrite (IH l'' eq_refl).
      destruct (tied (fst z) k) eqn:Ez, (tied (fst x) k) eqn:Ex; try reflexivity.
      rewrite (tied_not_lt _ _ _ Ex Ez) in Hc. discriminate.
    + now injection H as <-.
Qed.

Lemma sort_desc_spec l : forall s,
  sort_desc l = Returns s ->
  Permutation l s /\ Sorted key_before s
  /\ forall k, List.filter (fun z => tied (fst z) k) s
               = List.filter (fun z => tied (fst z) k) l.
Proof.
  induction l as [|x l IH]; intros s H; cbn [sort_desc] in H.
  - injection H as <-. repeat split; constructor.
  - destruct (sort_desc l) as [s0|] eqn:Hs; [|discriminate].
    destruct (IH s0 eq_refl) as (HP & HS & HK). split; [|split].
    + rewrite <- (insert_desc_permutation _ _ _ H). now constructor.
    + now apply (insert_desc_sorted x s0).
    + intros k. rewrite (insert_desc_stable k _ _ _ H).
      cbn [List.filter]. now rewrite HK.
Qed.

End Sorting.

(** The keys [sort] works with are those of the reports. *)
Lemma keyed_spec {M : Type} (l : list (report * M)) : forall kl,
  keyed l = Some kl ->
  map snd kl = l
  /\ Forall (fun kx => key_of (sort_key (snd kx)) = Some (fst kx)) kl.
Proof.
  induction l as [|x l IH]; intros kl H; cbn [keyed] in H.
  - injection H as <-. split; [reflexivity | constructor].
  - destruct (key_of (sort_key x)) as [k|] eqn:Hk; [|discriminate].
    destruct (keyed l) as [kl'|]; [|discriminate]. injection H as <-.
    destruct (IH kl' eq_refl) as [Hm Hf]. cbn [map snd]. split.
    + now rewrite Hm.
    + constructor; [exact Hk | exact Hf].
Qed.

Lemma sorted_reports {M : Type} (s : list (order_key * (report * M))) :
  Forall (fun kx => key_of (sort_key (snd kx)) = Some (fst kx)) s ->
  Sorted key_before s ->
  Sorted not_less (map snd s).
Proof.
  intros Hf Hs. induction Hs as [|x s Hs IH Hhd]; cbn [map]; [constructor|].
  apply Forall_cons in Hf as [Hx Hf]. constructor; [now apply IH|].
  destruct Hhd as [|y s' Hxy]; cbn [map]; constructor.
  apply Forall_cons in Hf as [Hy _].
  unfold not_less, timestamp_lt. now rewrite Hx, Hy, Hxy.
Qed.

Lemma with_key_reports {M : Type} k (s : list (order_key * (report * M))) :
  Forall (fun kx => key_of (sort_key (snd kx)) = Some (fst kx)) s ->
  with_key k (map snd s) = map snd (List.filter (fun z => tied (fst z) k) s).
Proof.
  unfold with_key. induction s as [|x s IH]; intros Hf; [reflexivity|].
  apply Forall_cons in Hf as [Hx Hf]. cbn [map List.filter]. rewrite Hx.
  destruct (tied (fst x) k); cbn [map]; now rewrite IH.
Qed.

(** What [scan_reports] returns, in terms of the sort of the loaded
    reports. *)
Lemma scan_reports_returns {M : Type} json_load (mtime : string -> M)
    reports_path reports_dir l :
  scan_reports json_load mtime reports_path reports_dir = Some (Returns l) ->
  exists loaded kl s,
    scan_loop json_load mtime reports_path (entries_of reports_dir) []
    = Returns loaded
    /\ keyed loaded = Some kl /\ sort_desc kl = Returns s /\ l = map snd s.
Proof.
  unfold scan_reports.
  destruct (scan_loop json_load mtime reports_path (entries_of reports_dir) [])
    as [loaded|e]; [|discriminate].
  destruct (keyed loaded) as [kl|] eqn:Hk; [|discriminate].
  destruct (sort_desc kl) as [s|e] eqn:Hs; [|discriminate].
  intros [= <-]. exists loaded, kl, s. auto.
Qed.

Lemma scan_reports_permutation {M : Type} json_load (mtime : string -> M)
    reports_path reports_dir l :
  scan_reports json_load mtime reports_path reports_dir = Some (Returns l) ->
  exists loaded,
    scan_loop json_load mtime reports_path (entries_of reports_dir) []
    = Returns loaded
    /\ Permutation loaded l.
Proof.
  intros H. destruct (scan_reports_returns _ _ _ _ _ H)
    as (loaded & kl & s & Hl & Hk & Hs & ->).
  exists loaded. split; [exact Hl|].
  destruct (keyed_spec _ _ Hk) as [<- _].
  destruct (sort_desc_spec _ _ Hs) as (HP & _).
  now apply Permutation_map.
Qed.

(** X15: when [scan_reports] returns, its list holds the loaded reports,
    each once, newest first: no report's timestamp is less than that of the
    report after it, and reports whose timestamps are tied keep the order
    in which their directories were listed. *)
Theorem X15_scan_reports_sorted :
  forall (M : Type) (json_load : string -> decoded) (mtime : string -> M)
         (reports_path : string) (reports_dir : node) (l : list (report * M)),
    scan_reports json_load mtime reports_path reports_dir = Some (Returns l) ->
    exists loaded,
      scan_loop json_load mtime reports_path (entries_of reports_dir) []
      = Returns loaded
      /\ Permutation loaded l
      /\ Sorted not_less l
      /\ (forall k, with_key k l = with_key k loaded).
Proof.
  intros M json_load mtime reports_path reports_dir l H.
  destruct (scan_reports_returns _ _ _ _ _ H)
    as (loaded & kl & s & Hl & Hk & Hs & ->).
  exists loaded. split; [exact Hl|].
  destruct (keyed_spec _ _ Hk) as [Hm Hf].
  destruct (sort_desc_spec _ _ Hs) as (HP & HS & HK).
  assert (Forall (fun kx => key_of (sort_key (snd kx)) = Some (fst kx)) s) as Hfs.
  { rewrite Forall_forall in Hf |- *. intros kx Hin. apply Hf.
    apply list_elem_of_In. apply list_elem_of_In in Hin.
    eapply Permutation_in; [symmetry; exact HP | exact Hin]. }
  split; [|split].
  - rewrite <- Hm. now apply Permutation_map.
  - now apply sorted_reports.
  - intros k. rewrite <- Hm, !with_key_reports by assumption. now rewrite HK.
Qed.

Lemma X15_scan_reports_sorted_witness :
  exists loaded,
    scan_loop stamp_load (fun _ => 0) "/srv" (entries_of two_reports_store) []
    = Returns loaded
    /\ Permutation loaded [(stamped "2024-06-01" "/srv/new", 0);
                           (stamped "2024-01-01" "/srv/old", 0)]
    /\ Sorted not_less [(stamped "2024-06-01" "/srv/new", 0);
                        (stamped "2024-01-01" "/srv/old", 0)]
    /\ (forall k, with_key k [(stamped "2024-06-01" "/srv/new", 0);
                              (stamped "2024-01-01" "/srv/old", 0)]
                  = with_key k loaded).
Proof.
  apply (X15_scan_reports_sorted Z stamp_load (fun _ => 0) "/srv" two_reports_store).
  vm_compute. reflexivity.
Defined.

(** ** The listing and [get_report] agree *)

Lemma scan_body_listed {M : Type} json_load (mtime : string -> M) reports_path
    reports e out :
  scan_body json_load mtime reports_path reports e = Returns out ->
  out = app reports (listed json_load mtime reports_path e).
Proof.
  unfold scan_body, listed.
  destruct (is_dir (snd e) && negb (String.prefix "." (fst e)));
    [|intros [= <-]; now rewrite app_nil_r].
  destruct (child (snd e) "report.json") as [f|];
    [|intros [= <-]; now rewrite app_nil_r].
  destruct (load_report json_load f _) as [[r|]|x]; [| |discriminate].
  - now intros [= <-].
  - intros [= <-]. now rewrite app_nil_r.
Qed.

Lemma scan_loop_listed {M : Type} json_load (mtime : string -> M) reports_path es :
  forall reports out,
    scan_loop json_load mtime reports_path es reports = Returns out ->
    out = app reports (flat_map (listed json_load mtime reports_path) es).
Proof.
  induction es as [|e es IH]; intros reports out H; cbn [scan_loop] in H.
  - injection H as <-. cbn. now rewrite app_nil_r.
  - destruct (scan_body json_load mtime reports_path reports e) as [r1|x] eqn:Hb;
      [|discriminate].
    apply scan_body_listed in Hb as ->. apply IH in H as ->.
    cbn [flat_map]. now rewrite app_assoc.
Qed.

Lemma assoc_In name d es :
  NoDup (map fst es) -> In (name, d) es -> assoc name es = Some d.
Proof.
  induction es as [|[k v] es IH]; intros Hnd Hin; [destruct Hin|].
  cbn [map fst] in Hnd. apply NoDup_cons in Hnd as [Hk Hnd].
  cbn [assoc]. destruct Hin as [[= -> ->] | Hin].
  - now rewrite String.eqb_refl.
  - destruct (String.eqb_spec k name) as [->|_]; [|now apply IH].
    exfalso. apply Hk. apply list_elem_of_In. apply in_map_iff.
    exists (name, d). auto.
Qed.

Lemma assoc_Some_In name d es : assoc name es = Some d -> In (name, d) es.
Proof.
  induction es as [|[k v] es IH]; [discriminate|]. cbn [assoc].
  destruct (String.eqb_spec k name) as [->|_].
  - intros [= ->]. now left.
  - intros H. right. now apply IH.
Qed.

Lemma listed_get_report {M : Type} json_load (mtime : string -> M) reports_path
    es name d r mt :
  assoc name es = Some d ->
  In (r, mt) (listed json_load mtime reports_path (name, d))
  <-> String.prefix "." name = false
      /\ get_report json_load reports_path (Dir es) name = Returns (Some r)
      /\ mt = mtime (path_join (path_join reports_path name) "report.json").
Proof.
  intros Ha. unfold listed, get_report. cbn [fst snd child]. rewrite Ha.
  destruct (child d "report.json") as [f|] eqn:Hf.
  - assert (is_dir d = true) as -> by (destruct d; [discriminate Hf | reflexivity]).
    destruct (String.prefix "." name); cbn [andb negb].
    + split; [intros [] | intros [[=] _]].
    + destruct (load_report json_load f _) as [[r'|]|x].
      * cbn [In]. split.
        -- intros [[= -> ->] | []]. auto.
        -- intros (_ & [= ->] & ->). now left.
      * split; [intros [] | intros (_ & [=] & _)].
      * split; [intros [] | intros (_ & [=] & _)].
  - destruct (is_dir d && negb (String.prefix "." name));
      (split; [intros [] | intros (_ & [=] & _)]).
Qed.

(** X16: the listing and [get_report] agree: a report is in the list
    [scan_reports] returns exactly when [get_report] returns it for some
    directory name that does not start with a dot, and it then carries the
    modification time of that directory's [report.json].  A hidden
    directory is served by [get_report] but never listed. *)
Theorem X16_scan_agrees_with_get_report :
  forall (M : Type) (json_load : string -> decoded) (mtime : string -> M)
         (reports_path : string) (es : list (string * node))
         (l : list (report * M)),
    NoDup (map fst es) ->
    forallb (fun e => plain_name (fst e)) es = true ->
    scan_reports json_load mtime reports_path (Dir es) = Some (Returns l) ->
    forall r mt,
      In (r, mt) l
      <-> exists name,
            plain_name name = true
            /\ String.prefix "." name = false
            /\ get_report json_load reports_path (Dir es) name = Returns (Some r)
            /\ mt = mtime (path_join (path_join reports_path name) "report.json").
Proof.
  intros M json_load mtime reports_path es l Hnd Hplain H r mt.
  destruct (scan_reports_permutation _ _ _ _ _ H) as (loaded & Hl & HP).
  cbn [entries_of] in Hl.
  apply scan_loop_listed in Hl. cbn [app] in Hl. subst loaded.
  assert (In (r, mt) l
          <-> In (r, mt) (flat_map (listed json_load mtime reports_path) es)) as ->
    by (split; apply Permutation_in; [symmetry|]; exact HP).
  rewrite in_flat_map. rewrite forallb_forall in Hplain.
  split.
  - intros ([name d] & Hin & Hlisted). exists name.
    split; [exact (Hplain _ Hin)|].
    now apply (listed_get_report json_load mtime reports_path es name d r mt
                 (assoc_In _ _ _ Hnd Hin)).
  - intros (name & _ & Hhid & Hget & Hmt).
    assert (exists d, assoc name es = Some d) as [d Ha].
    { unfold get_report in Hget. cbn [child] in Hget.
      destruct (assoc name es) as [d|]; [eauto | discriminate]. }
    exists (name, d). split; [now apply assoc_Some_In|].
    now apply (listed_get_report json_load mtime reports_path es name d r mt Ha).
Qed.

Lemma X16_scan_agrees_with_get_report_witness :
  In (stamped "2024-06-01" "/srv/new", 0)
     [(stamped "2024-06-01" "/srv/new", 0); (stamped "2024-01-01" "/srv/old", 0)]
  <-> exists name,
        plain_name name = true
        /\ String.prefix "." name = false
        /\ get_report stamp_load "/srv" two_reports_store name
           = Returns (Some (stamped "2024-06-01" "/srv/new"))
        /\ 0 = (fun _ : string => 0)
                 (path_join (path_join "/srv" name) "report.json").
Proof.
  apply (X16_scan_agrees_with_get_report Z stamp_load (fun _ => 0) "/srv"
           (entries_of two_reports_store)
           [(stamped "2024-06-01" "/srv/new", 0); (stamped "2024-01-01" "/srv/old", 0)]).
  - apply (bool_decide_unpack _). vm_compute. reflexivity.
  - vm_compute. reflexivity.
  - vm_compute. reflexivity.
Defined.

(** ** Timestamps that cannot be compared *)

Lemma py_lt_defined a b :
  py_lt a b <> None
  <-> (is_number a = true /\ is_number b = true)
      \/ (is_string a = true /\ is_string b = true).
Proof.
  destruct a, b; simpl; split; try tauto; try discriminate;
    try (intros [[? ?]|[? ?]]; discriminate); intros H; now contradiction H.
Qed.

Section SortRaises.
Context {X : Type}.
Implicit Types (x y : order_key * X) (l : list (order_key * X)).

Lemma insert_desc_returns x l :
  (forall y, In y l -> py_lt (fst x) (fst y) <> None) ->
  exists l', insert_desc x l = Returns l'.
Proof.
  induction l as [|z l IH]; intros Hu; cbn [insert_desc]; [eauto|].
  destruct (py_lt (fst x) (fst z)) as [[|]|] eqn:Hc; [|eauto|].
  - destruct IH as [l' ->]; [intros y Hy; apply Hu; now right | eauto].
  - exfalso. apply (Hu z); [now left | exact Hc].
Qed.

Lemma insert_desc_head_key x z l s :
  insert_desc x (z :: l) = Returns s -> py_lt (fst x) (fst z) <> None.
Proof.
  cbn [insert_desc]. intros H Hc. rewrite Hc in H. discriminate.
Qed.

Lemma insert_desc_raises x l e : insert_desc x l = Raises e -> e = TypeError.
Proof.
  induction l as [|z l IH]; cbn [insert_desc]; [discriminate|].
  destruct (py_lt (fst x) (fst z)) as [[|]|]; [|discriminate|].
  - destruct (insert_desc x l) as [l'|e']; [discriminate|].
    intros [= <-]. now apply IH.
  - now intros [= <-].
Qed.

Lemma sort_desc_raises l e : sort_desc l = Raises e -> e = TypeError.
Proof.
  induction l as [|x l IH]; cbn [sort_desc]; [discriminate|].
  destruct (sort_desc l) as [s|e'].
  - apply insert_desc_raises.
  - intros [= <-]. now apply IH.
Qed.

Lemma sort_desc_uniform (kind : order_key -> bool) l :
  (forall a b, kind a = true -> kind b = true -> py_lt a b <> None) ->
  forallb (fun x => kind (fst x)) l = true ->
  exists s, sort_desc l = Returns s.
Proof.
  intros Hkind. induction l as [|x l IH]; cbn [sort_desc forallb]; [eauto|].
  intros [Hx Hl]%andb_prop. destruct (IH Hl) as [s Hs]. rewrite Hs.
  apply insert_desc_returns. intros y Hy. apply Hkind; [exact Hx|].
  destruct (sort_desc_spec _ _ Hs) as (HP & _).
  rewrite forallb_forall in Hl. apply (Hl y).
  eapply Permutation_in; [symmetry; exact HP | exact Hy].
Qed.

(** The sort returns exactly when there is at most one element, or all
    keys are numbers, or all are strings. *)
Lemma sort_desc_returns_iff l :
  (exists s, sort_desc l = Returns s)
  <-> (length l <= 1)%nat
      \/ forallb (fun x => is_number (fst x)) l = true
      \/ forallb (fun x => is_string (fst x)) l = true.
Proof.
  split.
  - induction l as [|x l IH]; [intros _; left; simpl; lia|].
    intros [s H]. cbn [sort_desc] in H.
    destruct (sort_desc l) as [s0|] eqn:Hs; [|discriminate].
    destruct (sort_desc_spec _ _ Hs) as (HP & _).
    destruct s0 as [|z s0].
    { apply Permutation_sym, Permutation_nil in HP. subst l. left. simpl. lia. }
    right.
    assert (In z l) as Hz
      by (eapply Permutation_in; [symmetry; exact HP | now left]).
    apply insert_desc_head_key, py_lt_defined in H.
    cbn [forallb].
    destruct (IH (ex_intro _ _ eq_refl)) as [Hlen | [Hnum | Hstr]].
    + destruct l as [|a [|b l']]; [destruct Hz | | simpl in Hlen; lia].
      destruct Hz as [-> | []]. cbn [forallb].
      destruct H as [[-> ->] | [-> ->]]; [left | right]; reflexivity.
    + left. rewrite Hnum, andb_true_r.
      rewrite forallb_forall in Hnum. specialize (Hnum z Hz).
      destruct H as [[Hx _] | [_ Hzs]]; [exact Hx|].
      destruct (fst z); discriminate.
    + right. rewrite Hstr, andb_true_r.
      rewrite forallb_forall in Hstr. specialize (Hstr z Hz).
      destruct H as [[_ Hzn] | [Hx _]]; [|exact Hx].
      destruct (fst z); discriminate.
  - intros [Hlen | [Hnum | Hstr]].
    + destruct l as [|x [|y l]]; [eauto | eauto | simpl in Hlen; lia].
    + apply (sort_desc_uniform is_number); [|exact Hnum].
      intros a b Ha Hb. apply py_lt_defined. auto.
    + apply (sort_desc_uniform is_string); [|exact Hstr].
      intros a b Ha Hb. apply py_lt_defined. auto.
Qed.

End SortRaises.

Lemma keyed_some {M : Type} (l : list (report * M)) :
  forallb has_order_key l = true -> exists kl, keyed l = Some kl.
Proof.
  induction l as [|x l IH]; cbn [keyed forallb]; [eauto|].
  intros [Hx Hl]%andb_prop. destruct (IH Hl) as [kl ->].
  unfold has_order_key in Hx. destruct (key_of (sort_key x)); [eauto | discriminate].
Qed.

Lemma keyed_kinds {M : Type} (l : list (report * M)) : forall kl,
  keyed l = Some kl ->
  length kl = length l
  /\ forallb (fun x => is_number (fst x)) kl = forallb number_key l
  /\ forallb (fun x => is_string (fst x)) kl = forallb string_key l.
Proof.
  induction l as [|x l IH]; intros kl H; cbn [keyed] in H.
  - injection H as <-. auto.
  - destruct (key_of (sort_key x)) as [k|] eqn:Hk; [|discriminate].
    destruct (keyed l) as [kl'|]; [|discriminate]. injection H as <-.
    destruct (IH kl' eq_refl) as (Hlen & Hnum & Hstr).
    cbn [length forallb fst]. unfold number_key at 1, string_key at 1.
    rewrite Hk, Hlen, Hnum, Hstr. repeat split; now destruct k.
Qed.

(** X17: once the report directories are loaded, and no timestamp is a
    [NaN] or a list, [scan_reports] returns a listing exactly when there is
    at most one report, or all timestamps are numbers, or all are strings
    (a missing timestamp is the string ""); otherwise, with two reports or
    more, sorting raises [TypeError].  Two reports whose timestamps are
    [null] are enough for that. *)
Theorem X17_scan_raises_on_mixed_timestamps :
  forall (M : Type) (json_load : string -> decoded) (mtime : string -> M)
         (reports_path : string) (reports_dir : node)
         (loaded : list (report * M)),
    scan_loop json_load mtime reports_path (entries_of reports_dir) []
    = Returns loaded ->
    forallb has_order_key loaded = true ->
    ((exists l, scan_reports json_load mtime reports_path reports_dir
                = Some (Returns l))
     <-> (length loaded <= 1)%nat
         \/ forallb number_key loaded = true
         \/ forallb string_key loaded = true)
    /\ (scan_reports json_load mtime reports_path reports_dir
        = Some (Raises TypeError)
        <-> (2 <= length loaded)%nat
            /\ forallb number_key loaded = false
            /\ forallb string_key loaded = false).
Proof.
  intros M json_load mtime reports_path reports_dir loaded Hl Hkeys.
  destruct (keyed_some loaded Hkeys) as [kl Hk].
  destruct (keyed_kinds loaded kl Hk) as (Hlen & Hnum & Hstr).
  pose proof (sort_desc_returns_iff kl) as Hiff.
  rewrite Hlen, Hnum, Hstr in Hiff.
  unfold scan_reports. rewrite Hl, Hk.
  destruct (sort_desc kl) as [s|e] eqn:Hs.
  - destruct Hiff as [Hiff _]. specialize (Hiff (ex_intro _ s eq_refl)).
    split.
    + split; [intros _; exact Hiff | intros _; eauto].
    + split; [discriminate|]. intros (H2 & Hn & Hst).
      destruct Hiff as [H1 | [H | H]]; [lia | congruence | congruence].
  - apply sort_desc_raises in Hs as ->. destruct Hiff as [_ Hiff].
    split.
    + split; [intros [l [=]]|]. intros H. destruct (Hiff H) as [s [=]].
    + split; [|reflexivity]. intros _.
      destruct (forallb number_key loaded) eqn:Hn.
      { destruct Hiff as [s [=]]. auto. }
      destruct (forallb string_key loaded) eqn:Hst.
      { destruct Hiff as [s [=]]. auto. }
      repeat split.
      destruct (le_lt_dec (length loaded) 1) as [H1|H1]; [|lia].
      destruct Hiff as [s [=]]. auto.
Qed.

(** Two reports with a [null] timestamp: the listing raises. *)
Lemma scan_reports_null_timestamps :
  scan_reports null_stamp_load (fun _ : string => 0) "/srv" two_reports_store
  = Some (Raises TypeError).
Proof. vm_compute. reflexivity. Qed.

Lemma X17_scan_raises_on_mixed_timestamps_witness :
  ((exists l, scan_reports null_stamp_load (fun _ : string => 0) "/srv"
                two_reports_store = Some (Returns l))
   <-> (length [(null_stamped "/srv/old", 0); (null_stamped "/srv/new", 0)] <= 1)%nat
       \/ forallb number_key
            [(null_stamped "/srv/old", 0); (null_stamped "/srv/new", 0)] = true
       \/ forallb string_key
            [(null_stamped "/srv/old", 0); (null_stamped "/srv/new", 0)] = true)
  /\ (scan_reports null_stamp_load (fun _ : string => 0) "/srv" two_reports_store
      = Some (Raises TypeError)
      <-> (2 <= length [(null_stamped "/srv/old", 0); (null_stamped "/srv/new", 0)])%nat
          /\ forallb number_key
               [(null_stamped "/srv/old", 0); (null_stamped "/srv/new", 0)] = false
          /\ forallb string_key
               [(null_stamped "/srv/old", 0); (null_stamped "/srv/new", 0)] = false).
Proof.
  apply (X17_scan_raises_on_mixed_timestamps Z null_stamp_load (fun _ => 0) "/srv"
           two_reports_store
           [(null_stamped "/srv/old", 0); (null_stamped "/srv/new", 0)]).
  - vm_compute. reflexivity.
  - vm_compute. reflexivity.
Defined.

(** ** When the listing route fails *)

Lemma scan_body_raises {M : Type} json_load (mtime : string -> M) reports_path
    es name d reports :
  assoc name es = Some d ->
  (exists x, scan_body json_load mtime reports_path reports (name, d) = Raises x)
  <-> String.prefix "." name = false
      /\ exists x, get_report json_load reports_path (Dir es) name = Raises x.
Proof.
  intros Ha. unfold scan_body, get_report. cbn [fst snd child]. rewrite Ha.
  destruct (child d "report.json") as [f|] eqn:Hf.
  - assert (is_dir d = true) as -> by (destruct d; [discriminate Hf | reflexivity]).
    destruct (String.prefix "." name); cbn [andb negb].
    + split; [intros [x [=]] | intros [[=] _]].
    + destruct (load_report json_load f _) as [[r'|]|x].
      * split; [intros [x [=]] | intros (_ & x & [=])].
      * split; [intros [x [=]] | intros (_ & x & [=])].
      * split; eauto.
  - destruct (is_dir d && negb (String.prefix "." name));
      (split; [intros [x [=]] | intros (_ & x & [=])]).
Qed.

Lemma scan_loop_raises {M : Type} json_load (mtime : string -> M) reports_path es :
  forall reports,
    (exists x, scan_loop json_load mtime reports_path es reports = Raises x)
    <-> exists e reports', In e es
          /\ exists x, scan_body json_load mtime reports_path reports' e = Raises x.
Proof.
  assert (forall e r1 r2,
             (exists x, scan_body json_load mtime reports_path r1 e = Raises x) ->
             exists x, scan_body json_load mtime reports_path r2 e = Raises x) as Hind.
  { intros e r1 r2. unfold scan_body.
    destruct (is_dir (snd e) && negb (String.prefix "." (fst e))); [|intros [x [=]]].
    destruct (child (snd e) "report.json") as [f|]; [|intros [x [=]]].
    destruct (load_report json_load f _) as [[r'|]|x]; try (intros [x [=]]). eauto. }
  induction es as [|e es IH]; intros reports; cbn [scan_loop].
  - split; [intros [x [=]] | intros (e & r & [] & _)].
  - destruct (scan_body json_load mtime reports_path reports e) as [r1|x] eqn:Hb.
    + rewrite IH. split.
      * intros (e' & r' & Hin & Hx). exists e', r'. split; [now right | exact Hx].
      * intros (e' & r' & [<- | Hin] & Hx).
        -- destruct (Hind _ _ reports Hx) as [x Hx']. congruence.
        -- exists e', r'. split; [exact Hin | exact Hx].
    + split; [|intros _; now exists x]. intros _.
      exists e, reports. split; [now left | now exists x].
Qed.

Lemma listed_path {M : Type} json_load (mtime : string -> M) reports_path e x :
  In x (listed json_load mtime reports_path e) ->
  report_path (fst x) = Some (path_join reports_path (fst e)).
Proof.
  unfold listed, load_report.
  destruct (is_dir (snd e) && negb (String.prefix "." (fst e))); [|intros []].
  destruct (child (snd e) "report.json") as [f|]; [|intros []].
  destruct (read_text f) as [content| |]; [|intros []|intros []].
  destruct (json_load content) as [r0| |]; [|intros []|intros []].
  intros [<- | []]. reflexivity.
Qed.

Lemma listed_NoDup {M : Type} json_load (mtime : string -> M) reports_path es :
  NoDup (map fst es) ->
  NoDup (flat_map (listed json_load mtime reports_path) es).
Proof.
  induction es as [|e es IH]; cbn [map flat_map]; [constructor|].
  intros [Hne Hnd]%NoDup_cons. apply NoDup_app. split; [|split].
  - unfold listed.
    destruct (is_dir (snd e) && negb (String.prefix "." (fst e))); [|constructor].
    destruct (child (snd e) "report.json") as [f|]; [|constructor].
    destruct (load_report json_load f _) as [[r|]|]; try constructor.
    + apply not_elem_of_nil.
    + constructor.
  - intros x Hx Hx'. apply list_elem_of_In in Hx, Hx'.
    apply in_flat_map in Hx' as (e' & He' & Hx').
    apply listed_path in Hx, Hx'. rewrite Hx in Hx'. injection Hx' as Hp.
    apply path_join_inj in Hp. apply Hne. rewrite Hp.
    apply list_elem_of_In, in_map, He'.
  - now apply IH.
Qed.

Lemma keyed_key {M : Type} (l : list (report * M)) kl x :
  keyed l = Some kl -> In x l -> exists k, key_of (sort_key x) = Some k.
Proof.
  revert kl. induction l as [|y l IH]; intros kl H Hin; [destruct Hin|].
  cbn [keyed] in H. destruct (key_of (sort_key y)) as [k|] eqn:Hk; [|discriminate].
  destruct (keyed l) as [kl'|]; [|discriminate].
  destruct Hin as [<- | Hin]; [eauto | now apply (IH kl')].
Qed.

Lemma forallb_false_In {A : Type} (f : A -> bool) l :
  forallb f l = false -> exists x, In x l /\ f x = false.
Proof.
  induction l as [|y l IH]; [discriminate|]. cbn [forallb].
  destruct (f y) eqn:Hy.
  - intros H. destruct (IH H) as (x & Hx & Hf). exists x. split; [now right | exact Hf].
  - intros _. exists y. split; [now left | exact Hy].
Qed.

(** Among two reports or more that are neither all numbers nor all
    strings, two have timestamps that cannot be compared. *)
Lemma incomparable_pair {M : Type} (l : list (report * M)) kl :
  keyed l = Some kl -> NoDup l -> (2 <= length l)%nat ->
  forallb number_key l = false -> forallb string_key l = false ->
  exists a b, In a l /\ In b l /\ a <> b /\ incomparable a b.
Proof.
  intros Hk Hnd Hlen Hnum Hstr.
  destruct l as [|a [|b l]]; [simpl in Hlen; lia | simpl in Hlen; lia |].
  assert (a <> b) as Hab.
  { apply NoDup_cons in Hnd as [Ha _]. intros ->. apply Ha. left. }
  destruct (keyed_key _ _ a Hk) as [ka Hka]; [now left|].
  destruct (keyed_key _ _ b Hk) as [kb Hkb]; [right; now left|].
  destruct (py_lt ka kb) as [c|] eqn:Hc.
  - assert (py_lt ka kb <> None) as Hdef by congruence.
    apply py_lt_defined in Hdef as [[Na Nb] | [Sa Sb]].
    + destruct (forallb_false_In _ _ Hnum) as (z & Hz & Hzn).
      destruct (keyed_key _ _ z Hk Hz) as [kz Hkz].
      exists a, z. repeat split; [now left | exact Hz | |].
      * intros ->. unfold number_key in Hzn. rewrite Hka in Hzn.
        destruct ka; discriminate.
      * unfold incomparable, timestamp_lt. rewrite Hka, Hkz. f_equal.
        unfold number_key in Hzn. rewrite Hkz in Hzn.
        destruct ka, kz; try discriminate; reflexivity.
    + destruct (forallb_false_In _ _ Hstr) as (z & Hz & Hzn).
      destruct (keyed_key _ _ z Hk Hz) as [kz Hkz].
      exists a, z. repeat split; [now left | exact Hz | |].
      * intros ->. unfold string_key in Hzn. rewrite Hka in Hzn.
        destruct ka; discriminate.
      * unfold incomparable, timestamp_lt. rewrite Hka, Hkz. f_equal.
        unfold string_key in Hzn. rewrite Hkz in Hzn.
        destruct ka, kz; try discriminate; reflexivity.
  - exists a, b. repeat split; [now left | right; now left | exact Hab |].
    unfold incomparable, timestamp_lt. now rewrite Hka, Hkb, Hc.
Qed.

(** X18: where the listing route answers, it answers 200 or 500, and 500
    exactly when the single-report route answers 500 for some directory
    whose name does not start with a dot, or when two such directories
    hold reports whose timestamps cannot be compared (a number against a
    string, or [null] or a dict against anything).  One such report makes
    the whole listing fail. *)
Theorem X18_listing_fails_iff :
  forall (M : Type) (json_load : string -> decoded) (mtime : string -> M)
         (reports_path : string) (es : list (string * node))
         (resp : response (Z * list (report * M))),
    NoDup (map fst es) ->
    forallb (fun e => plain_name (fst e)) es = true ->
    list_reports json_load mtime reports_path (Dir es) = Some resp ->
    (status_code resp = 200 \/ status_code resp = 500)
    /\ (status_code resp = 500
        <-> (exists name,
               plain_name name = true /\ String.prefix "." name = false
               /\ status_code (get_report_route json_load reports_path (Dir es) name)
                  = 500)
            \/ (exists n1 n2 a b,
                  n1 <> n2
                  /\ served_as json_load mtime reports_path (Dir es) n1 a
                  /\ served_as json_load mtime reports_path (Dir es) n2 b
                  /\ incomparable a b)).
Proof.
  intros M json_load mtime reports_path es resp Hnd Hplain Hresp.
  rewrite forallb_forall in Hplain.
  assert (forall name, status_code (get_report_route json_load reports_path (Dir es) name)
                       = 500
                       <-> exists x, get_report json_load reports_path (Dir es) name
                                     = Raises x) as H500.
  { intros name. unfold get_report_route.
    destruct (get_report json_load reports_path (Dir es) name) as [[r|]|x]; cbn.
    - split; [discriminate | intros [x [=]]].
    - split; [discriminate | intros [x [=]]].
    - split; eauto. }
  assert (forall name r, get_report_route json_load reports_path (Dir es) name = Success r
                         <-> get_report json_load reports_path (Dir es) name
                             = Returns (Some r)) as H200.
  { intros name r. unfold get_report_route.
    destruct (get_report json_load reports_path (Dir es) name) as [[r'|]|x];
      split; congruence. }
  assert (forall x,
             In x (flat_map (listed json_load mtime reports_path) es)
             <-> exists name, served_as json_load mtime reports_path (Dir es) name x)
    as Hlisted.
  { intros [r mt]. rewrite in_flat_map. unfold served_as. cbn [fst snd]. split.
    - intros ([name d] & Hin & Hl). exists name.
      apply (listed_get_report json_load mtime reports_path es name d r mt
               (assoc_In _ _ _ Hnd Hin)) in Hl as (Hh & Hg & Hm).
      repeat split; [exact (Hplain _ Hin) | exact Hh | now apply H200 | exact Hm].
    - intros (name & _ & Hh & Hg & Hm). apply H200 in Hg.
      assert (exists d, assoc name es = Some d) as [d Ha].
      { unfold get_report in Hg. cbn [child] in Hg.
        destruct (assoc name es) as [d|]; [eauto | discriminate]. }
      exists (name, d). split; [now apply assoc_Some_In|].
      now apply (listed_get_report json_load mtime reports_path es name d r mt Ha). }
  assert ((exists x, scan_loop json_load mtime reports_path es [] = Raises x)
          <-> exists name, plain_name name = true /\ String.prefix "." name = false
                /\ status_code (get_report_route json_load reports_path (Dir es) name)
                   = 500) as Hloop.
  { rewrite scan_loop_raises. split.
    - intros ([name d] & r' & Hin & Hx).
      apply (scan_body_raises json_load mtime reports_path es name d r'
               (assoc_In _ _ _ Hnd Hin)) in Hx as [Hh Hx].
      exists name. repeat split; [exact (Hplain _ Hin) | exact Hh | now apply H500].
    - intros (name & _ & Hh & Hx). apply H500 in Hx.
      assert (exists d, assoc name es = Some d) as [d Ha].
      { destruct Hx as [x Hx]. unfold get_report in Hx. cbn [child] in Hx.
        destruct (assoc name es) as [d|]; [eauto | discriminate]. }
      exists (name, d), []. split; [now apply assoc_Some_In|].
      apply (scan_body_raises json_load mtime reports_path es name d [] Ha). auto. }
  unfold list_reports, scan_reports in Hresp. cbn [entries_of] in Hresp.
  destruct (scan_loop json_load mtime reports_path es []) as [loaded|x] eqn:Hl.
  - pose proof (scan_loop_listed _ _ _ _ _ _ Hl) as Hloaded. cbn [app] in Hloaded.
    destruct (keyed loaded) as [kl|] eqn:Hk; [|discriminate].
    destruct (keyed_kinds loaded kl Hk) as (Hlen & Hnum & Hstr).
    pose proof (sort_desc_returns_iff kl) as Hiff.
    rewrite Hlen, Hnum, Hstr in Hiff.
    destruct (sort_desc kl) as [s|e] eqn:Hs; injection Hresp as <-;
      cbn [status_code].
    + split; [now left|]. split; [discriminate|]. intros H. exfalso.
      destruct H as [Hbad | (n1 & n2 & a & b & Hne & Ha & Hb & Hinc)].
      * apply Hloop in Hbad as [x Hx]. discriminate.
      * assert (In a loaded) as Hina by (subst loaded; apply Hlisted; eauto).
        assert (In b loaded) as Hinb by (subst loaded; apply Hlisted; eauto).
        unfold incomparable, timestamp_lt in Hinc.
        destruct Hiff as [Hiff _].
        destruct (Hiff (ex_intro _ s eq_refl)) as [H1 | [Hn | Hst]].
        -- apply Hne.
           assert (a = b) as Hab.
           { destruct loaded as [|c [|c' l']]; [destruct Hina | | simpl in H1; lia].
             destruct Hina as [<- | []], Hinb as [<- | []]. reflexivity. }
           destruct Ha as (_ & _ & Ha & _), Hb as (_ & _ & Hb & _).
           rewrite Hab in Ha. apply H200 in Ha, Hb.
           apply get_report_some in Ha as (? & ? & ? & ra & _ & _ & _ & _ & Hra).
           apply get_report_some in Hb as (? & ? & ? & rb & _ & _ & _ & _ & Hrb).
           rewrite Hra in Hrb. injection Hrb as _ _ _ Hp.
           now apply path_join_inj in Hp.
        -- rewrite forallb_forall in Hn.
           pose proof (Hn a Hina) as Na. pose proof (Hn b Hinb) as Nb.
           unfold number_key in Na, Nb.
           destruct (key_of (sort_key a)) as [[| |]|]; try discriminate.
           destruct (key_of (sort_key b)) as [[| |]|]; discriminate.
        -- rewrite forallb_forall in Hst.
           pose proof (Hst a Hina) as Sa. pose proof (Hst b Hinb) as Sb.
           unfold string_key in Sa, Sb.
           destruct (key_of (sort_key a)) as [[| |]|]; try discriminate.
           destruct (key_of (sort_key b)) as [[| |]|]; discriminate.
    + split; [now right|]. split; [|reflexivity]. intros _. right.
      destruct Hiff as [_ Hiff].
      assert ((2 <= length loaded)%nat
              /\ forallb number_key loaded = false
              /\ forallb string_key loaded = false) as (H2 & Hn & Hst).
      { destruct (forallb number_key loaded); [destruct Hiff as [? [=]]; auto|].
        destruct (forallb string_key loaded); [destruct Hiff as [? [=]]; auto|].
        repeat split.
        destruct (le_lt_dec (length loaded) 1) as [H1|H1]; [|lia].
        destruct Hiff as [? [=]]. auto. }
      assert (NoDup loaded) as Hndl by (subst loaded; now apply listed_NoDup).
      destruct (incomparable_pair loaded kl Hk Hndl H2 Hn Hst)
        as (a & b & Hina & Hinb & Hab & Hinc).
      rewrite Hloaded in Hina, Hinb.
      apply Hlisted in Hina as [n1 Ha]. apply Hlisted in Hinb as [n2 Hb].
      exists n1, n2, a, b.
      split; [|split; [exact Ha | split; [exact Hb | exact Hinc]]].
      intros ->. apply Hab.
      destruct Ha as (_ & _ & Ha & Hma), Hb as (_ & _ & Hb & Hmb).
      rewrite Ha in Hb. injection Hb as Hfst.
      destruct a as [ra ma], b as [rb mb]. cbn [fst snd] in *. congruence.
  - injection Hresp as <-. cbn [status_code]. split; [now right|].
    split; [|reflexivity]. intros _. left. apply Hloop. eauto.
Qed.

Lemma X18_listing_fails_iff_witness :
  (status_code (ServerError (A := Z * list (report * Z)) TypeError) = 200
   \/ status_code (ServerError (A := Z * list (report * Z)) TypeError) = 500)
  /\ (status_code (ServerError (A := Z * list (report * Z)) TypeError) = 500
      <-> (exists name,
             plain_name name = true /\ String.prefix "." name = false
             /\ status_code (get_report_route null_stamp_load "/srv"
                               (Dir (entries_of two_reports_store)) name) = 500)
          \/ (exists n1 n2 a b,
                n1 <> n2
                /\ served_as null_stamp_load (fun _ : string => 0) "/srv"
                     (Dir (entries_of two_reports_store)) n1 a
                /\ served_as null_stamp_load (fun _ : string => 0) "/srv"
                     (Dir (entries_of two_reports_store)) n2 b
                /\ incomparable a b)).
Proof.
  apply (X18_listing_fails_iff Z null_stamp_load (fun _ => 0) "/srv"
           (entries_of two_reports_store) (ServerError TypeError)).
  - apply (bool_decide_unpack _). vm_compute. reflexivity.
  - vm_compute. reflexivity.
  - vm_compute. reflexivity.
Defined.
